(** * Botarr web client: state synchronisation, normalisation and settings

    A shallow embedding of the client-side logic of the Botarr web front end
    (web/src/App.tsx, the SearchResults, SettingsTab and HistoryTab
    components and the useToast hook), with the properties its design
    document states about them, followed by further properties of the same
    components and of the search bar, the transfer list and
    utils/format.ts.

    Conventions of the embedding.
    - A JavaScript string is a [string]: a sequence of bytes holding UTF-8
      text.  The case mapping of [toLowerCase] and the white space of [trim]
      are those of the ASCII range; bytes above 127 are left as they are,
      so these two agree with the built-ins on ASCII text.
    - A value that crosses the HTTP boundary is a [value] (the JavaScript
      values JSON can denote, and [VUndefined]); numbers are exact rationals,
      the rounding of IEEE doubles is not part of the model.
    - An asynchronous handler is a computation in the monad [M]: it threads
      the state of its component and the trace of the effects it performed
      (requests sent, console lines), and ends in a value or in a thrown
      exception.  A promise that rejects is a computation that throws. *)

From Stdlib Require Import ZArith QArith String Ascii List Bool Lia.
From Stdlib Require Import Permutation.
From stdpp Require Import gmap strings list sorting.

Import ListNotations.
Local Open Scope string_scope.
Local Open Scope Z_scope.

(* ===================================================================== *)
(** ** Strings, as the JavaScript built-ins act on them                   *)
(* ===================================================================== *)

Module Str.

Definition chars (s : string) : list ascii := list_ascii_of_string s.
Definition of_chars (l : list ascii) : string := string_of_list_ascii l.

(** [c.toLowerCase()] on one ASCII character. *)
Definition lower_char (c : ascii) : ascii :=
  let n := nat_of_ascii c in
  if ((65 <=? n)%nat && (n <=? 90)%nat)%bool then ascii_of_nat (n + 32) else c.

(** [s.toLowerCase()], on text of the ASCII range: there the built-in maps
    A-Z to a-z one character at a time and leaves the rest.  Outside that
    range the built-in follows the Unicode case mapping, which can depend
    on the neighbours of a character (a capital sigma at the end of a
    word); a statement that rests on the case mapping of a concatenation
    is therefore made for ASCII text, see [Spec.ascii_text]. *)
Fixpoint toLowerCase (s : string) : string :=
  match s with
  | EmptyString => EmptyString
  | String c r => String (lower_char c) (toLowerCase r)
  end.

(** [s.startsWith(p)] and the rest of [s] after [p]. *)
Fixpoint strip_prefix (p s : string) : option string :=
  match p with
  | EmptyString => Some s
  | String a p' =>
      match s with
      | EmptyString => None
      | String b s' => if Ascii.eqb a b then strip_prefix p' s' else None
      end
  end.

Definition startsWith (s p : string) : bool :=
  match strip_prefix p s with Some _ => true | None => false end.

(** White space of [String.prototype.trim] in the ASCII range:
    TAB, LF, VT, FF, CR and SPACE. *)
Definition is_space (c : ascii) : bool :=
  let n := nat_of_ascii c in
  (((9 <=? n)%nat && (n <=? 13)%nat) || (n =? 32)%nat)%bool.

Fixpoint drop_spaces (l : list ascii) : list ascii :=
  match l with
  | [] => []
  | c :: r => if is_space c then drop_spaces r else l
  end.

(** [s.trim()] *)
Definition trim (s : string) : string :=
  of_chars (rev (drop_spaces (rev (drop_spaces (chars s))))).

(** [s.split(sep)] for a one-character separator: never empty, the empty
    string splits into one empty segment. *)
Fixpoint split (sep : ascii) (s : string) : list string :=
  match s with
  | EmptyString => [EmptyString]
  | String c r =>
      if Ascii.eqb c sep then EmptyString :: split sep r
      else match split sep r with
           | h :: t => String c h :: t
           | [] => [String c EmptyString]
           end
  end.

(** [l.join(sep)] *)
Fixpoint join (sep : string) (l : list string) : string :=
  match l with
  | [] => EmptyString
  | [x] => x
  | x :: r => x ++ sep ++ join sep r
  end.

Fixpoint contains_char (c : ascii) (s : string) : bool :=
  match s with
  | EmptyString => false
  | String a r => (Ascii.eqb a c || contains_char c r)%bool
  end.

Definition is_empty (s : string) : bool :=
  match s with EmptyString => true | _ => false end.

End Str.

(* ===================================================================== *)
(** ** SearchResults: server normalisation and the server facet           *)
(* ===================================================================== *)

(** types.ts, [XdccSearchResult] *)
Record XdccSearchResult := {
  server : string;
  bot : string;
  pack_number : Z;
  file_size : Z;
  file_name : string;
  downloads : Z;
  channel : string
}.

Module SearchResults.

(** [norm.replace(/^irc\./, '')]: one leading "irc." is removed, once. *)
Definition strip_irc (s : string) : string :=
  match Str.strip_prefix "irc." s with
  | Some rest => rest
  | None => s
  end.

(** SearchResults.tsx, [normalizeServer] *)
Definition normalizeServer (s : string) : string :=
  let norm := Str.toLowerCase s in
  let norm := strip_irc norm in
  norm.

(** A JavaScript [Map<string, string>]: the entries in insertion order. *)
Definition StrMap := list (string * string).

Definition map_has (m : StrMap) (k : string) : bool :=
  existsb (fun e => String.eqb (fst e) k) m.

(** [m.set(k, v)]: a present key keeps its place and takes the new value,
    a new key goes to the end. *)
Fixpoint map_set (m : StrMap) (k v : string) : StrMap :=
  match m with
  | [] => [(k, v)]
  | (k', v') :: r =>
      if String.eqb k' k then (k', v) :: r else (k', v') :: map_set r k v
  end.

Definition map_values (m : StrMap) : list string := map snd m.

(** The body of [results.forEach(r => ...)] in the [servers] memo. *)
Definition see (seen : StrMap) (r : XdccSearchResult) : StrMap :=
  let norm := normalizeServer (server r) in
  if negb (map_has seen norm) then map_set seen norm (server r) else seen.

Definition seen_servers (results : list XdccSearchResult) : StrMap :=
  fold_left see results [].

(** The order of [Array.prototype.sort] without a comparator, on byte
    strings. *)
Definition str_le (a b : string) : Prop := String.leb a b = true.

#[global] Instance str_le_dec (a b : string) : Decision (str_le a b).
Proof. unfold str_le. apply _. Defined.

(** SearchResults.tsx, [servers] *)
Definition servers (results : list XdccSearchResult) : list string :=
  merge_sort str_le (map_values (seen_servers results)).

(** The raw server string of the first result, in input order, whose
    server normalises to [key]. *)
Definition first_raw (key : string) (results : list XdccSearchResult)
  : option string :=
  option_map server
    (List.find (fun r => String.eqb (normalizeServer (server r)) key) results).

(** The facet entries that stand for [key]. *)
Definition entries_for (key : string) (facet : list string) : list string :=
  List.filter (fun e => String.eqb (normalizeServer e) key) facet.

End SearchResults.

(* ===================================================================== *)
(** ** SettingsTab: the autojoin-channels input                           *)
(* ===================================================================== *)

Module AutojoinInput.

(** The list [handleBlur] hands to [onChange]. *)
Definition parse_channels (localValue : string) : list string :=
  List.filter (fun c => negb (Str.is_empty c))
    (List.map Str.trim (Str.split "," localValue)).

(** SearchResults.tsx (SettingsTab part), [AutojoinInput.handleBlur]:
    the draft is parsed and the result is passed to [onChange]. *)
Definition handleBlur {R : Type} (localValue : string)
    (onChange : list string -> R) : R :=
  let channels := parse_channels localValue in
  onChange channels.

End AutojoinInput.

(* ===================================================================== *)
(** ** JavaScript values, exceptions and JSON text                        *)
(* ===================================================================== *)

(** The exceptions the modelled code can meet. *)
Inductive exn :=
| NetworkError   (* [fetch] rejects: the request did not get a response *)
| SyntaxError    (* [JSON.parse] and [Response.json] on text that is not JSON *)
| TypeError.     (* a property read on [null] or [undefined], a call of a
                    value that is not a function *)

(** The outcome of evaluating an expression or running a handler. *)
Inductive result (A : Type) :=
| Ok (a : A)
| Throw (e : exn).
Arguments Ok {A} a.
Arguments Throw {A} e.

Definition rbind {A B} (r : result A) (k : A -> result B) : result B :=
  match r with
  | Ok a => k a
  | Throw e => Throw e
  end.

#[warnings="-register-all"]
Inductive value :=
| VUndefined
| VNull
| VBool (b : bool)
| VNum (q : Q)
| VStr (s : string)
| VArr (items : list value)
| VObj (fields : list (string * value)).

Module Js.

Definition num (n : Z) : value := VNum (inject_Z n).

(** ToBoolean *)
Definition truthy (v : value) : bool :=
  match v with
  | VUndefined | VNull => false
  | VBool b => b
  | VNum q => negb (Qnum q =? 0)
  | VStr s => negb (Str.is_empty s)
  | VArr _ | VObj _ => true
  end.

(** [a || b] *)
Definition or (a b : value) : value := if truthy a then a else b.

Fixpoint lookup_field (fields : list (string * value)) (name : string)
  : value :=
  match fields with
  | [] => VUndefined
  | (k, v) :: r => if String.eqb k name then v else lookup_field r name
  end.

(** [v.name], for the property names the source reads: the data
    properties of the payloads and [length].  None of them is defined on
    a prototype, so a value without the own property gives [undefined];
    reading any property of [null] or [undefined] throws. *)
Definition get (v : value) (name : string) : result value :=
  match v with
  | VUndefined | VNull => Throw TypeError
  | VObj fields => Ok (lookup_field fields name)
  | VArr items =>
      Ok (if String.eqb name "length" then num (Z.of_nat (List.length items))
          else VUndefined)
  | VStr s =>
      Ok (if String.eqb name "length" then num (Z.of_nat (String.length s))
          else VUndefined)
  | VBool _ | VNum _ => Ok VUndefined
  end.

(** Assignment of an own property while an object literal is read:
    a repeated key keeps its place and takes the later value. *)
Fixpoint set_field (fields : list (string * value)) (k : string) (v : value)
  : list (string * value) :=
  match fields with
  | [] => [(k, v)]
  | (k', v') :: r =>
      if String.eqb k' k then (k', v) :: r else (k', v') :: set_field r k v
  end.

End Js.

(** [JSON.parse], after RFC 8259 / ECMA-404. *)
Module Json.

Definition ch (c : ascii) (d : ascii) : bool := Ascii.eqb c d.

Definition dquote : ascii := "034"%char.

Definition is_ws (c : ascii) : bool :=
  let n := nat_of_ascii c in
  ((n =? 32) || (n =? 9) || (n =? 10) || (n =? 13))%nat%bool.

Fixpoint skip_ws (l : list ascii) : list ascii :=
  match l with
  | c :: r => if is_ws c then skip_ws r else l
  | [] => []
  end.

Fixpoint strip_lit (lit : list ascii) (l : list ascii) : option (list ascii) :=
  match lit with
  | [] => Some l
  | a :: lit' =>
      match l with
      | b :: l' => if ch a b then strip_lit lit' l' else None
      | [] => None
      end
  end.

Definition digit_val (c : ascii) : option Z :=
  let n := Z.of_nat (nat_of_ascii c) in
  if (48 <=? n) && (n <=? 57) then Some (n - 48) else None.

Definition hex_val (c : ascii) : option Z :=
  let n := Z.of_nat (nat_of_ascii c) in
  if (48 <=? n) && (n <=? 57) then Some (n - 48)
  else if (65 <=? n) && (n <=? 70) then Some (n - 55)
  else if (97 <=? n) && (n <=? 102) then Some (n - 87)
  else None.

(** The longest run of decimal digits at the head of [l]. *)
Fixpoint take_digits (l : list ascii) : list Z * list ascii :=
  match l with
  | c :: r =>
      match digit_val c with
      | Some d => let '(ds, rest) := take_digits r in (d :: ds, rest)
      | None => ([], l)
      end
  | [] => ([], [])
  end.

Definition digits_value (ds : list Z) : Z :=
  fold_left (fun acc d => 10 * acc + d) ds 0.

(** The integer part: a single 0, or a run of digits that does not start
    with 0. *)
Definition parse_int (l : list ascii) : option (list Z * list ascii) :=
  match l with
  | c :: r =>
      match digit_val c with
      | Some 0 => Some ([0], r)
      | Some _ => Some (take_digits l)
      | None => None
      end
  | [] => None
  end.

Definition parse_frac (l : list ascii) : option (list Z * list ascii) :=
  match l with
  | c :: r =>
      if ch c "." then
        match take_digits r with
        | ([], _) => None
        | (ds, rest) => Some (ds, rest)
        end
      else Some ([], l)
  | [] => Some ([], [])
  end.

Definition parse_exp (l : list ascii) : option (Z * list ascii) :=
  match l with
  | c :: r =>
      if ch c "e" || ch c "E" then
        let '(neg, r1) :=
          match r with
          | s :: r' => if ch s "-" then (true, r')
                       else if ch s "+" then (false, r') else (false, r)
          | [] => (false, r)
          end in
        match take_digits r1 with
        | ([], _) => None
        | (ds, rest) =>
            Some (if neg then - digits_value ds else digits_value ds, rest)
        end
      else Some (0, l)
  | [] => Some (0, [])
  end.

(** The rational [m * 10^e], in lowest terms. *)
Definition decimal (m e : Z) : Q :=
  if 0 <=? e then inject_Z (m * 10 ^ e)
  else Qred (Qmake m (Z.to_pos (10 ^ (- e)))).

Definition parse_number (l : list ascii) : option (value * list ascii) :=
  let '(neg, l1) :=
    match l with
    | c :: r => if ch c "-" then (true, r) else (false, l)
    | [] => (false, l)
    end in
  match parse_int l1 with
  | None => None
  | Some (ids, l2) =>
      match parse_frac l2 with
      | None => None
      | Some (fds, l3) =>
          match parse_exp l3 with
          | None => None
          | Some (e, l4) =>
              let m := digits_value (ids ++ fds) in
              let m := if neg then - m else m in
              Some (VNum (decimal m (e - Z.of_nat (List.length fds))), l4)
          end
      end
  end.

(** The pieces of a string literal: a byte of the text, or the UTF-16
    code unit of a [\uXXXX] escape. *)
Inductive piece :=
| Raw (c : ascii)
| Unit16 (u : Z).

Definition byte (n : Z) : ascii := ascii_of_nat (Z.to_nat n).

(** UTF-8 of a code point. *)
Definition utf8 (cp : Z) : list ascii :=
  if cp <? 128 then [byte cp]
  else if cp <? 2048 then [byte (192 + cp / 64); byte (128 + cp mod 64)]
  else if cp <? 65536 then
    [byte (224 + cp / 4096); byte (128 + (cp / 64) mod 64);
     byte (128 + cp mod 64)]
  else
    [byte (240 + cp / 262144); byte (128 + (cp / 4096) mod 64);
     byte (128 + (cp / 64) mod 64); byte (128 + cp mod 64)].

Definition is_high (u : Z) : bool := (55296 <=? u) && (u <=? 56319).
Definition is_low (u : Z) : bool := (56320 <=? u) && (u <=? 57343).

(** The text of a literal: a high surrogate followed by a low one is one
    code point. *)
Fixpoint encode (ps : list piece) : list ascii :=
  match ps with
  | [] => []
  | Raw c :: r => c :: encode r
  | Unit16 u :: r =>
      match r with
      | Unit16 w :: r' =>
          if is_high u && is_low w
          then utf8 (65536 + (u - 55296) * 1024 + (w - 56320)) ++ encode r'
          else utf8 u ++ encode r
      | _ => utf8 u ++ encode r
      end
  end.

Definition escape (c : ascii) : option ascii :=
  if ch c dquote then Some dquote
  else if ch c "\" then Some "\"%char
  else if ch c "/" then Some "/"%char
  else if ch c "b" then Some "008"%char
  else if ch c "f" then Some "012"%char
  else if ch c "n" then Some "010"%char
  else if ch c "r" then Some "013"%char
  else if ch c "t" then Some "009"%char
  else None.

(** The characters after the opening quote, up to the closing one. *)
Fixpoint parse_chars (l : list ascii) : option (list piece * list ascii) :=
  match l with
  | [] => None
  | c :: r =>
      if ch c dquote then Some ([], r)
      else if ch c "\" then
        match r with
        | e :: r1 =>
            if ch e "u" then
              match r1 with
              | h1 :: h2 :: h3 :: h4 :: r2 =>
                  match hex_val h1, hex_val h2, hex_val h3, hex_val h4 with
                  | Some a, Some b, Some c', Some d =>
                      match parse_chars r2 with
                      | Some (ps, rest) =>
                          Some (Unit16 (((a * 16 + b) * 16 + c') * 16 + d) :: ps,
                                rest)
                      | None => None
                      end
                  | _, _, _, _ => None
                  end
              | _ => None
              end
            else
              match escape e with
              | Some x =>
                  match parse_chars r1 with
                  | Some (ps, rest) => Some (Raw x :: ps, rest)
                  | None => None
                  end
              | None => None
              end
        | [] => None
        end
      else if (nat_of_ascii c <? 32)%nat then None
      else
        match parse_chars r with
        | Some (ps, rest) => Some (Raw c :: ps, rest)
        | None => None
        end
  end.

Definition parse_string (l : list ascii) : option (string * list ascii) :=
  match parse_chars l with
  | Some (ps, rest) => Some (Str.of_chars (encode ps), rest)
  | None => None
  end.

(** One value, with the white space before it.  Each call spends one unit
    of [fuel]; a call that succeeds needs no more fuel than the number of
    characters it consumes ([JsonFacts.fuel_enough]). *)
Fixpoint parse_value (fuel : nat) (l : list ascii)
  : option (value * list ascii) :=
  match fuel with
  | O => None
  | S fuel' =>
      match skip_ws l with
      | [] => None
      | c :: r =>
          if ch c "{" then
            match skip_ws r with
            | d :: r' =>
                if ch d "}" then Some (VObj [], r')
                else parse_members fuel' [] r
            | [] => None
            end
          else if ch c "[" then
            match skip_ws r with
            | d :: r' =>
                if ch d "]" then Some (VArr [], r')
                else parse_elements fuel' [] r
            | [] => None
            end
          else if ch c dquote then
            match parse_string r with
            | Some (s, rest) => Some (VStr s, rest)
            | None => None
            end
          else if ch c "t" then
            option_map (pair (VBool true)) (strip_lit (Str.chars "true") (c :: r))
          else if ch c "f" then
            option_map (pair (VBool false)) (strip_lit (Str.chars "false") (c :: r))
          else if ch c "n" then
            option_map (pair VNull) (strip_lit (Str.chars "null") (c :: r))
          else parse_number (c :: r)
      end
  end

(** The elements of an array after "[" or ",", up to "]"; [acc] holds the
    elements read so far, last first. *)
with parse_elements (fuel : nat) (acc : list value) (l : list ascii)
  : option (value * list ascii) :=
  match fuel with
  | O => None
  | S fuel' =>
      match parse_value fuel' l with
      | Some (v, r) =>
          match skip_ws r with
          | c :: r' =>
              if ch c "," then parse_elements fuel' (v :: acc) r'
              else if ch c "]" then Some (VArr (rev (v :: acc)), r')
              else None
          | [] => None
          end
      | None => None
      end
  end

(** The members of an object after "{" or ",", up to "}". *)
with parse_members (fuel : nat) (acc : list (string * value)) (l : list ascii)
  : option (value * list ascii) :=
  match fuel with
  | O => None
  | S fuel' =>
      match skip_ws l with
      | q :: r0 =>
          if ch q dquote then
            match parse_string r0 with
            | Some (k, r1) =>
                match skip_ws r1 with
                | c :: r2 =>
                    if ch c ":" then
                      match parse_value fuel' r2 with
                      | Some (v, r3) =>
                          match skip_ws r3 with
                          | d :: r4 =>
                              if ch d ","
                              then parse_members fuel' (Js.set_field acc k v) r4
                              else if ch d "}"
                              then Some (VObj (Js.set_field acc k v), r4)
                              else None
                          | [] => None
                          end
                      | None => None
                      end
                    else None
                | [] => None
                end
            | None => None
            end
          else None
      | [] => None
      end
  end.

(** [JSON.parse(text)].  The fuel given here is more than any text needs
    ([JsonFacts.parse_any_fuel]). *)
Definition parse (text : string) : result value :=
  let l := Str.chars text in
  match parse_value (2 * List.length l + 2) l with
  | Some (v, rest) =>
      match skip_ws rest with
      | [] => Ok v
      | _ :: _ => Throw SyntaxError
      end
  | None => Throw SyntaxError
  end.

(** A JSON string literal for [s] (for texts written in examples). *)
Definition quoted (s : string) : string :=
  String dquote (s ++ String dquote EmptyString).

End Json.

(** [encodeURIComponent] and the decimal form of an integer in a template
    literal. *)
Module Uri.

Definition unreserved (c : ascii) : bool :=
  let n := nat_of_ascii c in
  (((65 <=? n) && (n <=? 90)) || ((97 <=? n) && (n <=? 122))
   || ((48 <=? n) && (n <=? 57))
   || existsb (Ascii.eqb c) (Str.chars "-_.!~*'()"))%nat%bool.

Definition hex_digit (n : nat) : ascii :=
  if (n <? 10)%nat then ascii_of_nat (48 + n) else ascii_of_nat (55 + n).

Definition escape_char (c : ascii) : string :=
  if unreserved c then String c EmptyString
  else
    let n := nat_of_ascii c in
    String "%" (String (hex_digit (n / 16)) (String (hex_digit (n mod 16))
      EmptyString)).

(** [encodeURIComponent(s)], on well-formed text: every byte outside the
    unreserved set becomes its [%XX] escape. *)
Fixpoint encodeURIComponent (s : string) : string :=
  match s with
  | EmptyString => EmptyString
  | String c r => escape_char c ++ encodeURIComponent r
  end.

Fixpoint digits_of (fuel : nat) (n : Z) (acc : string) : string :=
  match fuel with
  | O => acc
  | S fuel' =>
      let acc' := String (ascii_of_nat (48 + Z.to_nat (n mod 10))) acc in
      if n <? 10 then acc' else digits_of fuel' (n / 10) acc'
  end.

(** [`${n}`] for an integer [n] (below 10^21 in absolute value, where
    JavaScript prints all the digits). *)
Definition of_int (n : Z) : string :=
  let a := Z.abs n in
  let ds := digits_of (S (Z.to_nat (Z.log2 a))) a EmptyString in
  if n <? 0 then String "-" ds else ds.

Definition of_bool (b : bool) : string := if b then "true" else "false".

End Uri.

(* ===================================================================== *)
(** ** The configuration document (types.ts)                              *)
(* ===================================================================== *)

(** [NetworkConfig].  A field is [None] when the object lacks the property:
    the objects the server sends and the ones [addNetwork] builds have them
    all, the object [updateNetwork] builds for a name that is not in the map
    has only the edited one. *)
Record NetworkConfig := {
  host : option string;
  port : option Z;
  ssl : option bool;
  autojoin_channels : option (list string);
  join_delay_secs : option Z
}.

(** [AppConfig] *)
Record AppConfig := {
  use_ssl : bool;
  connect_timeout : Z;
  general_timeout : Z;
  proxy_enabled : bool;
  proxy_url : string;
  nickname : string;
  username : string;
  realname : string;
  max_retries : Z;
  retry_delay : Z;
  queue_limit : Z;
  passive_dcc : bool;
  dcc_port_min : Z;
  dcc_port_max : Z;
  resume_enabled : bool;
  enabled_providers : list string;
  results_per_page : Z;
  search_timeout : Z;
  networks : gmap string NetworkConfig
}.

(* ===================================================================== *)
(** ** Effects: requests, console, exceptions                             *)
(* ===================================================================== *)

Inductive Method := GET | POST | PUT | DELETE.

(** The argument of [JSON.stringify] in a request body. *)
Inductive Body :=
| NoBody
| DownloadBody (url : string)                        (* { url } *)
| NetworkBody (network : NetworkConfig)
| SettingsBody (settings : AppConfig)
| IdsBody (ids : list Z)                             (* { ids } *)
| BulkBody (ids : list string) (delete_files : bool) (* { ids, delete_files } *).

Record Request := {
  method : Method;
  url : string;
  body : Body
}.

Record Response := {
  status : Z;
  text : string   (* the body, as text *)
}.

(** [res.ok] *)
Definition ok (res : Response) : bool :=
  (200 <=? status res) && (status res <=? 299).

(** What a [fetch] meets: no response at all, or a response of any status. *)
Inductive Outcome :=
| Rejected
| Responded (res : Response).

Inductive Event :=
| Sent (req : Request)
| ConsoleError (msg : string) (e : exn).

Definition Trace := list Event.

(** The rest of the world: what each request meets.  No handler sends the
    same request twice in one run. *)
Definition Server := Request -> Outcome.

(** A computation of a component with state [S]. *)
Definition M (S A : Type) : Type :=
  Server -> S -> Trace -> result A * S * Trace.

Module Eff.

Definition ret {S A} (a : A) : M S A := fun _ s t => (Ok a, s, t).

Definition bind {S A B} (m : M S A) (k : A -> M S B) : M S B :=
  fun srv s t =>
    match m srv s t with
    | (Ok a, s', t') => k a srv s' t'
    | (Throw e, s', t') => (Throw e, s', t')
    end.

Definition throw {S A} (e : exn) : M S A := fun _ s t => (Throw e, s, t).

Definition lift {S A} (r : result A) : M S A := fun _ s t => (r, s, t).

Definition gets {S A} (f : S -> A) : M S A := fun _ s t => (Ok (f s), s, t).

Definition modify {S} (f : S -> S) : M S unit := fun _ s t => (Ok tt, f s, t).

(** [try { body } catch (e) { handler }] *)
Definition try_catch {S A} (body : M S A) (handler : exn -> M S A) : M S A :=
  fun srv s t =>
    match body srv s t with
    | (Ok a, s', t') => (Ok a, s', t')
    | (Throw e, s', t') => handler e srv s' t'
    end.

(** [try { body } finally { final }] *)
Definition try_finally {S A} (body : M S A) (final : M S unit) : M S A :=
  fun srv s t =>
    match body srv s t with
    | (r, s', t') =>
        match final srv s' t' with
        | (Ok _, s'', t'') => (r, s'', t'')
        | (Throw e, s'', t'') => (Throw e, s'', t'')
        end
    end.

(** [await fetch(url, { method, body })] *)
Definition fetch {S} (req : Request) : M S Response :=
  fun srv s t =>
    match srv req with
    | Rejected => (Throw NetworkError, s, (t ++ [Sent req])%list)
    | Responded res => (Ok res, s, (t ++ [Sent req])%list)
    end.

(** [console.error(msg, e)] *)
Definition console_error {S} (msg : string) (e : exn) : M S unit :=
  fun _ s t => (Ok tt, s, (t ++ [ConsoleError msg e])%list).

(** The text [Response.json] parses: the body decoded as UTF-8, without a
    leading byte order mark. *)
Definition decoded (body : string) : string :=
  match Str.strip_prefix (Str.of_chars ["239"; "187"; "191"]%char) body with
  | Some rest => rest
  | None => body
  end.

(** [await res.json()] *)
Definition json {S} (res : Response) : M S value :=
  lift (Json.parse (decoded (text res))).

Definition run {S A} (m : M S A) (srv : Server) (s : S) : result A * S * Trace :=
  m srv s [].

End Eff.

Declare Scope eff_scope.
Delimit Scope eff_scope with eff.
Notation "x <- m ;; k" := (Eff.bind m (fun x => k))
  (at level 100, m at next level, right associativity) : eff_scope.
Notation "m ;; k" := (Eff.bind m (fun _ => k))
  (at level 100, right associativity) : eff_scope.

Definition get_ (url : string) : Request :=
  {| method := GET; url := url; body := NoBody |}.
Definition delete_ (url : string) : Request :=
  {| method := DELETE; url := url; body := NoBody |}.
Definition post_ (url : string) (b : Body) : Request :=
  {| method := POST; url := url; body := b |}.
Definition put_ (url : string) (b : Body) : Request :=
  {| method := PUT; url := url; body := b |}.

(* ===================================================================== *)
(** ** hooks/useToast                                                     *)
(* ===================================================================== *)

Inductive ToastType := success | error.

Record ToastState := {
  message : string;
  type : ToastType;
  visible : bool
}.

(** A component that calls [useToast()] holds a toast state of its own. *)
Class UseToast (S : Type) := {
  toast_of : S -> ToastState;
  with_toast : ToastState -> S -> S
}.

Module Toast.

Definition initial : ToastState :=
  {| message := ""; type := success; visible := false |}.

(** [showToast(message, type)] *)
Definition showToast {S} `{UseToast S} (msg : string) (ty : ToastType)
  : M S unit :=
  Eff.modify (with_toast {| message := msg; type := ty; visible := true |}).

(** [hideToast()] *)
Definition hideToast {S} `{UseToast S} : M S unit :=
  Eff.modify (fun s =>
    let prev := toast_of s in
    with_toast {| message := message prev; type := type prev;
                  visible := false |} s).

End Toast.

(* ===================================================================== *)
(** ** App.tsx: the poller, search and the transfer actions               *)
(* ===================================================================== *)

Module App.

Local Open Scope eff_scope.

Inductive Tab := search | activities | history | settings.

(** The [useState] cells of [App] and the state of its [useToast].  The
    cells filled from a response hold whatever the response carried. *)
Record State := {
  activeTab : Tab;
  searchResults : value;
  transfers : value;
  stats : value;
  isLoading : bool;
  queueSize : value;
  toast : ToastState
}.

Definition initial : State :=
  {| activeTab := search; searchResults := VArr []; transfers := VArr [];
     stats := VArr []; isLoading := false; queueSize := Js.num 0;
     toast := Toast.initial |}.

Definition with_searchResults (v : value) (s : State) : State :=
  {| activeTab := activeTab s; searchResults := v; transfers := transfers s;
     stats := stats s; isLoading := isLoading s; queueSize := queueSize s;
     toast := toast s |}.

Definition setSearchResults (v : value) : M State unit :=
  Eff.modify (with_searchResults v).

Definition with_transfers (v : value) (s : State) : State :=
  {| activeTab := activeTab s; searchResults := searchResults s;
     transfers := v; stats := stats s; isLoading := isLoading s;
     queueSize := queueSize s; toast := toast s |}.

Definition setTransfers (v : value) : M State unit :=
  Eff.modify (with_transfers v).

Definition with_stats (v : value) (s : State) : State :=
  {| activeTab := activeTab s; searchResults := searchResults s;
     transfers := transfers s; stats := v; isLoading := isLoading s;
     queueSize := queueSize s; toast := toast s |}.

Definition setStats (v : value) : M State unit :=
  Eff.modify (with_stats v).

Definition with_isLoading (b : bool) (s : State) : State :=
  {| activeTab := activeTab s; searchResults := searchResults s;
     transfers := transfers s; stats := stats s; isLoading := b;
     queueSize := queueSize s; toast := toast s |}.

Definition setIsLoading (b : bool) : M State unit :=
  Eff.modify (with_isLoading b).

Definition with_queueSize (v : value) (s : State) : State :=
  {| activeTab := activeTab s; searchResults := searchResults s;
     transfers := transfers s; stats := stats s; isLoading := isLoading s;
     queueSize := v; toast := toast s |}.

Definition setQueueSize (v : value) : M State unit :=
  Eff.modify (with_queueSize v).

#[global] Instance use_toast : UseToast State := {
  toast_of := toast;
  with_toast t s :=
    {| activeTab := activeTab s; searchResults := searchResults s;
       transfers := transfers s; stats := stats s; isLoading := isLoading s;
       queueSize := queueSize s; toast := t |}
}.

(** [await fetch(url).then(r => r.json())] *)
Definition fetch_json (url : string) : M State value :=
  r <- Eff.fetch (get_ url) ;; Eff.json r.

(** The three blocks of [fetchUpdates], each with its own [try]. *)
Definition fetchStats : M State unit :=
  Eff.try_catch
    (sRes <- fetch_json "/api/bots/stats" ;;
     bots <- Eff.lift (Js.get sRes "bots") ;;
     setStats (Js.or bots (VArr [])))
    (fun e => Eff.console_error "Stats fetch failed" e).

Definition fetchQueue : M State unit :=
  Eff.try_catch
    (qRes <- fetch_json "/api/queue" ;;
     queue_size <- Eff.lift (Js.get qRes "queue_size") ;;
     setQueueSize (Js.or queue_size (Js.num 0)))
    (fun e => Eff.console_error "Queue fetch failed" e).

Definition fetchTransfers : M State unit :=
  Eff.try_catch
    (tRes <- fetch_json "/api/transfers" ;;
     transfers <- Eff.lift (Js.get tRes "transfers") ;;
     setTransfers (Js.or transfers (VArr [])))
    (fun e => Eff.console_error "Transfers fetch failed" e).

(** App.tsx, [fetchUpdates] *)
Definition fetchUpdates : M State unit :=
  Eff.try_catch
    (fetchStats ;; fetchQueue ;; fetchTransfers)
    (fun e => Eff.console_error "Unexpected error in fetchUpdates" e).

Definition search_url (query : string) (providers : list string) : string :=
  let url := "/api/search?query=" ++ Uri.encodeURIComponent query in
  if (0 <? List.length providers)%nat
  then url ++ "&providers=" ++ Uri.encodeURIComponent (Str.join "," providers)
  else url.

(** App.tsx, [handleSearch] *)
Definition handleSearch (query : string) (providers : list string)
  : M State unit :=
  setIsLoading true ;;
  Eff.try_finally
    (Eff.try_catch
       (res <- Eff.fetch (get_ (search_url query providers)) ;;
        data <- Eff.json res ;;
        results <- Eff.lift (Js.get data "results") ;;
        setSearchResults results)
       (fun e =>
          Eff.console_error "Search failed" e ;;
          Toast.showToast "Search failed" error))
    (setIsLoading false).

Definition download_url (result : XdccSearchResult) : string :=
  "irc://" ++ server result ++ "/" ++ channel result ++ "/" ++ bot result
    ++ "/" ++ Uri.of_int (pack_number result).

(** App.tsx, [handleDownload].  [fetchUpdates()] is started and not
    awaited; it never rejects, and it writes cells the rest of the handler
    does not touch, so it is run in sequence here. *)
Definition handleDownload (result : XdccSearchResult) : M State unit :=
  let url := download_url result in
  Eff.try_catch
    (Eff.fetch (post_ "/api/download" (DownloadBody url)) ;;
     Toast.showToast "Download started" success ;;
     fetchUpdates)
    (fun e =>
       Eff.console_error "Download start failed" e ;;
       Toast.showToast "Failed to start download" error).

(** App.tsx, [handleCancel] *)
Definition handleCancel (id : string) : M State unit :=
  Eff.fetch (delete_ ("/api/transfers/" ++ id)) ;;
  fetchUpdates ;;
  Toast.showToast "Transfer cancelled" success.

(** App.tsx, [handleRetry] *)
Definition handleRetry (id : string) : M State unit :=
  Eff.fetch (post_ ("/api/transfers/" ++ id ++ "/retry") NoBody) ;;
  fetchUpdates ;;
  Toast.showToast "Retrying transfer..." success.

End App.

(* ===================================================================== *)
(** ** SettingsTab: the working copy of the configuration                 *)
(* ===================================================================== *)

Module SettingsTab.

Local Open Scope eff_scope.

(** [keyof AppConfig] *)
Inductive Key :=
| K_use_ssl
| K_connect_timeout
| K_general_timeout
| K_proxy_enabled
| K_proxy_url
| K_nickname
| K_username
| K_realname
| K_max_retries
| K_retry_delay
| K_queue_limit
| K_passive_dcc
| K_dcc_port_min
| K_dcc_port_max
| K_resume_enabled
| K_enabled_providers
| K_results_per_page
| K_search_timeout
| K_networks.

(** [AppConfig[K]] *)
Definition field_type (k : Key) : Type :=
  match k with
  | K_use_ssl => bool
  | K_connect_timeout => Z
  | K_general_timeout => Z
  | K_proxy_enabled => bool
  | K_proxy_url => string
  | K_nickname => string
  | K_username => string
  | K_realname => string
  | K_max_retries => Z
  | K_retry_delay => Z
  | K_queue_limit => Z
  | K_passive_dcc => bool
  | K_dcc_port_min => Z
  | K_dcc_port_max => Z
  | K_resume_enabled => bool
  | K_enabled_providers => list string
  | K_results_per_page => Z
  | K_search_timeout => Z
  | K_networks => gmap string NetworkConfig
  end.

(** [settings[key]] *)
Definition field (k : Key) (c : AppConfig) : field_type k :=
  match k with
  | K_use_ssl => use_ssl c
  | K_connect_timeout => connect_timeout c
  | K_general_timeout => general_timeout c
  | K_proxy_enabled => proxy_enabled c
  | K_proxy_url => proxy_url c
  | K_nickname => nickname c
  | K_username => username c
  | K_realname => realname c
  | K_max_retries => max_retries c
  | K_retry_delay => retry_delay c
  | K_queue_limit => queue_limit c
  | K_passive_dcc => passive_dcc c
  | K_dcc_port_min => dcc_port_min c
  | K_dcc_port_max => dcc_port_max c
  | K_resume_enabled => resume_enabled c
  | K_enabled_providers => enabled_providers c
  | K_results_per_page => results_per_page c
  | K_search_timeout => search_timeout c
  | K_networks => networks c
  end.

Definition Key_eq_dec (a b : Key) : {a = b} + {a <> b}.
Proof. decide equality. Defined.

(** The document whose property [k] is [f k], for every key [k]. *)
Definition of_fields (f : forall k, field_type k) : AppConfig :=
  {|
     use_ssl := f K_use_ssl;
     connect_timeout := f K_connect_timeout;
     general_timeout := f K_general_timeout;
     proxy_enabled := f K_proxy_enabled;
     proxy_url := f K_proxy_url;
     nickname := f K_nickname;
     username := f K_username;
     realname := f K_realname;
     max_retries := f K_max_retries;
     retry_delay := f K_retry_delay;
     queue_limit := f K_queue_limit;
     passive_dcc := f K_passive_dcc;
     dcc_port_min := f K_dcc_port_min;
     dcc_port_max := f K_dcc_port_max;
     resume_enabled := f K_resume_enabled;
     enabled_providers := f K_enabled_providers;
     results_per_page := f K_results_per_page;
     search_timeout := f K_search_timeout;
     networks := f K_networks |}.

(** [{ ...settings, [key]: value }]: the properties of [settings], and
    [value] under [key]. *)
Definition with_field (key : Key) (value : field_type key) (c : AppConfig)
  : AppConfig :=
  of_fields (fun k =>
    match Key_eq_dec key k with
    | left e => eq_rect key field_type value k e
    | right _ => field k c
    end).

(** [{ ...settings, networks }] *)
Definition with_networks (nets : gmap string NetworkConfig) (c : AppConfig)
  : AppConfig :=
  with_field K_networks nets c.

(** The pair [field, value] of an [updateNetwork] call. *)
Inductive NetworkEdit :=
| F_host (v : string)
| F_port (v : Z)
| F_ssl (v : bool)
| F_autojoin_channels (v : list string)
| F_join_delay_secs (v : Z).

(** The object with no property: what [{ ...undefined }] spreads to. *)
Definition no_network : NetworkConfig :=
  {| host := None; port := None; ssl := None; autojoin_channels := None;
     join_delay_secs := None |}.

(** [{ ...n, [field]: value }] *)
Definition edited (e : NetworkEdit) (n : NetworkConfig) : NetworkConfig :=
  match e with
  | F_host v =>
      {|
         host := Some v; port := port n; ssl := ssl n;
         autojoin_channels := autojoin_channels n;
         join_delay_secs := join_delay_secs n |}
  | F_port v =>
      {|
         host := host n; port := Some v; ssl := ssl n;
         autojoin_channels := autojoin_channels n;
         join_delay_secs := join_delay_secs n |}
  | F_ssl v =>
      {|
         host := host n; port := port n; ssl := Some v;
         autojoin_channels := autojoin_channels n;
         join_delay_secs := join_delay_secs n |}
  | F_autojoin_channels v =>
      {|
         host := host n; port := port n; ssl := ssl n;
         autojoin_channels := Some v; join_delay_secs := join_delay_secs n |}
  | F_join_delay_secs v =>
      {|
         host := host n; port := port n; ssl := ssl n;
         autojoin_channels := autojoin_channels n;
         join_delay_secs := Some v |}
  end.

Inductive Section_ := connection | identity | behavior | dcc | search_
                    | networks_.

Record State := {
  settings : option AppConfig;
  loading : bool;
  saving : bool;
  activeSection : Section_;
  newNetworkName : string;
  toast : ToastState
}.

Definition setSettings (c : AppConfig) : M State unit :=
  Eff.modify (fun s =>
    {| settings := Some c; loading := loading s; saving := saving s;
       activeSection := activeSection s; newNetworkName := newNetworkName s;
       toast := toast s |}).

Definition setSaving (b : bool) : M State unit :=
  Eff.modify (fun s =>
    {| settings := settings s; loading := loading s; saving := b;
       activeSection := activeSection s; newNetworkName := newNetworkName s;
       toast := toast s |}).

Definition setNewNetworkName (n : string) : M State unit :=
  Eff.modify (fun s =>
    {| settings := settings s; loading := loading s; saving := saving s;
       activeSection := activeSection s; newNetworkName := n;
       toast := toast s |}).

#[global] Instance use_toast : UseToast State := {
  toast_of := toast;
  with_toast t s :=
    {| settings := settings s; loading := loading s; saving := saving s;
       activeSection := activeSection s; newNetworkName := newNetworkName s;
       toast := t |}
}.

(** SettingsTab, [saveSettings] *)
Definition saveSettings : M State unit :=
  st <- Eff.gets settings ;;
  match st with
  | None => Eff.ret tt
  | Some cfg =>
      setSaving true ;;
      Eff.try_finally
        (Eff.try_catch
           (res <- Eff.fetch (put_ "/api/settings" (SettingsBody cfg)) ;;
            if ok res
            then Toast.showToast "Settings saved!" success
            else Toast.showToast "Failed to save settings" error)
           (fun _ => Toast.showToast "Failed to save settings" error))
        (setSaving false)
  end.

(** SettingsTab, [updateSetting] *)
Definition updateSetting (key : Key) (value : field_type key) : M State unit :=
  st <- Eff.gets settings ;;
  match st with
  | Some cfg => setSettings (with_field key value cfg)
  | None => Eff.ret tt
  end.

Definition network_url (name : string) : string :=
  "/api/settings/networks/" ++ Uri.encodeURIComponent name.

(** The definition [addNetwork] gives a new network. *)
Definition new_network (name : string) : NetworkConfig :=
  {| host := Some ("irc." ++ Str.toLowerCase name ++ ".net");
     port := Some 6697;
     ssl := Some true;
     autojoin_channels := Some [];
     join_delay_secs := Some 6 |}.

(** SettingsTab, [addNetwork] *)
Definition addNetwork : M State unit :=
  name <- Eff.gets newNetworkName ;;
  st <- Eff.gets settings ;;
  match st with
  | None => Eff.ret tt
  | Some cfg =>
      if Str.is_empty (Str.trim name) then Eff.ret tt
      else
        let network := new_network name in
        Eff.try_catch
          (Eff.fetch (put_ (network_url name) (NetworkBody network)) ;;
           setSettings (with_networks (<[name := network]> (networks cfg)) cfg) ;;
           setNewNetworkName "" ;;
           Toast.showToast "Network added" success)
          (fun _ => Toast.showToast "Failed to add network" error)
  end.

(** SettingsTab, [deleteNetwork] *)
Definition deleteNetwork (name : string) : M State unit :=
  st <- Eff.gets settings ;;
  match st with
  | None => Eff.ret tt
  | Some cfg =>
      Eff.try_catch
        (Eff.fetch (delete_ (network_url name)) ;;
         let newNetworks := delete name (networks cfg) in
         setSettings (with_networks newNetworks cfg) ;;
         Toast.showToast "Network deleted" success)
        (fun _ => Toast.showToast "Failed to delete network" error)
  end.

(** SettingsTab, [updateNetwork] *)
Definition updateNetwork (name : string) (edit : NetworkEdit) : M State unit :=
  st <- Eff.gets settings ;;
  match st with
  | None => Eff.ret tt
  | Some cfg =>
      let current := default no_network (networks cfg !! name) in
      setSettings
        (with_networks (<[name := edited edit current]> (networks cfg)) cfg)
  end.

(** The autojoin input of the network [name]: its [onChange] is
    [channels => updateNetwork(name, 'autojoin_channels', channels)]. *)
Definition commitAutojoin (name : string) (localValue : string)
  : M State unit :=
  AutojoinInput.handleBlur localValue
    (fun channels => updateNetwork name (F_autojoin_channels channels)).

End SettingsTab.

(* ===================================================================== *)
(** ** HistoryTab: paged history, selection, deletion, expansion          *)
(* ===================================================================== *)

Module HistoryTab.

Local Open Scope eff_scope.

(** [SearchHistoryItem], as a row is rendered from it. *)
Record SearchHistoryItem := {
  id : Z;
  query : string;
  results_count : Z;
  results_json : option string;
  searched_at : string
}.

Inductive Section_ := downloads_ | searches_.

(** The functional updates the handlers queue: [setX(prev => ...)]. *)
Inductive Updater :=
| DropSearch (id : Z)            (* prev.filter(s => s.id !== id) *)
| DropDownload (id : string)     (* prev.filter(item => item.id !== id) *)
| DropSearches (sel : gset Z)    (* prev.filter(s => !sel.has(s.id)) *)
| DropDownloads (sel : gset string)
| Minus (n : Z).                 (* prev - n *)

(** A [useState] cell whose value comes from a response: the value last
    set, and the functional updates queued on it since, which React applies
    when it next renders. *)
Inductive Cell :=
| Now (v : value)
| After (c : Cell) (u : Updater).

Record State := {
  activeSection : Section_;
  searches : Cell;
  searchPage : Z;
  searchTotalPages : value;
  searchTotal : Cell;
  selectedSearches : gset Z;
  expandedSearch : option Z;
  downloads : Cell;
  downloadPage : Z;
  downloadTotalPages : value;
  downloadTotal : Cell;
  selectedDownloads : gset string;
  loading : bool;
  toast : ToastState
}.

Definition initial : State :=
  {| activeSection := downloads_;
     searches := Now (VArr []); searchPage := 1;
     searchTotalPages := Js.num 1; searchTotal := Now (Js.num 0);
     selectedSearches := ∅; expandedSearch := None;
     downloads := Now (VArr []); downloadPage := 1;
     downloadTotalPages := Js.num 1; downloadTotal := Now (Js.num 0);
     selectedDownloads := ∅; loading := false; toast := Toast.initial |}.

Definition onSearches (f : Cell -> Cell) : M State unit :=
  Eff.modify (fun s =>
    {| activeSection := activeSection s; searches := f (searches s);
       searchPage := searchPage s; searchTotalPages := searchTotalPages s;
       searchTotal := searchTotal s; selectedSearches := selectedSearches s;
       expandedSearch := expandedSearch s; downloads := downloads s;
       downloadPage := downloadPage s;
       downloadTotalPages := downloadTotalPages s;
       downloadTotal := downloadTotal s;
       selectedDownloads := selectedDownloads s; loading := loading s;
       toast := toast s |}).


Definition onSearchTotal (f : Cell -> Cell) : M State unit :=
  Eff.modify (fun s =>
    {| activeSection := activeSection s; searches := searches s;
       searchPage := searchPage s; searchTotalPages := searchTotalPages s;
       searchTotal := f (searchTotal s);
       selectedSearches := selectedSearches s;
       expandedSearch := expandedSearch s; downloads := downloads s;
       downloadPage := downloadPage s;
       downloadTotalPages := downloadTotalPages s;
       downloadTotal := downloadTotal s;
       selectedDownloads := selectedDownloads s; loading := loading s;
       toast := toast s |}).

Definition onSelectedSearches (f : gset Z -> gset Z) : M State unit :=
  Eff.modify (fun s =>
    {| activeSection := activeSection s; searches := searches s;
       searchPage := searchPage s; searchTotalPages := searchTotalPages s;
       searchTotal := searchTotal s;
       selectedSearches := f (selectedSearches s);
       expandedSearch := expandedSearch s; downloads := downloads s;
       downloadPage := downloadPage s;
       downloadTotalPages := downloadTotalPages s;
       downloadTotal := downloadTotal s;
       selectedDownloads := selectedDownloads s; loading := loading s;
       toast := toast s |}).

Definition setExpandedSearch (e : option Z) : M State unit :=
  Eff.modify (fun s =>
    {| activeSection := activeSection s; searches := searches s;
       searchPage := searchPage s; searchTotalPages := searchTotalPages s;
       searchTotal := searchTotal s; selectedSearches := selectedSearches s;
       expandedSearch := e; downloads := downloads s;
       downloadPage := downloadPage s;
       downloadTotalPages := downloadTotalPages s;
       downloadTotal := downloadTotal s;
       selectedDownloads := selectedDownloads s; loading := loading s;
       toast := toast s |}).

Definition onDownloads (f : Cell -> Cell) : M State unit :=
  Eff.modify (fun s =>
    {| activeSection := activeSection s; searches := searches s;
       searchPage := searchPage s; searchTotalPages := searchTotalPages s;
       searchTotal := searchTotal s; selectedSearches := selectedSearches s;
       expandedSearch := expandedSearch s; downloads := f (downloads s);
       downloadPage := downloadPage s;
       downloadTotalPages := downloadTotalPages s;
       downloadTotal := downloadTotal s;
       selectedDownloads := selectedDownloads s; loading := loading s;
       toast := toast s |}).

Definition setDownloadTotalPages (v : value) : M State unit :=
  Eff.modify (fun s =>
    {| activeSection := activeSection s; searches := searches s;
       searchPage := searchPage s; searchTotalPages := searchTotalPages s;
       searchTotal := searchTotal s; selectedSearches := selectedSearches s;
       expandedSearch := expandedSearch s; downloads := downloads s;
       downloadPage := downloadPage s; downloadTotalPages := v;
       downloadTotal := downloadTotal s;
       selectedDownloads := selectedDownloads s; loading := loading s;
       toast := toast s |}).

Definition onDownloadTotal (f : Cell -> Cell) : M State unit :=
  Eff.modify (fun s =>
    {| activeSection := activeSection s; searches := searches s;
       searchPage := searchPage s; searchTotalPages := searchTotalPages s;
       searchTotal := searchTotal s; selectedSearches := selectedSearches s;
       expandedSearch := expandedSearch s; downloads := downloads s;
       downloadPage := downloadPage s;
       downloadTotalPages := downloadTotalPages s;
       downloadTotal := f (downloadTotal s);
       selectedDownloads := selectedDownloads s; loading := loading s;
       toast := toast s |}).

Definition onSelectedDownloads (f : gset string -> gset string)
  : M State unit :=
  Eff.modify (fun s =>
    {| activeSection := activeSection s; searches := searches s;
       searchPage := searchPage s; searchTotalPages := searchTotalPages s;
       searchTotal := searchTotal s; selectedSearches := selectedSearches s;
       expandedSearch := expandedSearch s; downloads := downloads s;
       downloadPage := downloadPage s;
       downloadTotalPages := downloadTotalPages s;
       downloadTotal := downloadTotal s;
       selectedDownloads := f (selectedDownloads s); loading := loading s;
       toast := toast s |}).

Definition setLoading (b : bool) : M State unit :=
  Eff.modify (fun s =>
    {| activeSection := activeSection s; searches := searches s;
       searchPage := searchPage s; searchTotalPages := searchTotalPages s;
       searchTotal := searchTotal s; selectedSearches := selectedSearches s;
       expandedSearch := expandedSearch s; downloads := downloads s;
       downloadPage := downloadPage s;
       downloadTotalPages := downloadTotalPages s;
       downloadTotal := downloadTotal s;
       selectedDownloads := selectedDownloads s; loading := b;
       toast := toast s |}).

#[global] Instance use_toast : UseToast State := {
  toast_of := toast;
  with_toast t s :=
    {| activeSection := activeSection s; searches := searches s;
       searchPage := searchPage s; searchTotalPages := searchTotalPages s;
       searchTotal := searchTotal s; selectedSearches := selectedSearches s;
       expandedSearch := expandedSearch s; downloads := downloads s;
       downloadPage := downloadPage s;
       downloadTotalPages := downloadTotalPages s;
       downloadTotal := downloadTotal s;
       selectedDownloads := selectedDownloads s; loading := loading s;
       toast := t |}
}.

(** [setX(v)] and [setX(prev => ...)] on a cell. *)
Definition put (v : value) : Cell -> Cell := fun _ => Now v.
Definition queue (u : Updater) : Cell -> Cell := fun c => After c u.

Definition setSelectedSearches (sel : gset Z) := onSelectedSearches (fun _ => sel).
Definition setDownloads v := onDownloads (put v).
Definition setDownloadTotal v := onDownloadTotal (put v).
Definition setSelectedDownloads (sel : gset string) :=
  onSelectedDownloads (fun _ => sel).


(** [a || b.length], the right operand read only when [a] is falsy. *)
Definition or_length (a b : value) : M State value :=
  if Js.truthy a then Eff.ret a else Eff.lift (Js.get b "length").

(** HistoryTab, [fetchDownloadHistory] *)
Definition fetchDownloadHistory : M State unit :=
  setLoading true ;;
  Eff.try_catch
    (page <- Eff.gets downloadPage ;;
     res <- Eff.fetch
              (get_ ("/api/history?page=" ++ Uri.of_int page ++ "&limit=10")) ;;
     data <- Eff.json res ;;
     items <- Eff.lift (Js.get data "items") ;;
     if Js.truthy items then
       setDownloads items ;;
       total_pages <- Eff.lift (Js.get data "total_pages") ;;
       setDownloadTotalPages (Js.or total_pages (Js.num 1)) ;;
       total <- Eff.lift (Js.get data "total") ;;
       n <- or_length total items ;;
       setDownloadTotal n
     else
       history <- Eff.lift (Js.get data "history") ;;
       if Js.truthy history then
         setDownloads history ;;
         setDownloadTotalPages (Js.num 1) ;;
         count <- Eff.lift (Js.get data "count") ;;
         n <- or_length count history ;;
         setDownloadTotal n
       else Eff.ret tt)
    (fun e => Eff.console_error "Failed to fetch download history:" e) ;;
  setLoading false.

(** HistoryTab, [handleDeleteSearch] *)
Definition handleDeleteSearch (id : Z) : M State unit :=
  Eff.try_catch
    (Eff.fetch (delete_ ("/api/search-history/" ++ Uri.of_int id)) ;;
     onSearches (queue (DropSearch id)) ;;
     onSearchTotal (queue (Minus 1)))
    (fun e => Eff.console_error "Failed to delete search:" e).

Definition size_of {A} `{Countable A} (sel : gset A) : Z := Z.of_nat (size sel).

(** HistoryTab, [handleBulkDeleteSearches]; [confirm] is the answer of the
    user to [window.confirm(message)].  [Array.from(selected)] lists the ids
    in the order they were selected; the body here lists them in the order
    of [elements]. *)
Definition handleBulkDeleteSearches (confirm : string -> bool) : M State unit :=
  sel <- Eff.gets selectedSearches ;;
  if size_of sel =? 0 then Eff.ret tt
  else if negb (confirm ("Delete " ++ Uri.of_int (size_of sel)
                           ++ " search history items?"))
  then Eff.ret tt
  else
    Eff.try_catch
      (Eff.fetch (post_ "/api/search-history/bulk" (IdsBody (elements sel))) ;;
       onSearches (queue (DropSearches sel)) ;;
       onSearchTotal (queue (Minus (size_of sel))) ;;
       setSelectedSearches ∅)
      (fun e => Eff.console_error "Failed to bulk delete searches:" e).

(** HistoryTab, [handleBulkDeleteDownloads] *)
Definition handleBulkDeleteDownloads (confirm : string -> bool)
    (deleteFiles : bool) : M State unit :=
  sel <- Eff.gets selectedDownloads ;;
  if size_of sel =? 0 then Eff.ret tt
  else
    let msg :=
      if deleteFiles
      then "Delete " ++ Uri.of_int (size_of sel)
             ++ " items AND their files from disk?"
      else "Remove " ++ Uri.of_int (size_of sel) ++ " items from history?" in
    if negb (confirm msg) then Eff.ret tt
    else
      Eff.try_catch
        (Eff.fetch (post_ "/api/history/bulk" (BulkBody (elements sel) deleteFiles)) ;;
         onDownloads (queue (DropDownloads sel)) ;;
         onDownloadTotal (queue (Minus (size_of sel))) ;;
         setSelectedDownloads ∅)
        (fun e => Eff.console_error "Failed to bulk delete downloads:" e).

(** HistoryTab, [handleDeleteDownload] *)
Definition handleDeleteDownload (id : string) (deleteFile : bool)
  : M State unit :=
  Eff.try_catch
    (Eff.fetch
       (delete_ ("/api/history/" ++ id ++ "?delete_file=" ++ Uri.of_bool deleteFile)) ;;
     onDownloads (queue (DropDownload id)) ;;
     onDownloadTotal (queue (Minus 1)))
    (fun e => Eff.console_error "Failed to delete download:" e).

(** [next.has(id) ? next.delete(id) : next.add(id)] on a copy of [prev]. *)
Definition toggled {A} `{Countable A} (id : A) (prev : gset A) : gset A :=
  if decide (id ∈ prev) then prev ∖ {[ id ]} else prev ∪ {[ id ]}.

(** HistoryTab, [toggleSearchSelection] and [toggleDownloadSelection] *)
Definition toggleSearchSelection (id : Z) : M State unit :=
  onSelectedSearches (toggled id).

Definition toggleDownloadSelection (id : string) : M State unit :=
  onSelectedDownloads (toggled id).

(** The click on the result count of a row:
    [setExpandedSearch(expandedSearch === item.id ? null : item.id)]. *)
Definition toggleExpanded (item : SearchHistoryItem) : M State unit :=
  cur <- Eff.gets expandedSearch ;;
  setExpandedSearch
    (match cur with
     | Some i => if i =? id item then None else Some (id item)
     | None => Some (id item)
     end).

(** *** What a render makes of the cells and of an expanded row *)

(** [item.id !== id] for a number and for a string. *)
Definition id_is_int (v : value) (n : Z) : bool :=
  match v with
  | VNum q => Qeq_bool q (inject_Z n)
  | _ => false
  end.

Definition id_is_str (v : value) (s : string) : bool :=
  match v with
  | VStr x => String.eqb x s
  | _ => false
  end.

(** [prev.filter(item => keep(item.id))] *)
Fixpoint filter_by_id (keep : value -> bool) (items : list value)
  : result (list value) :=
  match items with
  | [] => Ok []
  | item :: rest =>
      rbind (Js.get item "id") (fun i =>
      rbind (filter_by_id keep rest) (fun rest' =>
      Ok (if keep i then item :: rest' else rest')))
  end.

Definition filter_array (keep : value -> bool) (prev : value) : result value :=
  match prev with
  | VArr items => rbind (filter_by_id keep items) (fun l => Ok (VArr l))
  | _ => Throw TypeError
  end.

Definition has_int (sel : gset Z) (v : value) : bool :=
  match v with
  | VNum q => Qeq_bool q (inject_Z (Qnum q)) && bool_decide (Qnum q ∈ sel)
  | _ => false
  end.

Definition has_str (sel : gset string) (v : value) : bool :=
  match v with
  | VStr x => bool_decide (x ∈ sel)
  | _ => false
  end.

(** One queued update, applied to the previous value.  [prev - n] is given
    for a number [prev]; on another operand JavaScript converts it first,
    which is left out: the result is then [None]. *)
Definition apply (u : Updater) (prev : value) : option (result value) :=
  match u with
  | DropSearch i => Some (filter_array (fun v => negb (id_is_int v i)) prev)
  | DropDownload i => Some (filter_array (fun v => negb (id_is_str v i)) prev)
  | DropSearches sel => Some (filter_array (fun v => negb (has_int sel v)) prev)
  | DropDownloads sel => Some (filter_array (fun v => negb (has_str sel v)) prev)
  | Minus n =>
      match prev with
      | VNum q => Some (Ok (VNum (Qred (q - inject_Z n))))
      | _ => None
      end
  end.

(** The value of a cell at the next render. *)
Fixpoint rendered (c : Cell) : option (result value) :=
  match c with
  | Now v => Some (Ok v)
  | After c' u =>
      match rendered c' with
      | Some (Ok prev) => apply u prev
      | other => other
      end
  end.

(** A React child: text and numbers are shown, [null], [undefined] and
    booleans show nothing, an array shows its items, an object is refused
    with an error. *)
Inductive RenderError :=
| Thrown (e : exn)
| InvalidChild.

Fixpoint child_ok (v : value) : bool :=
  match v with
  | VObj _ => false
  | VArr items => forallb child_ok items
  | _ => true
  end.

(** One row of the nested table. *)
Record MiniRow := {
  cell_file_name : value;
  cell_size_str : value;
  cell_bot : value;
  cell_server : value;
  download_arg : value   (* the [r] its button passes to [handleDownload] *)
}.

Definition rendering (A : Type) : Type := A + RenderError.

Definition of_result {A} (r : result A) : rendering A :=
  match r with
  | Ok a => inl a
  | Throw e => inr (Thrown e)
  end.

Definition render_row (r : value) : rendering MiniRow :=
  match Js.get r "file_name", Js.get r "size_str", Js.get r "bot",
        Js.get r "server" with
  | Ok f, Ok sz, Ok b, Ok sv =>
      if child_ok f && child_ok sz && child_ok b && child_ok sv
      then inl {| cell_file_name := f; cell_size_str := sz; cell_bot := b;
                  cell_server := sv; download_arg := r |}
      else inr InvalidChild
  | Throw e, _, _, _ | _, Throw e, _, _ | _, _, Throw e, _ | _, _, _, Throw e =>
      inr (Thrown e)
  end.

Fixpoint render_rows (rs : list value) : rendering (list MiniRow) :=
  match rs with
  | [] => inl []
  | r :: rest =>
      match render_row r with
      | inl row =>
          match render_rows rest with
          | inl rows => inl (row :: rows)
          | inr e => inr e
          end
      | inr e => inr e
      end
  end.

(** The expression under a row of the search table:
    [expandedSearch === item.id && item.results_json && (<tr> ...
     JSON.parse(item.results_json).map(...) ... </tr>)].
    [inl None]: nothing is rendered, the row is not expanded;
    [inl (Some rows)]: the nested table; [inr e]: the render throws. *)
Definition render_expansion (expandedSearch : option Z)
    (item : SearchHistoryItem) : rendering (option (list MiniRow)) :=
  if bool_decide (expandedSearch = Some (id item)) then
    match results_json item with
    | None => inl None
    | Some text =>
        if Str.is_empty text then inl None
        else
          match Json.parse text with
          | Throw e => inr (Thrown e)
          | Ok (VArr rs) =>
              match render_rows rs with
              | inl rows => inl (Some rows)
              | inr e => inr e
              end
          | Ok _ => inr (Thrown TypeError)
          end
    end
  else inl None.

End HistoryTab.

(* ===================================================================== *)
(** ** The rest of the search view: filters, search bar                   *)
(* ===================================================================== *)

Module Text.

(** [s.includes(sub)] *)
Fixpoint includes (s sub : string) : bool :=
  if Str.startsWith s sub then true
  else match s with
       | EmptyString => false
       | String _ r => includes r sub
       end.

(** An index argument of [slice], brought into [0 .. len]: a negative one
    counts from the end. *)
Definition clamp (len i : Z) : Z :=
  if i <? 0 then Z.max (len + i) 0 else Z.min i len.

(** [s.slice(start, stop)], [s.slice(start)] when [stop] is [None]. *)
Definition slice (s : string) (start : Z) (stop : option Z) : string :=
  let len := Z.of_nat (String.length s) in
  let from := clamp len start in
  let to := match stop with
            | Some e => clamp len e
            | None => len
            end in
  Str.of_chars
    (firstn (Z.to_nat (to - from)) (skipn (Z.to_nat from) (Str.chars s))).

End Text.

(** utils/format.ts *)
Module Format.

(** [truncateMiddle(text, maxLength)], for an integer [maxLength]. *)
Definition truncateMiddle (text : string) (maxLength : Z) : string :=
  let len := Z.of_nat (String.length text) in
  if len <=? maxLength then text
  else
    let side := (maxLength - 3) / 2 in
    Text.slice text 0 (Some side) ++ "..." ++ Text.slice text (len - side) None.

End Format.

(** SearchResults.tsx, the filter bar. *)
Module SearchFilter.

(** The [useState] cells of the filter bar; a size box is [None] when it
    holds [''], a number of megabytes otherwise. *)
Record Filters := {
  filterQuery : string;
  minSize : option Q;
  maxSize : option Q;
  selectedServer : string
}.

Definition no_filter : Filters :=
  {| filterQuery := ""; minSize := None; maxSize := None;
     selectedServer := "" |}.

(** [mb * 1024 * 1024] *)
Definition bytes_of_mb (mb : Q) : Q := (mb * inject_Z 1024 * inject_Z 1024)%Q.

(** [a < b] on numbers *)
Definition lt (a b : Q) : bool := negb (Qle_bool b a).

(** The callback of [results.filter] in [filteredResults]. *)
Definition keeps (f : Filters) (res : XdccSearchResult) : bool :=
  if negb (Str.is_empty (filterQuery f))
     && negb (Text.includes (Str.toLowerCase (file_name res))
                (Str.toLowerCase (filterQuery f)))
  then false
  else if negb (Str.is_empty (selectedServer f))
          && negb (String.eqb (SearchResults.normalizeServer (server res))
                     (SearchResults.normalizeServer (selectedServer f)))
  then false
  else if match minSize f with
          | Some m => lt (inject_Z (file_size res)) (bytes_of_mb m)
          | None => false
          end
  then false
  else if match maxSize f with
          | Some m => lt (bytes_of_mb m) (inject_Z (file_size res))
          | None => false
          end
  then false
  else true.

(** SearchResults.tsx, [filteredResults] *)
Definition filteredResults (f : Filters) (results : list XdccSearchResult)
  : list XdccSearchResult :=
  List.filter (keeps f) results.

(** The choice of an entry of the server list:
    [onChange={(e) => setSelectedServer(e.target.value)}]. *)
Definition setSelectedServer (s : string) (f : Filters) : Filters :=
  {| filterQuery := filterQuery f; minSize := minSize f; maxSize := maxSize f;
     selectedServer := s |}.

(** [onChange={(e) => setFilterQuery(e.target.value)}] *)
Definition setFilterQuery (q : string) (f : Filters) : Filters :=
  {| filterQuery := q; minSize := minSize f; maxSize := maxSize f;
     selectedServer := selectedServer f |}.

End SearchFilter.

(** components/SearchBar.tsx *)
Module SearchBar.

(** [handleSubmit]: [onSearch] is the prop of the bar. *)
Definition handleSubmit {S : Type} (query : string)
    (selectedProviders : list string)
    (onSearch : string -> list string -> M S unit) : M S unit :=
  if negb (Str.is_empty (Str.trim query))
  then onSearch query selectedProviders
  else Eff.ret tt.

(** The updater of [toggleProvider(id)]. *)
Definition toggleProvider (id : string) (prev : list string) : list string :=
  if existsb (String.eqb id) prev
  then List.filter (fun p => negb (String.eqb p id)) prev
  else (prev ++ [id])%list.

End SearchBar.

(* ===================================================================== *)
(** ** The activities view: counters and controls of a transfer           *)
(* ===================================================================== *)

Module Activities.

(** [status === s] *)
Definition is_status (status : value) (s : string) : bool :=
  match status with
  | VStr x => String.eqb x s
  | _ => false
  end.

(** [[...].includes(status)] *)
Definition one_of (status : value) (l : list string) : bool :=
  existsb (is_status status) l.

(** The statuses App.tsx counts as active downloads. *)
Definition is_active (status : value) : bool :=
  one_of status ["downloading"; "connecting"; "joining"; "requesting"].

Fixpoint count_active (items : list value) : result Z :=
  match items with
  | [] => Ok 0
  | t :: rest =>
      rbind (Js.get t "status") (fun status =>
      rbind (count_active rest) (fun n =>
      Ok (if is_active status then n + 1 else n)))
  end.

(** App.tsx, the [activeDownloads] prop:
    [transfers.filter(t => [...].includes(t.status)).length]. *)
Definition activeDownloads (transfers : value) : result Z :=
  match transfers with
  | VArr items => count_active items
  | _ => Throw TypeError
  end.

(** TransferList.tsx: the button of a row. *)
Inductive Control := Retry | Cancel.

Definition control (status : value) : Control :=
  if is_status status "failed" || is_status status "cancelled"
  then Retry else Cancel.

(** TransferList.tsx: what fills the progress track of a row. *)
Inductive Indicator := Bar | Pulse | Blank.

Definition indicator (status : value) : Indicator :=
  if is_status status "downloading" then Bar
  else if one_of status ["pending"; "connecting"; "joining"; "requesting"]
  then Pulse
  else Blank.

(** TransferList.tsx, [getStatusColor] *)
Definition getStatusColor (status : value) : string :=
  if is_status status "downloading" then "bg-success animate-pulse"
  else if is_status status "completed" then "bg-info"
  else if is_status status "failed" then "bg-error"
  else if is_status status "cancelled" then "bg-secondary"
  else "bg-warning".

End Activities.

(** SettingsTab: the text an autojoin input shows for a list of channels,
    [value.join(', ')]. *)
Module AutojoinDraft.

Definition display (value : list string) : string := Str.join ", " value.

End AutojoinDraft.

(* ===================================================================== *)
(** ** The page: App and the settings tab it mounts                       *)
(* ===================================================================== *)

Module Page.

(** The state of [App] and of the [SettingsTab] it mounts while the
    settings tab is open.  Each of the two components calls [useState] and
    [useToast()] for itself, so each has cells of its own. *)
Record State := {
  app : App.State;
  settingsTab : SettingsTab.State
}.

(** App.tsx, [{toast.visible && <Toast message={toast.message}
    type={toast.type} onClose={hideToast} />}], with the [toast] of App's
    own [useToast()]: the only [Toast] element of the program.
    [SettingsTab] takes [showToast] alone from its [useToast()] and renders
    no [Toast]. *)
Definition notification (p : State) : option (string * ToastType) :=
  let toast := App.toast (app p) in
  if visible toast then Some (message toast, type toast) else None.

(** A handler of [SettingsTab], run in the page: it reads and sets the
    cells of [SettingsTab]. *)
Definition inSettingsTab {A} (m : M SettingsTab.State A) : M State A :=
  fun srv p t =>
    match m srv (settingsTab p) t with
    | (r, s', t') => (r, {| app := app p; settingsTab := s' |}, t')
    end.

End Page.

(* ===================================================================== *)
(** ** Sample data                                                        *)
(* ===================================================================== *)

Module Sample.

Definition result_on (srv : string) : XdccSearchResult :=
  {| server := srv; bot := "Bot"; pack_number := 1; file_size := 1024;
     file_name := "file.bin"; downloads := 0; channel := "#chan" |}.

Definition libera : NetworkConfig :=
  {| host := Some "irc.libera.chat"; port := Some 6697; ssl := Some true;
     autojoin_channels := Some ["#old"]; join_delay_secs := Some 6 |}.

Definition config : AppConfig :=
  {| use_ssl := true; connect_timeout := 15; general_timeout := 120;
     proxy_enabled := false; proxy_url := ""; nickname := "botarr";
     username := "botarr"; realname := "Botarr"; max_retries := 3;
     retry_delay := 30; queue_limit := 2; passive_dcc := false;
     dcc_port_min := 49152; dcc_port_max := 65535; resume_enabled := true;
     enabled_providers := ["SkullXDCC"]; results_per_page := 50;
     search_timeout := 30; networks := {[ "libera" := libera ]} |}.

Definition settings_state : SettingsTab.State :=
  {| SettingsTab.settings := Some config; SettingsTab.loading := false;
     SettingsTab.saving := false;
     SettingsTab.activeSection := SettingsTab.networks_;
     SettingsTab.newNetworkName := "Rizon";
     SettingsTab.toast := Toast.initial |}.

(** A server that answers nothing: every [fetch] rejects. *)
Definition offline : Server := fun _ => Rejected.

(** A server that answers every request with [status] and [body]. *)
Definition always (status : Z) (body : string) : Server :=
  fun _ => Responded {| status := status; text := body |}.

(** The state of [App] after a poll and a search that brought data. *)
Definition polled : App.State :=
  {| App.activeTab := App.activities;
     App.searchResults := VArr [VObj [("server", VStr "irc.foo.net")]];
     App.transfers := VArr [VObj [("id", VStr "t1")]];
     App.stats := VArr [VObj [("bot_name", VStr "Bot")]];
     App.isLoading := false;
     App.queueSize := Js.num 3;
     App.toast := Toast.initial |}.

(** The statistics endpoint is down and answers 500 with a JSON error
    body; the other two endpoints answer normally. *)
Definition stats_down : Server := fun req =>
  if String.eqb (url req) "/api/bots/stats"
  then Responded {| status := 500; text := "{}" |}
  else if String.eqb (url req) "/api/queue"
  then Responded {| status := 200;
                    text := "{" ++ Json.quoted "queue_size" ++ ": 5}" |}
  else Responded {| status := 200;
                    text := "{" ++ Json.quoted "transfers" ++ ": []}" |}.

(** The statistics endpoint is unreachable, the other two answer. *)
Definition stats_unreachable : Server := fun req =>
  if String.eqb (url req) "/api/bots/stats" then Rejected
  else stats_down req.

(** A search-history row whose snapshot is cut short. *)
Definition broken_row : HistoryTab.SearchHistoryItem :=
  {| HistoryTab.id := 7; HistoryTab.query := "linux iso";
     HistoryTab.results_count := 2;
     HistoryTab.results_json := Some "[{";
     HistoryTab.searched_at := "2024-01-01T00:00:00Z" |}.

(** The download history, on page 2, with one item of page 1 selected. *)
Definition page_two : HistoryTab.State :=
  {| HistoryTab.activeSection := HistoryTab.downloads_;
     HistoryTab.searches := HistoryTab.Now (VArr []);
     HistoryTab.searchPage := 1;
     HistoryTab.searchTotalPages := Js.num 1;
     HistoryTab.searchTotal := HistoryTab.Now (Js.num 0);
     HistoryTab.selectedSearches := {[ 4 ]};
     HistoryTab.expandedSearch := None;
     HistoryTab.downloads := HistoryTab.Now (VArr [VObj [("id", VStr "a")]]);
     HistoryTab.downloadPage := 2;
     HistoryTab.downloadTotalPages := Js.num 2;
     HistoryTab.downloadTotal := HistoryTab.Now (Js.num 11);
     HistoryTab.selectedDownloads := {[ "a" ]};
     HistoryTab.loading := false;
     HistoryTab.toast := Toast.initial |}.

(** The page the server sends for page 2: one item, [b]. *)
Definition second_page : string :=
  "{" ++ Json.quoted "items" ++ ": [{" ++ Json.quoted "id" ++ ": "
      ++ Json.quoted "b" ++ "}], " ++ Json.quoted "total" ++ ": 11, "
      ++ Json.quoted "total_pages" ++ ": 2}".

End Sample.


(* ===================================================================== *)
(** ** Vocabulary of the statements                                       *)
(* ===================================================================== *)

Module Spec.

(** The characters [trim] keeps. *)
Definition trimmed (l : list ascii) : list ascii :=
  rev (Str.drop_spaces (rev (Str.drop_spaces l))).

(** A map from normalised names to raw names: every value normalises to
    its key, and no key occurs twice. *)
Definition keyed (m : SearchResults.StrMap) : Prop :=
  Forall (fun e => SearchResults.normalizeServer (snd e) = fst e) m
  /\ NoDup (map fst m).

(** A fetch that brings no JSON: it rejects, or the body of the response
    is not JSON text. *)
Definition no_json (o : Outcome) : Prop :=
  match o with
  | Rejected => True
  | Responded res =>
      exists e, Json.parse (Eff.decoded (text res)) = Throw e
  end.

(** What one block of the poller makes of its cell, [old] before and [new]
    after, given what its fetch met: the cell is kept when the fetch
    rejects, when the body is not JSON and when it is the JSON [null];
    otherwise -- whatever the status of the response -- it becomes the
    property [field] of the body, or [dflt] when that is missing or
    falsy. *)
Definition slice_after (field : string) (dflt : value) (o : Outcome)
    (old new : value) : Prop :=
  match o with
  | Rejected => new = old
  | Responded res =>
      match Json.parse (Eff.decoded (text res)) with
      | Throw _ => new = old
      | Ok VNull | Ok VUndefined => new = old
      | Ok data => exists v, Js.get data field = Ok v /\ new = Js.or v dflt
      end
  end.

(** What one block of the poller writes on the console. *)
Definition block_log (msg field : string) (o : Outcome) : list Event :=
  match o with
  | Rejected => [ConsoleError msg NetworkError]
  | Responded res =>
      match rbind (Json.parse (Eff.decoded (text res)))
              (fun data => Js.get data field) with
      | Throw e => [ConsoleError msg e]
      | Ok _ => []
      end
  end.

Definition shown (msg : string) (ty : ToastType) : ToastState :=
  {| message := msg; type := ty; visible := true |}.

(** A text of the ASCII range: every character is below 128. *)
Definition ascii_text (s : string) : bool :=
  forallb (fun c => (nat_of_ascii c <? 128)%nat) (Str.chars s).

(** The [id] of each item of a loaded list. *)
Definition loaded_ids (c : HistoryTab.Cell) : list value :=
  match HistoryTab.rendered c with
  | Some (Ok (VArr items)) =>
      omap (fun item =>
              match Js.get item "id" with
              | Ok v => Some v
              | Throw _ => None
              end) items
  | _ => []
  end.

End Spec.

(** Unfolds the combinators of a handler down to the server's answer. *)
Ltac run_handler :=
  cbv [Eff.run Eff.bind Eff.ret Eff.gets Eff.modify Eff.try_catch
       Eff.try_finally Eff.fetch Eff.console_error Eff.lift Eff.throw
       Eff.json Toast.showToast].

(** Cases on what a block of the poller meets. *)
Ltac poll_cases srv :=
  run_handler; unfold Spec.slice_after, Spec.block_log;
  destruct (srv _) as [|res]; simpl;
  [ rewrite <- ?List.app_assoc; eexists; split; reflexivity
  | destruct (Json.parse (Eff.decoded (text res))) as [data|e]; simpl;
    [ destruct data; simpl; rewrite <- ?List.app_assoc;
      (eexists; split; [reflexivity|];
       first [reflexivity | eexists; split; reflexivity])
    | rewrite <- ?List.app_assoc; eexists; split; reflexivity ] ].

(* ===================================================================== *)
(** * Properties                                                          *)
(* ===================================================================== *)

(** ** Strings *)

Module StrFacts.

Lemma lower_char_idem c : Str.lower_char (Str.lower_char c) = Str.lower_char c.
Proof. destruct c as [[] [] [] [] [] [] [] []]; reflexivity. Qed.

Lemma toLowerCase_idem s :
  Str.toLowerCase (Str.toLowerCase s) = Str.toLowerCase s.
Proof.
  induction s as [|c s IH]; simpl; [reflexivity|].
  now rewrite lower_char_idem, IH.
Qed.

Lemma toLowerCase_app a b :
  Str.toLowerCase (a ++ b) = Str.toLowerCase a ++ Str.toLowerCase b.
Proof. induction a as [|c a IH]; simpl; [reflexivity | now rewrite IH]. Qed.

Lemma strip_prefix_Some p : forall s r,
  Str.strip_prefix p s = Some r -> s = p ++ r.
Proof.
  induction p as [|a p IH]; intros s r; simpl.
  - now intros [= ->].
  - destruct s as [|b s]; [discriminate|].
    destruct (Ascii.eqb a b) eqn:E; [|discriminate].
    apply Ascii.eqb_eq in E as ->. intros H. now rewrite (IH _ _ H).
Qed.

Lemma toLowerCase_length s :
  String.length (Str.toLowerCase s) = String.length s.
Proof. induction s; simpl; congruence. Qed.

Lemma app_inj_tail_len p : forall q a b : string,
  String.length q = String.length p -> q ++ a = p ++ b -> a = b.
Proof.
  induction p as [|c p IH]; intros [|d q] a b L H; simpl in *;
    try discriminate; [exact H|].
  injection H as _ H. injection L as L. now apply (IH q).
Qed.

(** What is left of a lower-case string after a prefix is lower-case. *)
Lemma lower_rest p s r :
  Str.strip_prefix p (Str.toLowerCase s) = Some r -> Str.toLowerCase r = r.
Proof.
  intros H. apply strip_prefix_Some in H.
  assert (I : Str.toLowerCase (p ++ r) = p ++ r)
    by (rewrite <- H; apply toLowerCase_idem).
  rewrite toLowerCase_app in I.
  apply (app_inj_tail_len p (Str.toLowerCase p)); [apply toLowerCase_length | exact I].
Qed.

Lemma split_nonempty sep s : Str.split sep s <> [].
Proof.
  destruct s as [|c s]; simpl; [easy|].
  destruct (Ascii.eqb c sep); [easy|]. now destruct (Str.split sep s).
Qed.

Lemma join_cons_char sep c h t :
  Str.join sep (String c h :: t) = String c (Str.join sep (h :: t)).
Proof. now destruct t. Qed.

(** [split] cuts at the separators and nowhere else. *)
Lemma join_split sep s :
  Str.join (String sep EmptyString) (Str.split sep s) = s.
Proof.
  induction s as [|c s IH]; simpl; [reflexivity|].
  destruct (Ascii.eqb c sep) eqn:E.
  - apply Ascii.eqb_eq in E as ->.
    destruct (Str.split sep s) as [|h t] eqn:S; [now apply split_nonempty in S|].
    change (Str.join (String sep "") ("" :: h :: t))
      with (String sep (Str.join (String sep "") (h :: t))).
    now rewrite IH.
  - destruct (Str.split sep s) as [|h t] eqn:S; [now apply split_nonempty in S|].
    now rewrite join_cons_char, IH.
Qed.

Lemma split_no_sep sep s :
  Forall (fun g => Str.contains_char sep g = false) (Str.split sep s).
Proof.
  induction s as [|c s IH]; simpl; [now repeat constructor|].
  destruct (Ascii.eqb c sep) eqn:E; [now constructor|].
  destruct (Str.split sep s) as [|h t]; inversion IH; subst;
    constructor; simpl; try rewrite E; auto.
Qed.

Lemma drop_spaces_idem l : Str.drop_spaces (Str.drop_spaces l) = Str.drop_spaces l.
Proof.
  induction l as [|c l IH]; simpl; [reflexivity|].
  destruct (Str.is_space c) eqn:E; [exact IH|]. simpl. now rewrite E.
Qed.

Lemma drop_spaces_split l :
  exists ws, l = (ws ++ Str.drop_spaces l)%list.
Proof.
  induction l as [|c l [ws IH]]; simpl; [now exists []|].
  destruct (Str.is_space c).
  - exists (c :: ws). simpl. now f_equal.
  - now exists [].
Qed.

Lemma trimmed_no_lead l :
  Str.drop_spaces (Spec.trimmed l) = Spec.trimmed l.
Proof.
  unfold Spec.trimmed.
  set (a := Str.drop_spaces l).
  set (b := rev (Str.drop_spaces (rev a))).
  destruct (drop_spaces_split (rev a)) as [ws Hws].
  assert (Ha : a = (b ++ rev ws)%list).
  { unfold b. rewrite <- rev_app_distr, <- Hws. now rewrite rev_involutive. }
  assert (Hd : Str.drop_spaces a = a) by apply drop_spaces_idem.
  destruct b as [|c b'] eqn:Eb; [reflexivity|].
  rewrite Ha in Hd. simpl in Hd |- *.
  destruct (Str.is_space c) eqn:E; [|reflexivity].
  exfalso. destruct (drop_spaces_split (b' ++ rev ws)%list) as [ws' Hws'].
  apply (f_equal (@List.length ascii)) in Hd. rewrite Hws' in Hd at 2.
  simpl in Hd. rewrite length_app in Hd. lia.
Qed.

Lemma trimmed_no_trail l :
  Str.drop_spaces (rev (Spec.trimmed l)) = rev (Spec.trimmed l).
Proof. unfold Spec.trimmed. rewrite rev_involutive. apply drop_spaces_idem. Qed.

Lemma trimmed_idem l : Spec.trimmed (Spec.trimmed l) = Spec.trimmed l.
Proof.
  unfold Spec.trimmed at 1.
  rewrite trimmed_no_lead, trimmed_no_trail. apply rev_involutive.
Qed.

Lemma drop_spaces_spaces l :
  exists ws, l = (ws ++ Str.drop_spaces l)%list
             /\ Forall (fun c => Str.is_space c = true) ws.
Proof.
  induction l as [|c l (ws & IH & F)]; simpl; [now exists []|].
  destruct (Str.is_space c) eqn:E.
  - exists (c :: ws). simpl. split; [now f_equal | now constructor].
  - now exists [].
Qed.

(** [trim] removes white space at both ends of the text and nothing else,
    and what it returns neither starts nor ends with white space. *)
Lemma trim_spec s :
  exists before after,
    Str.chars s = (before ++ Str.chars (Str.trim s) ++ after)%list
    /\ Forall (fun c => Str.is_space c = true) before
    /\ Forall (fun c => Str.is_space c = true) after
    /\ Str.drop_spaces (Str.chars (Str.trim s)) = Str.chars (Str.trim s)
    /\ Str.drop_spaces (rev (Str.chars (Str.trim s)))
       = rev (Str.chars (Str.trim s)).
Proof.
  unfold Str.trim, Str.of_chars. rewrite list_ascii_of_string_of_list_ascii.
  fold (Spec.trimmed (Str.chars s)). set (l := Str.chars s).
  destruct (drop_spaces_spaces l) as (ws & Hl & Fw).
  destruct (drop_spaces_spaces (rev (Str.drop_spaces l))) as (ws' & Hr & Fw').
  exists ws, (rev ws'). repeat split.
  - rewrite Hl at 1. f_equal. unfold Spec.trimmed.
    rewrite <- rev_app_distr, <- Hr. now rewrite rev_involutive.
  - exact Fw.
  - now apply List.Forall_rev.
  - apply trimmed_no_lead.
  - apply trimmed_no_trail.
Qed.

(** [trim] leaves nothing to trim. *)
Lemma trim_idem s : Str.trim (Str.trim s) = Str.trim s.
Proof.
  unfold Str.trim, Str.of_chars, Str.chars.
  rewrite list_ascii_of_string_of_list_ascii.
  f_equal. apply trimmed_idem.
Qed.

End StrFacts.

(** ** The JSON reader does not depend on its fuel *)

Module JsonFacts.

Import Json.

Lemma skip_ws_length l : (List.length (skip_ws l) <= List.length l)%nat.
Proof. induction l as [|c l IH]; simpl; [lia|]. destruct (is_ws c); simpl; lia. Qed.

Lemma strip_lit_length lit : forall l r,
  strip_lit lit l = Some r -> List.length l = (List.length lit + List.length r)%nat.
Proof.
  induction lit as [|a lit IH]; intros l r; simpl.
  - now intros [= ->].
  - destruct l as [|b l]; [discriminate|]. destruct (ch a b); [|discriminate].
    intros H. apply IH in H. simpl. lia.
Qed.

Lemma take_digits_length l : forall ds r,
  take_digits l = (ds, r) -> (List.length r <= List.length l)%nat.
Proof.
  induction l as [|c l IH]; intros ds r; simpl.
  - intros [= <- <-]. simpl. lia.
  - destruct (digit_val c).
    + destruct (take_digits l) as [ds' r'] eqn:E. intros [= <- <-].
      specialize (IH _ _ eq_refl). lia.
    + intros [= <- <-]. simpl. lia.
Qed.

Lemma parse_int_length l ds r :
  parse_int l = Some (ds, r) -> (List.length r < List.length l)%nat.
Proof.
  unfold parse_int. destruct l as [|c l]; [discriminate|].
  destruct (digit_val c) as [d|] eqn:D; [|discriminate].
  destruct d as [|p|p].
  - intros [= <- <-]. simpl. lia.
  - simpl. rewrite D. destruct (take_digits l) as [ds' r'] eqn:E.
    intros [= <- <-]. apply take_digits_length in E. simpl. lia.
  - simpl. rewrite D. destruct (take_digits l) as [ds' r'] eqn:E.
    intros [= <- <-]. apply take_digits_length in E. simpl. lia.
Qed.

Lemma parse_frac_length l ds r :
  parse_frac l = Some (ds, r) -> (List.length r <= List.length l)%nat.
Proof.
  unfold parse_frac. destruct l as [|c l]; [now intros [= <- <-]|].
  destruct (ch c "."%char).
  - destruct (take_digits l) as [[|d ds'] r'] eqn:E; [discriminate|].
    intros [= <- <-]. apply take_digits_length in E. simpl. lia.
  - intros [= <- <-]. lia.
Qed.

Lemma parse_exp_length l e r :
  parse_exp l = Some (e, r) -> (List.length r <= List.length l)%nat.
Proof.
  unfold parse_exp. destruct l as [|c l]; [now intros [= <- <-]|].
  destruct (ch c "e"%char || ch c "E"%char).
  - destruct l as [|s l'].
    + simpl. discriminate.
    + destruct (ch s "-"%char); [|destruct (ch s "+"%char)];
        match goal with
        | |- context [take_digits ?x] => destruct (take_digits x) as [[|d ds'] r'] eqn:E
        end; try discriminate; intros [= <- <-];
        apply take_digits_length in E; simpl in *; lia.
  - intros [= <- <-]. lia.
Qed.

Lemma parse_number_length l v r :
  parse_number l = Some (v, r) -> (List.length r < List.length l)%nat.
Proof.
  unfold parse_number.
  set (p := match l with
            | [] => (false, l)
            | c :: r0 => if ch c "-" then (true, r0) else (false, l)
            end).
  assert (Hp : (List.length (snd p) <= List.length l)%nat).
  { subst p. destruct l as [|c l']; simpl; [lia|]. destruct (ch c "-"); simpl; lia. }
  destruct p as [neg l1]. simpl in Hp.
  destruct (parse_int l1) as [[ids l2]|] eqn:E1; [|discriminate].
  destruct (parse_frac l2) as [[fds l3]|] eqn:E2; [|discriminate].
  destruct (parse_exp l3) as [[e l4]|] eqn:E3; [|discriminate].
  intros [= <- <-].
  apply parse_int_length in E1. apply parse_frac_length in E2.
  apply parse_exp_length in E3. lia.
Qed.

Lemma parse_chars_length l : forall ps r,
  parse_chars l = Some (ps, r) -> (List.length r < List.length l)%nat.
Proof.
  induction l as [l IH] using (well_founded_induction
                                 (well_founded_ltof _ (@List.length ascii))).
  unfold ltof in IH. intros ps r. destruct l as [|c l]; simpl; [discriminate|].
  destruct (ch c dquote); [intros [= <- <-]; simpl; lia|].
  destruct (ch c "\"%char).
  - destruct l as [|e l1]; [discriminate|].
    destruct (ch e "u"%char).
    + destruct l1 as [|h1 [|h2 [|h3 [|h4 r2]]]]; try discriminate.
      destruct (hex_val h1), (hex_val h2), (hex_val h3), (hex_val h4);
        try discriminate.
      destruct (parse_chars r2) as [[ps' rest]|] eqn:E; [|discriminate].
      intros [= <- <-]. apply IH in E; simpl in *; lia.
    + destruct (escape e); [|discriminate].
      destruct (parse_chars l1) as [[ps' rest]|] eqn:E; [|discriminate].
      intros [= <- <-]. apply IH in E; simpl in *; lia.
  - destruct (nat_of_ascii c <? 32)%nat; [discriminate|].
    destruct (parse_chars l) as [[ps' rest]|] eqn:E; [|discriminate].
    intros [= <- <-]. apply IH in E; simpl in *; lia.
Qed.

Lemma parse_string_length l s r :
  parse_string l = Some (s, r) -> (List.length r < List.length l)%nat.
Proof.
  unfold parse_string. destruct (parse_chars l) as [[ps rest]|] eqn:E; [|discriminate].
  intros [= <- <-]. now apply parse_chars_length in E.
Qed.

#[local] Arguments strip_lit : simpl never.
#[local] Arguments parse_number : simpl never.
#[local] Arguments parse_string : simpl never.
#[local] Arguments skip_ws : simpl never.

Ltac break_in H :=
  repeat match type of H with
         | context [match ?x with _ => _ end] =>
             let E := fresh "E" in destruct x eqn:E; try discriminate H
         end.

Ltac lens :=
  repeat match goal with
         | E : skip_ws ?l = _ |- _ =>
             let L := fresh "L" in
             pose proof (skip_ws_length l) as L; rewrite E in L; clear E
         | E : parse_string _ = Some _ |- _ => apply parse_string_length in E
         | E : parse_number _ = Some _ |- _ => apply parse_number_length in E
         | E : strip_lit _ _ = Some _ |- _ => apply strip_lit_length in E
         end; unfold Str.chars in *; simpl in *.

Ltac use_fuel IHv IHe IHm :=
  repeat match goal with
         | E : parse_value _ _ = Some _ |- _ => apply IHv in E as [? ?]
         | E : parse_members _ _ _ = Some _ |- _ => apply IHm in E as [? ?]
         | E : parse_elements _ _ _ = Some _ |- _ => apply IHe in E as [? ?]
         end.

Ltac replay :=
  simpl; unfold option_map;
  repeat first
    [ match goal with
      | H : forall m, _ -> parse_value m ?l = _ |- context [parse_value ?k ?l] =>
          rewrite (H k) by (lens; lia)
      | H : forall m, _ -> ?f m ?a ?l = _ |- context [?f ?k ?a ?l] =>
          rewrite (H k) by (lens; lia)
      end
    | match goal with
      | E : ?x = _ |- context [?x] => rewrite E
      end ];
  try reflexivity.

Ltac fuel_case H IHv IHe IHm :=
  simpl in H; unfold option_map in H; break_in H;
  try (injection H as <- <-);
  use_fuel IHv IHe IHm;
  (split; [lens; lia|]);
  let m := fresh "m" in
  let Hm := fresh "Hm" in
  intros m Hm; destruct m as [|m]; [exfalso; lens; lia|];
  replay.

Lemma fuel_enough n :
  (forall l v r, parse_value n l = Some (v, r) ->
     (List.length r < List.length l)%nat /\
     forall m, (List.length l - List.length r <= m)%nat ->
               parse_value m l = Some (v, r))
  /\ (forall acc l v r, parse_elements n acc l = Some (v, r) ->
        (List.length r < List.length l)%nat /\
        forall m, (List.length l - List.length r <= m)%nat ->
                  parse_elements m acc l = Some (v, r))
  /\ (forall acc l v r, parse_members n acc l = Some (v, r) ->
        (List.length r < List.length l)%nat /\
        forall m, (List.length l - List.length r <= m)%nat ->
                  parse_members m acc l = Some (v, r)).
Proof.
  induction n as [|n IH]; [repeat split; discriminate|].
  destruct IH as (IHv & IHe & IHm).
  split; [|split].
  - intros l v r H. fuel_case H IHv IHe IHm.
  - intros acc l v r H. fuel_case H IHv IHe IHm.
  - intros acc l v r H. fuel_case H IHv IHe IHm.
Qed.

(** [JSON.parse] accepts a text exactly when some amount of fuel lets the
    reader take one value and only white space after it: the bound on the
    fuel rejects nothing. *)
Theorem parse_any_fuel (text : string) (v : value) :
  parse text = Ok v
  <-> exists n r, parse_value n (Str.chars text) = Some (v, r) /\ skip_ws r = [].
Proof.
  unfold parse. split.
  - destruct (parse_value _ _) as [[v' r]|] eqn:E; [|discriminate].
    destruct (skip_ws r) eqn:W; [|discriminate].
    intros [= ->]. eauto.
  - intros (n & r & E & W).
    apply (proj1 (fuel_enough n)) in E as [_ E].
    rewrite (E (2 * List.length (Str.chars text) + 2)%nat) by lia.
    now rewrite W.
Qed.

End JsonFacts.

(** ** The server facet *)

Module FacetFacts.

Import SearchResults Spec.

Lemma map_has_false m k :
  map_has m k = false <-> ~ In k (map fst m).
Proof.
  unfold map_has. induction m as [|[k' v'] m IH]; simpl; [easy|].
  rewrite orb_false_iff, IH. split.
  - intros [E H] [->|?]; [|easy]. now rewrite String.eqb_refl in E.
  - intros H. split; [|tauto]. apply String.eqb_neq. tauto.
Qed.

Lemma map_set_absent m k v :
  map_has m k = false -> map_set m k v = (m ++ [(k, v)])%list.
Proof.
  unfold map_has. induction m as [|[k' v'] m IH]; simpl; [reflexivity|].
  intros [E H]%orb_false_iff. simpl in E. rewrite E. now rewrite IH.
Qed.

Lemma see_spec m r :
  see m r = m \/
  (map_has m (normalizeServer (server r)) = false /\
   see m r = (m ++ [(normalizeServer (server r), server r)])%list).
Proof.
  unfold see. destruct (map_has m _) eqn:E; simpl; [now left|right].
  split; [reflexivity|]. now apply map_set_absent.
Qed.

Lemma keyed_see m r : keyed m -> keyed (see m r).
Proof.
  intros [F N]. destruct (see_spec m r) as [->|[A ->]]; [easy|]. split.
  - apply Forall_app. split; [exact F|]. now repeat constructor.
  - rewrite List.map_app. simpl. apply NoDup_app. repeat split; [exact N| |].
    + intros x Hx%list_elem_of_In [<-|[]]%list_elem_of_In.
      now apply map_has_false in A.
    + repeat constructor. easy.
Qed.

Lemma In_see m r e : In e m -> In e (see m r).
Proof.
  intros H. destruct (see_spec m r) as [->|[_ ->]]; [easy|].
  apply in_or_app. now left.
Qed.

(** In a keyed map the values that normalise to a key are the one value
    stored under it. *)
Lemma entries_none m key :
  Forall (fun e => normalizeServer (snd e) = fst e) m ->
  ~ In key (map fst m) ->
  List.filter (fun e => String.eqb (normalizeServer e) key) (map snd m) = [].
Proof.
  induction m as [|[k x] m IH]; simpl; intros F Hn; [reflexivity|].
  pose proof (Forall_inv F) as Hk. simpl in Hk.
  destruct (String.eqb_spec (normalizeServer x) key) as [E|E].
  - exfalso. apply Hn. left. congruence.
  - apply IH; [exact (Forall_inv_tail F) | tauto].
Qed.

Lemma entries_keyed m key v :
  keyed m -> In (key, v) m -> entries_for key (map_values m) = [v].
Proof.
  unfold entries_for, map_values. intros [F N].
  induction m as [|[k x] m IH]; simpl; [easy|].
  pose proof (Forall_inv F) as Hk. pose proof (Forall_inv_tail F) as F'.
  simpl in Hk, N. apply NoDup_cons in N as [Hn N'].
  rewrite list_elem_of_In in Hn.
  intros [E|H].
  - injection E as Ek Ex. rewrite Ek in Hk, Hn. rewrite Ex in *.
    rewrite Hk, String.eqb_refl. f_equal. now apply entries_none.
  - destruct (String.eqb_spec (normalizeServer x) key) as [E|E].
    + exfalso. apply Hn. rewrite <- Hk, E.
      change key with (fst (key, v)). now apply in_map.
    + now apply IH.
Qed.

Lemma entries_fold_present results : forall m key v,
  keyed m -> In (key, v) m ->
  entries_for key (map_values (fold_left see results m)) = [v].
Proof.
  induction results as [|r results IH]; intros m key v K H; simpl.
  - now apply entries_keyed.
  - apply IH; [now apply keyed_see | now apply In_see].
Qed.

Lemma entries_fold_first before : forall m first after,
  keyed m ->
  map_has m (normalizeServer (server first)) = false ->
  Forall (fun x => normalizeServer (server x) <> normalizeServer (server first))
    before ->
  entries_for (normalizeServer (server first))
    (map_values (fold_left see (before ++ first :: after) m)) = [server first].
Proof.
  induction before as [|x before IH]; intros m first after K A F; simpl.
  - apply entries_fold_present; [now apply keyed_see|].
    destruct (see_spec m first) as [E|[_ ->]].
    + unfold see in E. rewrite A in E. simpl in E.
      rewrite map_set_absent in E by exact A.
      apply (f_equal (@List.length _)) in E. rewrite length_app in E.
      simpl in E. lia.
    + apply in_or_app. right. now left.
  - inversion F as [|? ? Hx F']; subst.
    apply IH; [now apply keyed_see| |exact F'].
    destruct (see_spec m x) as [->|[_ ->]]; [exact A|].
    apply map_has_false. rewrite List.map_app. simpl. intros [H|[H|[]]]%in_app_or.
    + now apply map_has_false in A.
    + congruence.
Qed.

(** The first element of a list with a property, and what comes before. *)
Lemma first_occurrence {A} (P : A -> Prop) (dec : forall x, {P x} + {~ P x})
    (l : list A) :
  (exists x, In x l /\ P x) ->
  exists before first after,
    l = (before ++ first :: after)%list /\ Forall (fun x => ~ P x) before /\ P first.
Proof.
  induction l as [|a l IH]; intros (x & Hin & Px); [easy|].
  destruct (dec a) as [Pa|Na].
  - now exists [], a, l.
  - destruct Hin as [->|Hin]; [easy|].
    destruct IH as (b & f & af & -> & Fb & Pf); [now exists x|].
    exists (a :: b), f, af. repeat split; [|exact Pf]. now constructor.
Qed.

Lemma filter_Permutation' {A} (f : A -> bool) (l l' : list A) :
  Permutation l l' -> Permutation (List.filter f l) (List.filter f l').
Proof.
  induction 1 as [|x l l' _ IH|x y l|l l' l'' _ IH1 _ IH2]; simpl.
  - constructor.
  - destruct (f x); [now constructor | exact IH].
  - destruct (f x), (f y); try reflexivity. constructor.
  - now transitivity (List.filter f l').
Qed.

Lemma entries_sorted key l :
  forall v, entries_for key l = [v] ->
  entries_for key (merge_sort str_le l) = [v].
Proof.
  intros v H. unfold entries_for in *.
  apply Permutation_length_1_inv. rewrite <- H.
  apply filter_Permutation'. symmetry. apply merge_sort_Permutation.
Qed.

End FacetFacts.

(** ** Claims on the pure functions *)

(** C5, as stated, does not hold: a server name that starts with "irc." in
    another letter case is not normalised like its "irc."-prefixed form, and
    normalising twice removes a second "irc." that normalising once
    leaves. *)
Lemma normalizeServer_claim_fails :
  ~ (forall s, Str.startsWith s "irc." = false ->
       SearchResults.normalizeServer s
       = SearchResults.normalizeServer ("irc." ++ s))
  /\ ~ (forall s, SearchResults.normalizeServer (SearchResults.normalizeServer s)
                  = SearchResults.normalizeServer s).
Proof.
  split; intros H.
  - specialize (H "IRC.foo.net" eq_refl). discriminate H.
  - specialize (H "irc.irc.foo.net"). discriminate H.
Qed.

(** C5 (amended): for a server string [s] of ASCII characters,
    normalizeServer(s) equals normalizeServer("irc." + s) whenever the
    lower-cased [s] does not start with "irc.", and
    normalizeServer(normalizeServer(s)) equals normalizeServer(s) whenever
    normalizeServer(s) does not itself start with "irc.".  (Outside the
    ASCII range the case mapping of the built-in depends on the context of
    a character, and lower-casing does not commute with putting "irc." in
    front.) *)
Theorem normalizeServer_prefix_and_idempotence (s : string) :
  Spec.ascii_text s = true ->
  (Str.startsWith (Str.toLowerCase s) "irc." = false ->
   SearchResults.normalizeServer s
   = SearchResults.normalizeServer ("irc." ++ s))
  /\
  (Str.startsWith (SearchResults.normalizeServer s) "irc." = false ->
   SearchResults.normalizeServer (SearchResults.normalizeServer s)
   = SearchResults.normalizeServer s).
Proof.
  intros _.
  unfold SearchResults.normalizeServer, SearchResults.strip_irc, Str.startsWith.
  split.
  - intros H.
    change (Str.toLowerCase ("irc." ++ s)) with ("irc." ++ Str.toLowerCase s).
    change (Str.strip_prefix "irc." ("irc." ++ Str.toLowerCase s))
      with (Some (Str.toLowerCase s)).
    now destruct (Str.strip_prefix "irc." (Str.toLowerCase s)).
  - destruct (Str.strip_prefix "irc." (Str.toLowerCase s)) as [r|] eqn:E.
    + rewrite (StrFacts.lower_rest _ _ _ E). intros H.
      now destruct (Str.strip_prefix "irc." r).
    + rewrite StrFacts.toLowerCase_idem, E. reflexivity.
Qed.

Lemma normalizeServer_prefix_and_idempotence_witness :
  SearchResults.normalizeServer "Foo.Net"
  = SearchResults.normalizeServer ("irc." ++ "Foo.Net")
  /\ SearchResults.normalizeServer (SearchResults.normalizeServer "Foo.Net")
     = SearchResults.normalizeServer "Foo.Net".
Proof.
  destruct (normalizeServer_prefix_and_idempotence "Foo.Net" eq_refl)
    as [H1 H2].
  split; [apply H1 | apply H2]; reflexivity.
Defined.

(** C7: when results carry server strings that normalise to the same key,
    the server facet has exactly one entry for that key, and it is the raw
    server string of the first such result in input order. *)
Theorem servers_one_entry_first_occurrence
    (results : list XdccSearchResult) (key : string) :
  (exists r, In r results /\ SearchResults.normalizeServer (server r) = key) ->
  exists before first after,
    results = (before ++ first :: after)%list
    /\ Forall (fun x => SearchResults.normalizeServer (server x) <> key) before
    /\ SearchResults.normalizeServer (server first) = key
    /\ SearchResults.entries_for key (SearchResults.servers results)
       = [server first].
Proof.
  intros H.
  destruct (FacetFacts.first_occurrence
              (fun r => SearchResults.normalizeServer (server r) = key)
              (fun r => string_dec _ _) results H)
    as (before & first & after & -> & Fb & Pf).
  exists before, first, after. repeat split; [exact Fb | exact Pf |].
  unfold SearchResults.servers. apply FacetFacts.entries_sorted.
  subst key. apply FacetFacts.entries_fold_first; [| reflexivity | exact Fb].
  split; constructor.
Qed.

Lemma servers_one_entry_first_occurrence_witness :
  exists before first after,
    [Sample.result_on "irc.foo.net"; Sample.result_on "bar.org";
     Sample.result_on "foo.net"]
    = (before ++ first :: after)%list
    /\ Forall (fun x => SearchResults.normalizeServer (server x) <> "foo.net")
         before
    /\ SearchResults.normalizeServer (server first) = "foo.net"
    /\ SearchResults.entries_for "foo.net"
         (SearchResults.servers
            [Sample.result_on "irc.foo.net"; Sample.result_on "bar.org";
             Sample.result_on "foo.net"])
       = [server first].
Proof.
  apply (servers_one_entry_first_occurrence
           [Sample.result_on "irc.foo.net"; Sample.result_on "bar.org";
            Sample.result_on "foo.net"] "foo.net").
  exists (Sample.result_on "foo.net"). split; [simpl; tauto | reflexivity].
Defined.

(** C8: on blur the autojoin draft is cut at its commas, each segment is
    trimmed, the empty ones are dropped and the rest, in the order of the
    draft, is handed to [onChange]; "#a, #b ,  #c" gives #a, #b, #c, and
    through [updateNetwork] that list becomes the network's
    [autojoin_channels]. *)
Theorem handleBlur_commits_parsed_channels :
  (forall (R : Type) (onChange : list string -> R) (draft : string),
     exists segments channels,
       Str.join "," segments = draft
       /\ Forall (fun g => Str.contains_char "," g = false) segments
       /\ channels
          = List.filter (fun c => negb (Str.is_empty c))
              (List.map Str.trim segments)
       /\ Forall (fun c => c <> "" /\ Str.trim c = c) channels
       /\ AutojoinInput.handleBlur draft onChange = onChange channels)
  /\ (forall (R : Type) (onChange : list string -> R),
        AutojoinInput.handleBlur "#a, #b ,  #c" onChange
        = onChange ["#a"; "#b"; "#c"])
  /\ (forall srv,
        match Eff.run (SettingsTab.commitAutojoin "libera" "#a, #b ,  #c")
                srv Sample.settings_state with
        | (r, st, t) =>
            r = Ok tt /\ t = []
            /\ (cfg ← SettingsTab.settings st;
                net ← networks cfg !! "libera";
                autojoin_channels net) = Some ["#a"; "#b"; "#c"]
        end).
Proof.
  split; [|split].
  - intros R onChange draft.
    exists (Str.split "," draft), (AutojoinInput.parse_channels draft).
    split; [apply StrFacts.join_split|].
    split; [apply StrFacts.split_no_sep|].
    split; [reflexivity|]. split; [|reflexivity].
    unfold AutojoinInput.parse_channels.
    induction (Str.split "," draft) as [|g gs IH]; simpl; [constructor|].
    destruct (Str.trim g) eqn:E; simpl; [exact IH|].
    constructor; [|exact IH]. split; [discriminate|].
    rewrite <- E. apply StrFacts.trim_idem.
  - reflexivity.
  - intros srv. vm_compute. repeat split.
Qed.

(** ** The settings editor *)

Module SettingsFacts.

Import SettingsTab.

Lemma field_of_fields f k : field k (of_fields f) = f k.
Proof. destruct k; reflexivity. Qed.

Lemma field_with_field_same key value c :
  field key (with_field key value c) = value.
Proof.
  unfold with_field. rewrite field_of_fields.
  destruct (Key_eq_dec key key) as [e|n]; [|easy].
  destruct key; now rewrite (Eqdep_dec.UIP_dec Key_eq_dec e eq_refl).
Qed.

Lemma field_with_field_other key other value c :
  other <> key -> field other (with_field key value c) = field other c.
Proof.
  intros H. unfold with_field. rewrite field_of_fields.
  destruct (Key_eq_dec key other) as [e|n]; [now subst|reflexivity].
Qed.

Lemma networks_with_networks nets c : networks (with_networks nets c) = nets.
Proof. exact (field_with_field_same K_networks nets c). Qed.

Lemma field_with_networks other nets c :
  other <> K_networks -> field other (with_networks nets c) = field other c.
Proof. apply field_with_field_other. Qed.

End SettingsFacts.

(** C9: [updateSetting(key, value)] replaces the named key only: every other
    field of the document, the networks map among them, is as before, the
    other cells of the component are untouched and no request is sent. *)
Theorem updateSetting_frame
    (key other : SettingsTab.Key) (value : SettingsTab.field_type key)
    (srv : Server) (st : SettingsTab.State) (t : Trace) :
  other <> key ->
  match SettingsTab.updateSetting key value srv st t with
  | (r, st', t') =>
      r = Ok tt /\ t' = t
      /\ SettingsTab.loading st' = SettingsTab.loading st
      /\ SettingsTab.saving st' = SettingsTab.saving st
      /\ SettingsTab.newNetworkName st' = SettingsTab.newNetworkName st
      /\ SettingsTab.toast st' = SettingsTab.toast st
      /\ match SettingsTab.settings st with
         | Some cfg =>
             exists cfg',
               SettingsTab.settings st' = Some cfg'
               /\ SettingsTab.field key cfg' = value
               /\ SettingsTab.field other cfg' = SettingsTab.field other cfg
               /\ (key <> SettingsTab.K_networks -> networks cfg' = networks cfg)
         | None => SettingsTab.settings st' = None
         end
  end.
Proof.
  intros H. unfold SettingsTab.updateSetting, SettingsTab.setSettings.
  run_handler.
  destruct (SettingsTab.settings st) as [cfg|] eqn:E; simpl;
    repeat split; auto.
  exists (SettingsTab.with_field key value cfg). repeat split.
  - apply SettingsFacts.field_with_field_same.
  - now apply SettingsFacts.field_with_field_other.
  - intros Hn.
    apply (SettingsFacts.field_with_field_other key SettingsTab.K_networks).
    congruence.
Qed.

Lemma updateSetting_frame_witness :
  match SettingsTab.updateSetting SettingsTab.K_nickname "xdcc"
          Sample.offline Sample.settings_state [] with
  | (_, st', _) =>
      exists cfg',
        SettingsTab.settings st' = Some cfg'
        /\ nickname cfg' = "xdcc"
        /\ networks cfg' = networks Sample.config
  end.
Proof.
  pose proof (updateSetting_frame SettingsTab.K_nickname SettingsTab.K_networks
                "xdcc" Sample.offline Sample.settings_state []) as H.
  destruct (SettingsTab.updateSetting _ _ _ _ _) as [[r st'] t'].
  destruct H as (_ & _ & _ & _ & _ & _ & cfg' & H1 & H2 & H3 & _);
    [discriminate|].
  now exists cfg'.
Defined.

(** C6, as stated, does not hold for updates: [updateNetwork] changes the
    working copy and sends nothing. *)
Lemma updateNetwork_sends_nothing :
  match Eff.run (SettingsTab.updateNetwork "libera" (SettingsTab.F_port 7000))
          (Sample.always 200 "{}") Sample.settings_state with
  | (r, st', t') =>
      r = Ok tt /\ t' = []
      /\ (cfg ← SettingsTab.settings st'; net ← networks cfg !! "libera"; port net)
         = Some 7000
  end.
Proof. vm_compute. repeat split. Qed.

(** C6 (amended): adding a network sends PUT /api/settings/networks/{name}
    with the new definition and deleting one sends DELETE to the same path,
    at once, and when the call does not reject the working copy gets or
    loses that entry; updating a field of a network, like every scalar edit
    through [updateSetting], changes the working copy only and sends
    nothing; the explicit save sends the whole document with one PUT
    /api/settings. *)
Theorem networks_eager_fields_deferred
    (srv : Server) (st : SettingsTab.State) (t : Trace) (cfg : AppConfig) :
  SettingsTab.settings st = Some cfg ->
  (Str.is_empty (Str.trim (SettingsTab.newNetworkName st)) = false ->
   let name := SettingsTab.newNetworkName st in
   let req := put_ ("/api/settings/networks/" ++ Uri.encodeURIComponent name)
                (NetworkBody (SettingsTab.new_network name)) in
   match SettingsTab.addNetwork srv st t with
   | (r, st', t') =>
       r = Ok tt /\ t' = (t ++ [Sent req])%list
       /\ exists cfg',
            SettingsTab.settings st' = Some cfg'
            /\ (forall k, k <> SettingsTab.K_networks ->
                  SettingsTab.field k cfg' = SettingsTab.field k cfg)
            /\ networks cfg'
               = match srv req with
                 | Responded _ =>
                     <[name := SettingsTab.new_network name]> (networks cfg)
                 | Rejected => networks cfg
                 end
   end)
  /\ (forall name,
        let req := delete_ ("/api/settings/networks/"
                              ++ Uri.encodeURIComponent name) in
        match SettingsTab.deleteNetwork name srv st t with
        | (r, st', t') =>
            r = Ok tt /\ t' = (t ++ [Sent req])%list
            /\ exists cfg',
                 SettingsTab.settings st' = Some cfg'
                 /\ (forall k, k <> SettingsTab.K_networks ->
                       SettingsTab.field k cfg' = SettingsTab.field k cfg)
                 /\ networks cfg'
                    = match srv req with
                      | Responded _ => delete name (networks cfg)
                      | Rejected => networks cfg
                      end
        end)
  /\ (forall name edit,
        match SettingsTab.updateNetwork name edit srv st t with
        | (r, st', t') =>
            r = Ok tt /\ t' = t
            /\ exists cfg',
                 SettingsTab.settings st' = Some cfg'
                 /\ (forall k, k <> SettingsTab.K_networks ->
                       SettingsTab.field k cfg' = SettingsTab.field k cfg)
                 /\ networks cfg'
                    = <[name := SettingsTab.edited edit
                                  (default SettingsTab.no_network
                                     (networks cfg !! name))]> (networks cfg)
        end)
  /\ (forall key value,
        match SettingsTab.updateSetting key value srv st t with
        | (r, st', t') =>
            r = Ok tt /\ t' = t
            /\ SettingsTab.settings st'
               = Some (SettingsTab.with_field key value cfg)
        end)
  /\ match SettingsTab.saveSettings srv st t with
     | (r, st', t') =>
         r = Ok tt
         /\ t' = (t ++ [Sent (put_ "/api/settings" (SettingsBody cfg))])%list
         /\ SettingsTab.settings st' = Some cfg
     end.
Proof.
  intros Hs. repeat apply conj.
  - intros Hn. cbv zeta.
    unfold SettingsTab.addNetwork, SettingsTab.setSettings,
      SettingsTab.setNewNetworkName, SettingsTab.network_url.
    run_handler. rewrite Hs, Hn.
    destruct (srv _); simpl; (split; [reflexivity|]; split; [reflexivity|]).
    + exists cfg. now rewrite Hs.
    + eexists. split; [reflexivity|].
      split; [intros k Hk; now apply SettingsFacts.field_with_networks|].
      apply SettingsFacts.networks_with_networks.
  - intros name. cbv zeta.
    unfold SettingsTab.deleteNetwork, SettingsTab.setSettings,
      SettingsTab.network_url.
    run_handler. rewrite Hs.
    destruct (srv _); simpl; (split; [reflexivity|]; split; [reflexivity|]).
    + exists cfg. now rewrite Hs.
    + eexists. split; [reflexivity|].
      split; [intros k Hk; now apply SettingsFacts.field_with_networks|].
      apply SettingsFacts.networks_with_networks.
  - intros name edit.
    unfold SettingsTab.updateNetwork, SettingsTab.setSettings.
    run_handler. rewrite Hs. simpl.
    split; [reflexivity|]. split; [reflexivity|].
    eexists. split; [reflexivity|].
    split; [intros k Hk; now apply SettingsFacts.field_with_networks|].
    apply SettingsFacts.networks_with_networks.
  - intros key value.
    unfold SettingsTab.updateSetting, SettingsTab.setSettings.
    run_handler. rewrite Hs. simpl. auto.
  - unfold SettingsTab.saveSettings, SettingsTab.setSaving.
    run_handler. rewrite Hs. simpl.
    destruct (srv _) as [|res]; simpl; [now rewrite Hs|].
    destruct (ok res); simpl; now rewrite Hs.
Qed.

Lemma networks_eager_fields_deferred_witness :
  snd (SettingsTab.addNetwork Sample.offline Sample.settings_state [])
  = [Sent (put_ "/api/settings/networks/Rizon"
             (NetworkBody (SettingsTab.new_network "Rizon")))].
Proof.
  pose proof (networks_eager_fields_deferred Sample.offline
                Sample.settings_state [] Sample.config eq_refl) as [H _].
  specialize (H eq_refl). cbv zeta in H.
  destruct (SettingsTab.addNetwork _ _ _) as [[r st'] t'].
  destruct H as (_ & -> & _). reflexivity.
Defined.

(** ** The poller and the handlers of App *)

Module AppFacts.

Import App Spec.

Lemma fetchStats_run srv st t :
  exists new,
    fetchStats srv st t
    = (Ok tt, with_stats new st,
       (t ++ Sent (get_ "/api/bots/stats")
          :: block_log "Stats fetch failed" "bots"
               (srv (get_ "/api/bots/stats")))%list)
    /\ slice_after "bots" (VArr []) (srv (get_ "/api/bots/stats"))
         (stats st) new.
Proof.
  unfold fetchStats, fetch_json, setStats. destruct st. poll_cases srv.
Qed.

Lemma fetchQueue_run srv st t :
  exists new,
    fetchQueue srv st t
    = (Ok tt, with_queueSize new st,
       (t ++ Sent (get_ "/api/queue")
          :: block_log "Queue fetch failed" "queue_size"
               (srv (get_ "/api/queue")))%list)
    /\ slice_after "queue_size" (Js.num 0) (srv (get_ "/api/queue"))
         (queueSize st) new.
Proof.
  unfold fetchQueue, fetch_json, setQueueSize. destruct st. poll_cases srv.
Qed.

Lemma fetchTransfers_run srv st t :
  exists new,
    fetchTransfers srv st t
    = (Ok tt, with_transfers new st,
       (t ++ Sent (get_ "/api/transfers")
          :: block_log "Transfers fetch failed" "transfers"
               (srv (get_ "/api/transfers")))%list)
    /\ slice_after "transfers" (VArr []) (srv (get_ "/api/transfers"))
         (transfers st) new.
Proof.
  unfold fetchTransfers, fetch_json, setTransfers. destruct st. poll_cases srv.
Qed.

(** One poll cycle, as a whole. *)
Lemma fetchUpdates_run srv st t :
  exists s q x,
    fetchUpdates srv st t
    = (Ok tt, with_transfers x (with_queueSize q (with_stats s st)),
       (t ++ (Sent (get_ "/api/bots/stats")
                :: block_log "Stats fetch failed" "bots"
                     (srv (get_ "/api/bots/stats")))
          ++ (Sent (get_ "/api/queue")
                :: block_log "Queue fetch failed" "queue_size"
                     (srv (get_ "/api/queue")))
          ++ (Sent (get_ "/api/transfers")
                :: block_log "Transfers fetch failed" "transfers"
                     (srv (get_ "/api/transfers"))))%list)
    /\ slice_after "bots" (VArr []) (srv (get_ "/api/bots/stats")) (stats st) s
    /\ slice_after "queue_size" (Js.num 0) (srv (get_ "/api/queue"))
         (queueSize st) q
    /\ slice_after "transfers" (VArr []) (srv (get_ "/api/transfers"))
         (transfers st) x.
Proof.
  destruct (fetchStats_run srv st t) as (s & E1 & H1).
  destruct (fetchQueue_run srv (with_stats s st)
              (t ++ Sent (get_ "/api/bots/stats")
                 :: block_log "Stats fetch failed" "bots"
                      (srv (get_ "/api/bots/stats")))%list)
    as (q & E2 & H2).
  destruct (fetchTransfers_run srv (with_queueSize q (with_stats s st))
              ((t ++ Sent (get_ "/api/bots/stats")
                  :: block_log "Stats fetch failed" "bots"
                       (srv (get_ "/api/bots/stats")))
                 ++ Sent (get_ "/api/queue")
                  :: block_log "Queue fetch failed" "queue_size"
                       (srv (get_ "/api/queue")))%list)
    as (x & E3 & H3).
  exists s, q, x. split; [|now repeat split].
  unfold fetchUpdates, Eff.try_catch, Eff.bind.
  rewrite E1, E2, E3. rewrite <- !List.app_assoc. reflexivity.
Qed.

End AppFacts.

(** C1, as stated, does not hold for a response that is not 2xx: the
    statistics endpoint answers 500 with a JSON body, and the statistics
    cell, which held data, is replaced by the empty default. *)
Lemma poll_non_2xx_replaces_slice :
  exists res,
    Sample.stats_down (get_ "/api/bots/stats") = Responded res
    /\ ok res = false
    /\ App.stats Sample.polled = VArr [VObj [("bot_name", VStr "Bot")]]
    /\ match Eff.run App.fetchUpdates Sample.stats_down Sample.polled with
       | (_, st', _) => App.stats st' = VArr []
       end.
Proof. eexists. repeat split. Qed.

(** C1 (amended): in every poll cycle, a fetch that rejects (network error)
    or whose body is not JSON (or is the JSON null) leaves its cell -- stats,
    queueSize or transfers -- as it was before the cycle and writes a line
    on the console; a fetch that brings a JSON body, whatever the status of
    the response, sets its own cell to the body's bots / queue_size /
    transfers property, or to the default ([], 0, []) when that property is
    missing or falsy; the three are independent of each other, the other
    cells are untouched, and the cycle never throws. *)
Theorem fetchUpdates_isolates_failures
    (srv : Server) (st : App.State) (t : Trace) :
  match App.fetchUpdates srv st t with
  | (r, st', t') =>
      r = Ok tt
      /\ Spec.slice_after "bots" (VArr []) (srv (get_ "/api/bots/stats"))
           (App.stats st) (App.stats st')
      /\ Spec.slice_after "queue_size" (Js.num 0) (srv (get_ "/api/queue"))
           (App.queueSize st) (App.queueSize st')
      /\ Spec.slice_after "transfers" (VArr []) (srv (get_ "/api/transfers"))
           (App.transfers st) (App.transfers st')
      /\ App.searchResults st' = App.searchResults st
      /\ App.isLoading st' = App.isLoading st
      /\ App.activeTab st' = App.activeTab st
      /\ App.toast st' = App.toast st
      /\ t' = (t ++ (Sent (get_ "/api/bots/stats")
                       :: Spec.block_log "Stats fetch failed" "bots"
                            (srv (get_ "/api/bots/stats")))
                 ++ (Sent (get_ "/api/queue")
                       :: Spec.block_log "Queue fetch failed" "queue_size"
                            (srv (get_ "/api/queue")))
                 ++ (Sent (get_ "/api/transfers")
                       :: Spec.block_log "Transfers fetch failed" "transfers"
                            (srv (get_ "/api/transfers"))))%list
  end.
Proof.
  destruct (AppFacts.fetchUpdates_run srv st t) as (s & q & x & -> & H1 & H2 & H3).
  simpl. repeat split; assumption.
Qed.

(** The case the design document lists: the statistics fetch fails, the
    queue and transfer fetches succeed. *)
Lemma poll_with_stats_unreachable :
  Eff.run App.fetchUpdates Sample.stats_unreachable Sample.polled
  = (Ok tt,
     App.with_transfers (VArr [])
       (App.with_queueSize (Js.num 5) Sample.polled),
     [Sent (get_ "/api/bots/stats");
      ConsoleError "Stats fetch failed" NetworkError;
      Sent (get_ "/api/queue"); Sent (get_ "/api/transfers")]).
Proof. reflexivity. Qed.

(** C2, as stated, does not hold when an earlier search brought results:
    the failing search leaves them in place, the result set is not empty. *)
Lemma failed_search_keeps_old_results :
  match Eff.run (App.handleSearch "linux" []) Sample.offline Sample.polled with
  | (r, st', _) =>
      r = Ok tt
      /\ App.searchResults st' = VArr [VObj [("server", VStr "irc.foo.net")]]
      /\ App.searchResults st' <> VArr []
  end.
Proof. vm_compute. repeat split. discriminate. Qed.

(** C2 (amended): when a search request fails (the fetch rejects or the body
    is not JSON), the result set keeps the value it had before the search
    (it is empty only if it was empty before), the failure is logged and a
    "Search failed" error notification is shown; and in every case --
    success or failure -- the handler ends normally with the loading flag
    cleared. *)
Theorem handleSearch_failure_and_loading
    (query : string) (providers : list string)
    (srv : Server) (st : App.State) (t : Trace) :
  let req := get_ (App.search_url query providers) in
  match App.handleSearch query providers srv st t with
  | (r, st', t') =>
      r = Ok tt
      /\ App.isLoading st' = false
      /\ (Spec.no_json (srv req) ->
          App.searchResults st' = App.searchResults st
          /\ App.toast st' = Spec.shown "Search failed" error
          /\ exists e,
               t' = (t ++ [Sent req; ConsoleError "Search failed" e])%list)
  end.
Proof.
  cbv zeta. unfold App.handleSearch, App.setIsLoading, App.setSearchResults.
  run_handler. unfold Spec.no_json. destruct st.
  destruct (srv _) as [|res]; simpl.
  - repeat split. exists NetworkError. now rewrite <- List.app_assoc.
  - destruct (Json.parse _) as [data|e]; simpl.
    + destruct (Js.get data "results") as [v|e]; simpl;
        (split; [reflexivity|]; split; [reflexivity|]; intros [? [=]]).
    + repeat split. exists e. now rewrite <- List.app_assoc.
Qed.

Lemma handleSearch_failure_and_loading_witness :
  match App.handleSearch "linux" [] Sample.offline Sample.polled [] with
  | (_, st', _) =>
      App.searchResults st' = App.searchResults Sample.polled
      /\ App.toast st' = Spec.shown "Search failed" error
  end.
Proof.
  pose proof (handleSearch_failure_and_loading "linux" [] Sample.offline
                Sample.polled []) as H.
  cbv zeta in H.
  destruct (App.handleSearch _ _ _ _ _) as [[r st'] t'].
  destruct H as (_ & _ & H). destruct (H I) as (H1 & H2 & _).
  split; assumption.
Defined.

(** ** Failures of the write operations *)

(** C4, as stated, does not hold: a rejected cancel or retry call leaves
    its handler as an exception, with no notification and no console line;
    and a rejected delete of a history record is logged, with no
    notification. *)
Lemma write_failures_not_all_notified :
  Eff.run (App.handleCancel "abc") Sample.offline Sample.polled
  = (Throw NetworkError, Sample.polled, [Sent (delete_ "/api/transfers/abc")])
  /\ Eff.run (App.handleRetry "abc") Sample.offline Sample.polled
     = (Throw NetworkError, Sample.polled,
        [Sent (post_ "/api/transfers/abc/retry" NoBody)])
  /\ visible (App.toast Sample.polled) = false
  /\ Eff.run (HistoryTab.handleDeleteSearch 7) Sample.offline Sample.page_two
     = (Ok tt, Sample.page_two,
        [Sent (delete_ "/api/search-history/7");
         ConsoleError "Failed to delete search:" NetworkError])
  /\ visible (HistoryTab.toast Sample.page_two) = false.
Proof. repeat split. Qed.

(** C4 (amended): when the HTTP call of a write operation rejects, the
    handler of start download logs the error and raises the notification
    "Failed to start download"; the handler of save settings raises
    "Failed to save settings" (also for a response that is not 2xx) and logs
    nothing; the four handlers that delete history records log the error
    and raise no notification, leaving the state of the component as it was;
    none of these handlers lets the error out.  (Cancel and retry are not
    covered.) *)
Theorem write_failures_contained (srv : Server) (t : Trace) :
  (forall (st : App.State) (result : XdccSearchResult),
     let req := post_ "/api/download" (DownloadBody (App.download_url result)) in
     srv req = Rejected ->
     App.handleDownload result srv st t
     = (Ok tt, with_toast (Spec.shown "Failed to start download" error) st,
        (t ++ [Sent req; ConsoleError "Download start failed" NetworkError])%list))
  /\ (forall (st : SettingsTab.State) (cfg : AppConfig),
        let req := put_ "/api/settings" (SettingsBody cfg) in
        SettingsTab.settings st = Some cfg ->
        (srv req = Rejected
         \/ exists res, srv req = Responded res /\ ok res = false) ->
        match SettingsTab.saveSettings srv st t with
        | (r, st', t') =>
            r = Ok tt
            /\ SettingsTab.toast st' = Spec.shown "Failed to save settings" error
            /\ SettingsTab.saving st' = false
            /\ SettingsTab.settings st' = Some cfg
            /\ t' = (t ++ [Sent req])%list
        end)
  /\ (forall (st : HistoryTab.State) (id : Z),
        let req := delete_ ("/api/search-history/" ++ Uri.of_int id) in
        srv req = Rejected ->
        HistoryTab.handleDeleteSearch id srv st t
        = (Ok tt, st,
           (t ++ [Sent req;
                  ConsoleError "Failed to delete search:" NetworkError])%list))
  /\ (forall (st : HistoryTab.State) (id : string) (deleteFile : bool),
        let req := delete_ ("/api/history/" ++ id ++ "?delete_file="
                              ++ Uri.of_bool deleteFile) in
        srv req = Rejected ->
        HistoryTab.handleDeleteDownload id deleteFile srv st t
        = (Ok tt, st,
           (t ++ [Sent req;
                  ConsoleError "Failed to delete download:" NetworkError])%list))
  /\ (forall (st : HistoryTab.State) (confirm : string -> bool),
        let sel := HistoryTab.selectedSearches st in
        let req := post_ "/api/search-history/bulk" (IdsBody (elements sel)) in
        sel <> ∅ ->
        confirm ("Delete " ++ Uri.of_int (HistoryTab.size_of sel)
                   ++ " search history items?") = true ->
        srv req = Rejected ->
        HistoryTab.handleBulkDeleteSearches confirm srv st t
        = (Ok tt, st,
           (t ++ [Sent req;
                  ConsoleError "Failed to bulk delete searches:"
                    NetworkError])%list))
  /\ (forall (st : HistoryTab.State) (confirm : string -> bool)
        (deleteFiles : bool),
        let sel := HistoryTab.selectedDownloads st in
        let req := post_ "/api/history/bulk" (BulkBody (elements sel) deleteFiles) in
        sel <> ∅ ->
        confirm (if deleteFiles
                 then "Delete " ++ Uri.of_int (HistoryTab.size_of sel)
                        ++ " items AND their files from disk?"
                 else "Remove " ++ Uri.of_int (HistoryTab.size_of sel)
                        ++ " items from history?") = true ->
        srv req = Rejected ->
        HistoryTab.handleBulkDeleteDownloads confirm deleteFiles srv st t
        = (Ok tt, st,
           (t ++ [Sent req;
                  ConsoleError "Failed to bulk delete downloads:"
                    NetworkError])%list)).
Proof.
  repeat apply conj; cbv zeta.
  - intros st result H. unfold App.handleDownload. run_handler.
    rewrite H. now rewrite <- List.app_assoc.
  - intros st cfg Hs H.
    unfold SettingsTab.saveSettings, SettingsTab.setSaving. run_handler.
    rewrite Hs. simpl.
    destruct H as [->|(res & -> & Hok)]; simpl; [|rewrite Hok; simpl];
      now rewrite Hs.
  - intros st id H. unfold HistoryTab.handleDeleteSearch. run_handler.
    rewrite H. now rewrite <- List.app_assoc.
  - intros st id deleteFile H. unfold HistoryTab.handleDeleteDownload.
    run_handler. rewrite H. now rewrite <- List.app_assoc.
  - intros st confirm Hne Hc H.
    unfold HistoryTab.handleBulkDeleteSearches. run_handler.
    assert ((HistoryTab.size_of (HistoryTab.selectedSearches st) =? 0) = false) as ->.
    { apply Z.eqb_neq. unfold HistoryTab.size_of.
      intros E. apply Hne, leibniz_equiv, size_empty_inv. lia. }
    rewrite Hc. simpl. rewrite H. now rewrite <- List.app_assoc.
  - intros st confirm deleteFiles Hne Hc H.
    unfold HistoryTab.handleBulkDeleteDownloads. run_handler.
    assert ((HistoryTab.size_of (HistoryTab.selectedDownloads st) =? 0) = false) as ->.
    { apply Z.eqb_neq. unfold HistoryTab.size_of.
      intros E. apply Hne, leibniz_equiv, size_empty_inv. lia. }
    rewrite Hc. simpl. rewrite H. now rewrite <- List.app_assoc.
Qed.

Lemma write_failures_contained_witness :
  fst (fst (App.handleDownload (Sample.result_on "irc.foo.net")
              Sample.offline Sample.polled [])) = Ok tt
  /\ SettingsTab.toast
       (snd (fst (SettingsTab.saveSettings Sample.offline
                    Sample.settings_state [])))
     = Spec.shown "Failed to save settings" error
  /\ fst (fst (HistoryTab.handleDeleteSearch 7 Sample.offline
                 Sample.page_two [])) = Ok tt
  /\ fst (fst (HistoryTab.handleDeleteDownload "a" true Sample.offline
                 Sample.page_two [])) = Ok tt
  /\ fst (fst (HistoryTab.handleBulkDeleteSearches (fun _ => true)
                 Sample.offline Sample.page_two [])) = Ok tt
  /\ fst (fst (HistoryTab.handleBulkDeleteDownloads (fun _ => true) false
                 Sample.offline Sample.page_two [])) = Ok tt.
Proof.
  destruct (write_failures_contained Sample.offline [])
    as (H1 & H2 & H3 & H4 & H5 & H6).
  repeat apply conj.
  - now rewrite (H1 Sample.polled (Sample.result_on "irc.foo.net") eq_refl).
  - specialize (H2 Sample.settings_state Sample.config eq_refl
                  (or_introl eq_refl)).
    destruct (SettingsTab.saveSettings _ _ _) as [[r st'] t'].
    destruct H2 as (_ & H & _). exact H.
  - now rewrite (H3 Sample.page_two 7 eq_refl).
  - now rewrite (H4 Sample.page_two "a" true eq_refl).
  - assert (N : HistoryTab.selectedSearches Sample.page_two <> ∅)
      by (intros E; apply (f_equal size) in E; discriminate E).
    now rewrite (H5 Sample.page_two (fun _ => true) N eq_refl eq_refl).
  - assert (N : HistoryTab.selectedDownloads Sample.page_two <> ∅)
      by (intros E; apply (f_equal size) in E; discriminate E).
    now rewrite (H6 Sample.page_two (fun _ => true) false N eq_refl eq_refl).
Defined.

(** ** The history browser *)

Module HistoryFacts.

(** A value with one readable property has them all readable. *)
Lemma get_defined data k v k' :
  Js.get data k = Ok v -> exists v', Js.get data k' = Ok v'.
Proof. destruct data; simpl; intros [=]; eauto. Qed.

Lemma get_truthy v k : Js.truthy v = true -> exists v', Js.get v k = Ok v'.
Proof. destruct v; simpl; intros [=]; eauto. Qed.

(** A snapshot that [JSON.parse] refuses makes the render of its expanded
    row throw. *)
Lemma render_expansion_throws (item : HistoryTab.SearchHistoryItem) text e :
  HistoryTab.results_json item = Some text ->
  text <> "" ->
  Json.parse text = Throw e ->
  HistoryTab.render_expansion (Some (HistoryTab.id item)) item
  = inr (HistoryTab.Thrown e).
Proof.
  intros Hj Hne Hp. unfold HistoryTab.render_expansion.
  rewrite bool_decide_eq_true_2 by reflexivity.
  rewrite Hj, Hp. now destruct text.
Qed.

(** A row is expanded only when it is the one marked as expanded. *)
Lemma render_expansion_other (item : HistoryTab.SearchHistoryItem) expanded :
  expanded <> Some (HistoryTab.id item) ->
  HistoryTab.render_expansion expanded item = inl None.
Proof.
  intros H. unfold HistoryTab.render_expansion.
  now rewrite bool_decide_eq_false_2.
Qed.

End HistoryFacts.

(** C3: a search-history row without a snapshot, or with an empty one,
    renders no expansion, whichever row is marked as expanded.  A row whose
    snapshot is not JSON is where the code departs from the claim: once the
    click has marked it as expanded, its render throws the SyntaxError of
    [JSON.parse] (no amount of fuel makes the parser accept the text),
    which nothing catches. *)
Theorem expansion_of_missing_and_broken_snapshots :
  (forall (expanded : option Z) (i n : Z) (q d : string),
     HistoryTab.render_expansion expanded
       {| HistoryTab.id := i; HistoryTab.query := q;
          HistoryTab.results_count := n; HistoryTab.results_json := None;
          HistoryTab.searched_at := d |} = inl None
     /\ HistoryTab.render_expansion expanded
          {| HistoryTab.id := i; HistoryTab.query := q;
             HistoryTab.results_count := n; HistoryTab.results_json := Some "";
             HistoryTab.searched_at := d |} = inl None)
  /\ HistoryTab.results_json Sample.broken_row = Some "[{"
  /\ Json.parse "[{" = Throw SyntaxError
  /\ (forall fuel, Json.parse_value fuel (Str.chars "[{") = None)
  /\ (forall srv,
        match Eff.run (HistoryTab.toggleExpanded Sample.broken_row) srv
                HistoryTab.initial with
        | (_, st', _) =>
            HistoryTab.expandedSearch st' = Some 7
            /\ HistoryTab.render_expansion (HistoryTab.expandedSearch st')
                 Sample.broken_row
               = inr (HistoryTab.Thrown SyntaxError)
        end).
Proof.
  split; [|split; [|split; [|split]]]; try reflexivity.
  - intros expanded i n q d. unfold HistoryTab.render_expansion. simpl.
    split; now destruct (bool_decide _).
  - intros [|[|[|fuel]]]; reflexivity.
  - intros srv. split; reflexivity.
Qed.

(** C10: a fetch of a page of download history never changes the set of
    selected downloads (nor the selected searches), whatever the server
    answers, and ends normally; when the body carries [items] it replaces
    the loaded items, the number of pages and the total by what the body
    says, and when it carries the older [history] shape likewise; so after
    a page change the selection can hold the id of an item that is no
    longer loaded, as it does for item "a" once page 2 has arrived. *)
Theorem fetchDownloadHistory_keeps_selection :
  (forall (srv : Server) (st : HistoryTab.State) (t : Trace),
     match HistoryTab.fetchDownloadHistory srv st t with
     | (r, st', t') =>
         r = Ok tt
         /\ HistoryTab.selectedDownloads st' = HistoryTab.selectedDownloads st
         /\ HistoryTab.selectedSearches st' = HistoryTab.selectedSearches st
         /\ HistoryTab.downloadPage st' = HistoryTab.downloadPage st
         /\ HistoryTab.loading st' = false
     end)
  /\ (forall (srv : Server) (st : HistoryTab.State) (t : Trace)
        (res : Response) (data items : value),
        srv (get_ ("/api/history?page=" ++ Uri.of_int (HistoryTab.downloadPage st)
                     ++ "&limit=10")) = Responded res ->
        Json.parse (Eff.decoded (text res)) = Ok data ->
        Js.get data "items" = Ok items ->
        Js.truthy items = true ->
        match HistoryTab.fetchDownloadHistory srv st t with
        | (_, st', _) =>
            HistoryTab.downloads st' = HistoryTab.Now items
            /\ (exists pages,
                  Js.get data "total_pages" = Ok pages
                  /\ HistoryTab.downloadTotalPages st' = Js.or pages (Js.num 1))
            /\ (exists total len,
                  Js.get data "total" = Ok total
                  /\ Js.get items "length" = Ok len
                  /\ HistoryTab.downloadTotal st'
                     = HistoryTab.Now (Js.or total len))
        end)
  /\ (forall (srv : Server) (st : HistoryTab.State) (t : Trace)
        (res : Response) (data items history : value),
        srv (get_ ("/api/history?page=" ++ Uri.of_int (HistoryTab.downloadPage st)
                     ++ "&limit=10")) = Responded res ->
        Json.parse (Eff.decoded (text res)) = Ok data ->
        Js.get data "items" = Ok items ->
        Js.truthy items = false ->
        Js.get data "history" = Ok history ->
        Js.truthy history = true ->
        match HistoryTab.fetchDownloadHistory srv st t with
        | (_, st', _) =>
            HistoryTab.downloads st' = HistoryTab.Now history
            /\ HistoryTab.downloadTotalPages st' = Js.num 1
            /\ (exists count len,
                  Js.get data "count" = Ok count
                  /\ Js.get history "length" = Ok len
                  /\ HistoryTab.downloadTotal st'
                     = HistoryTab.Now (Js.or count len))
        end)
  /\ (let st' := snd (fst (Eff.run HistoryTab.fetchDownloadHistory
                              (Sample.always 200 Sample.second_page)
                              Sample.page_two)) in
      "a" ∈ HistoryTab.selectedDownloads st'
      /\ Spec.loaded_ids (HistoryTab.downloads Sample.page_two) = [VStr "a"]
      /\ Spec.loaded_ids (HistoryTab.downloads st') = [VStr "b"]).
Proof.
  repeat apply conj.
  - intros srv st t.
    unfold HistoryTab.fetchDownloadHistory, HistoryTab.setLoading,
      HistoryTab.setDownloads, HistoryTab.setDownloadTotalPages,
      HistoryTab.setDownloadTotal, HistoryTab.onDownloads,
      HistoryTab.onDownloadTotal, HistoryTab.or_length.
    run_handler. destruct st. simpl.
    destruct (srv _) as [|res]; simpl; [now repeat split|].
    destruct (Json.parse _) as [data|e]; simpl; [|now repeat split].
    destruct (Js.get data "items") as [items|e]; simpl; [|now repeat split].
    destruct (Js.truthy items); simpl.
    + destruct (Js.get data "total_pages"); simpl; [|now repeat split].
      destruct (Js.get data "total") as [total|]; simpl; [|now repeat split].
      destruct (Js.truthy total); simpl; [now repeat split|].
      destruct (Js.get items "length"); simpl; now repeat split.
    + destruct (Js.get data "history") as [history|]; simpl; [|now repeat split].
      destruct (Js.truthy history); simpl; [|now repeat split].
      destruct (Js.get data "count") as [count|]; simpl; [|now repeat split].
      destruct (Js.truthy count); simpl; [now repeat split|].
      destruct (Js.get history "length"); simpl; now repeat split.
  - intros srv st t res data items Hsrv Hparse Hitems Htruthy.
    destruct (HistoryFacts.get_defined data "items" items "total_pages" Hitems)
      as [pages Hp].
    destruct (HistoryFacts.get_defined data "items" items "total" Hitems)
      as [total Ht].
    destruct (HistoryFacts.get_truthy items "length" Htruthy) as [len Hl].
    unfold HistoryTab.fetchDownloadHistory, HistoryTab.setLoading,
      HistoryTab.setDownloads, HistoryTab.setDownloadTotalPages,
      HistoryTab.setDownloadTotal, HistoryTab.onDownloads,
      HistoryTab.onDownloadTotal, HistoryTab.or_length.
    run_handler. destruct st. simpl in *.
    rewrite Hsrv. simpl. rewrite Hparse. simpl. rewrite Hitems. simpl.
    rewrite Htruthy. simpl. rewrite Hp. simpl. rewrite Ht. simpl.
    unfold Js.or. destruct (Js.truthy total) eqn:E; simpl; [|rewrite Hl; simpl];
      (split; [reflexivity|]; split; [eauto|]; exists total, len;
       rewrite E; auto).
  - intros srv st t res data items history Hsrv Hparse Hitems Hfalsy
      Hhistory Htruthy.
    destruct (HistoryFacts.get_defined data "items" items "count" Hitems)
      as [count Hc].
    destruct (HistoryFacts.get_truthy history "length" Htruthy) as [len Hl].
    unfold HistoryTab.fetchDownloadHistory, HistoryTab.setLoading,
      HistoryTab.setDownloads, HistoryTab.setDownloadTotalPages,
      HistoryTab.setDownloadTotal, HistoryTab.onDownloads,
      HistoryTab.onDownloadTotal, HistoryTab.or_length.
    run_handler. destruct st. simpl in *.
    rewrite Hsrv. simpl. rewrite Hparse. simpl. rewrite Hitems. simpl.
    rewrite Hfalsy. simpl. rewrite Hhistory. simpl. rewrite Htruthy. simpl.
    rewrite Hc. simpl.
    unfold Js.or. destruct (Js.truthy count) eqn:E; simpl; [|rewrite Hl; simpl];
      (split; [reflexivity|]; split; [reflexivity|]; exists count, len;
       rewrite E; auto).
  - apply (bool_decide_unpack _). vm_compute. exact I.
  - reflexivity.
  - reflexivity.
Qed.

Lemma fetchDownloadHistory_keeps_selection_witness :
  match HistoryTab.fetchDownloadHistory (Sample.always 200 Sample.second_page)
          Sample.page_two [] with
  | (_, st', _) =>
      HistoryTab.downloads st' = HistoryTab.Now (VArr [VObj [("id", VStr "b")]])
      /\ HistoryTab.selectedDownloads st' = {[ "a" ]}
  end.
Proof.
  destruct fetchDownloadHistory_keeps_selection as (H1 & H2 & _).
  specialize (H1 (Sample.always 200 Sample.second_page) Sample.page_two []).
  specialize (H2 (Sample.always 200 Sample.second_page) Sample.page_two []
                {| status := 200; text := Sample.second_page |}
                (VObj [("items", VArr [VObj [("id", VStr "b")]]);
                       ("total", Js.num 11); ("total_pages", Js.num 2)])
                (VArr [VObj [("id", VStr "b")]])
                eq_refl eq_refl eq_refl eq_refl).
  destruct (HistoryTab.fetchDownloadHistory _ _ _) as [[r st'] t'].
  destruct H1 as (_ & H1 & _). destruct H2 as (H2 & _).
  split; assumption.
Defined.

(* ===================================================================== *)
(** * Further properties of the components                                *)
(* ===================================================================== *)

(** ** Text utilities *)

Module TextFacts.

Lemma length_of_chars l : String.length (Str.of_chars l) = List.length l.
Proof. induction l; simpl; congruence. Qed.

Lemma length_chars s : List.length (Str.chars s) = String.length s.
Proof. induction s; simpl; congruence. Qed.

Lemma length_append (a b : string) :
  String.length (a ++ b) = (String.length a + String.length b)%nat.
Proof. induction a as [|c a IH]; [reflexivity|]. simpl. now rewrite IH. Qed.

Lemma of_chars_chars s : Str.of_chars (Str.chars s) = s.
Proof. apply string_of_list_ascii_of_string. Qed.

Lemma of_chars_app a b :
  Str.of_chars (a ++ b)%list = Str.of_chars a ++ Str.of_chars b.
Proof. induction a as [|c a IH]; [reflexivity|]. simpl. now rewrite IH. Qed.

End TextFacts.

(** X1: [truncateMiddle] returns a text of at most [maxLength] characters
    exactly when the text already fits or [maxLength] is at least 3.  A text
    that fits is returned as it is; a longer one becomes its first [side]
    characters, three dots and its last [side] characters, where [side] is
    half of [maxLength - 3] rounded down; for [maxLength] below 3 the
    result of a text that does not fit is longer than [maxLength]. *)
Theorem truncateMiddle_length (text : string) (maxLength : Z) :
  let len := Z.of_nat (String.length text) in
  let out := Format.truncateMiddle text maxLength in
  (len <= maxLength -> out = text)
  /\ (maxLength < len -> 3 <= maxLength ->
      let side := Z.to_nat ((maxLength - 3) / 2) in
      out = Str.of_chars (firstn side (Str.chars text)) ++ "..."
            ++ Str.of_chars (skipn (String.length text - side) (Str.chars text))
      /\ Z.of_nat (String.length out) = 2 * ((maxLength - 3) / 2) + 3
      /\ Z.of_nat (String.length out) <= maxLength)
  /\ (maxLength < len -> maxLength < 3 ->
      maxLength < Z.of_nat (String.length out)).
Proof.
  cbv zeta. unfold Format.truncateMiddle.
  destruct (Z.leb_spec (Z.of_nat (String.length text)) maxLength) as [L|L].
  - repeat split; intros; lia.
  - split; [intros; lia|]. split.
    + intros _ H3.
      assert (Hs : 0 <= (maxLength - 3) / 2) by (apply Z.div_pos; lia).
      assert (Hm : 2 * ((maxLength - 3) / 2) <= maxLength - 3)
        by (apply Z.mul_div_le; lia).
      set (side := (maxLength - 3) / 2) in *.
      assert (E1 : Text.slice text 0 (Some side)
                   = Str.of_chars (firstn (Z.to_nat side) (Str.chars text))).
      { unfold Text.slice, Text.clamp. simpl (0 <? 0).
        rewrite (proj2 (Z.ltb_ge side 0)) by lia.
        rewrite Z.min_l by lia. rewrite Z.min_l by lia.
        now rewrite Z.sub_0_r. }
      assert (E2 : Text.slice text (Z.of_nat (String.length text) - side) None
                   = Str.of_chars
                       (skipn (String.length text - Z.to_nat side)
                          (Str.chars text))).
      { unfold Text.slice, Text.clamp.
        rewrite (proj2 (Z.ltb_ge _ 0)) by lia.
        rewrite Z.min_l by lia.
        replace (Z.to_nat (Z.of_nat (String.length text) - side))
          with (String.length text - Z.to_nat side)%nat by lia.
        rewrite firstn_all2; [reflexivity|].
        rewrite length_skipn, TextFacts.length_chars. lia. }
      rewrite E1, E2. split; [reflexivity|].
      rewrite !TextFacts.length_append, !TextFacts.length_of_chars.
      rewrite length_firstn, length_skipn, TextFacts.length_chars.
      simpl String.length. lia.
    + intros _ H3. rewrite !TextFacts.length_append. simpl String.length. lia.
Qed.

Lemma truncateMiddle_length_witness :
  Format.truncateMiddle "Some.Very.Long.File.Name.mkv" 11 = "Some....mkv"
  /\ Format.truncateMiddle "short" 11 = "short"
  /\ 2 < Z.of_nat (String.length (Format.truncateMiddle "abcdef" 2)).
Proof.
  destruct (truncateMiddle_length "Some.Very.Long.File.Name.mkv" 11)
    as (_ & H2 & _).
  destruct (truncateMiddle_length "short" 11) as (H1 & _ & _).
  destruct (truncateMiddle_length "abcdef" 2) as (_ & _ & H3).
  cbv zeta in *. split; [|split].
  - destruct H2 as (E & _); [simpl; lia | lia |]. rewrite E. reflexivity.
  - apply H1. simpl. lia.
  - apply H3; simpl; lia.
Defined.

(** ** The filter bar and the server list *)

Module FilterFacts.

Import SearchResults SearchFilter.

Lemma strip_prefix_app p r : Str.strip_prefix p (p ++ r) = Some r.
Proof.
  induction p as [|c p IH]; [reflexivity|]. simpl.
  now rewrite Ascii.eqb_refl.
Qed.

(** [includes] finds [sub] exactly when the text is some prefix, [sub] and
    some suffix. *)
Lemma includes_spec s sub :
  Text.includes s sub = true <-> exists before after, s = before ++ sub ++ after.
Proof.
  split.
  - induction s as [|c s IH]; simpl; unfold Str.startsWith.
    + destruct (Str.strip_prefix sub "") as [r|] eqn:E; [|discriminate].
      intros _. exists "", r. now apply StrFacts.strip_prefix_Some in E.
    + destruct (Str.strip_prefix sub (String c s)) as [r|] eqn:E.
      * intros _. exists "", r. now apply StrFacts.strip_prefix_Some in E.
      * intros H. destruct (IH H) as (b & a & ->). now exists (String c b), a.
  - intros (b & a & ->). induction b as [|c b IH].
    + simpl. destruct (sub ++ a) eqn:E; simpl; unfold Str.startsWith;
        rewrite <- E, strip_prefix_app; reflexivity.
    + simpl. now destruct (Str.startsWith _ _).
Qed.

Lemma lt_false a b : lt a b = false <-> (b <= a)%Q.
Proof.
  unfold lt. rewrite negb_false_iff. apply Qle_bool_iff.
Qed.

Lemma toLowerCase_empty s :
  Str.is_empty (Str.toLowerCase s) = Str.is_empty s.
Proof. now destruct s. Qed.

(** What [keeps] decides, filter by filter. *)
Lemma keeps_spec f r :
  keeps f r = true <->
  (filterQuery f = ""
   \/ exists before after,
        Str.toLowerCase (file_name r)
        = before ++ Str.toLowerCase (filterQuery f) ++ after)
  /\ (selectedServer f = ""
      \/ normalizeServer (server r) = normalizeServer (selectedServer f))
  /\ (forall m, minSize f = Some m -> (bytes_of_mb m <= inject_Z (file_size r))%Q)
  /\ (forall m, maxSize f = Some m -> (inject_Z (file_size r) <= bytes_of_mb m)%Q).
Proof.
  unfold keeps. rewrite <- includes_spec.
  destruct (filterQuery f) as [|qc q] eqn:Eq; simpl Str.is_empty; simpl negb;
    cbv beta iota;
    [| destruct (Text.includes _ _) eqn:Ei; simpl ];
    (destruct (selectedServer f) as [|sc s'] eqn:Es; simpl Str.is_empty;
     simpl negb; cbv beta iota;
     [| destruct (String.eqb_spec (normalizeServer (server r))
                    (normalizeServer (String sc s'))) as [En|En]; simpl ]);
    (destruct (minSize f) as [mn|];
     [destruct (lt (inject_Z (file_size r)) (bytes_of_mb mn)) eqn:Emin|]);
    (destruct (maxSize f) as [mx|];
     [destruct (lt (bytes_of_mb mx) (inject_Z (file_size r))) eqn:Emax|]);
    try apply lt_false in Emin; try apply lt_false in Emax;
    (split;
     [ try discriminate; intros _; repeat split; auto;
       intros ? [= <-]; assumption
     | intros (Ht & Hs & Hmin & Hmax); try reflexivity; exfalso;
       try (destruct Ht as [Ht|Ht]; [discriminate Ht | discriminate Ht]);
       try (destruct Hs as [Hs|Hs]; [discriminate Hs | contradiction]);
       try (specialize (Hmin _ eq_refl); apply lt_false in Hmin; congruence);
       try (specialize (Hmax _ eq_refl); apply lt_false in Hmax; congruence) ]).
Qed.

End FilterFacts.

(** X2: the filtered list holds, in their order, exactly the results that
    pass every filter that is switched on: the lower-cased file name
    contains the lower-cased filter text; the server equals the chosen one
    after normalisation; the size lies between the two bounds, taken in
    megabytes of 1024 * 1024 bytes, both bounds included.  With nothing
    switched on the list is the result list, a filter text matters only up
    to letter case, and a file of exactly [mb] megabytes passes the bounds
    min = max = [mb]. *)
Theorem filteredResults_characterised
    (f : SearchFilter.Filters) (results : list XdccSearchResult) :
  (forall r,
     In r (SearchFilter.filteredResults f results) <->
     In r results
     /\ (SearchFilter.filterQuery f = ""
         \/ exists before after,
              Str.toLowerCase (file_name r)
              = before ++ Str.toLowerCase (SearchFilter.filterQuery f) ++ after)
     /\ (SearchFilter.selectedServer f = ""
         \/ SearchResults.normalizeServer (server r)
            = SearchResults.normalizeServer (SearchFilter.selectedServer f))
     /\ (forall m, SearchFilter.minSize f = Some m ->
           (SearchFilter.bytes_of_mb m <= inject_Z (file_size r))%Q)
     /\ (forall m, SearchFilter.maxSize f = Some m ->
           (inject_Z (file_size r) <= SearchFilter.bytes_of_mb m)%Q))
  /\ sublist (SearchFilter.filteredResults f results) results
  /\ SearchFilter.filteredResults SearchFilter.no_filter results = results
  /\ (forall q,
        Str.toLowerCase q = Str.toLowerCase (SearchFilter.filterQuery f) ->
        SearchFilter.filteredResults (SearchFilter.setFilterQuery q f) results
        = SearchFilter.filteredResults f results)
  /\ (forall (mb : Z) r,
        In r results -> file_size r = mb * 1048576 ->
        In r (SearchFilter.filteredResults
                {| SearchFilter.filterQuery := "";
                   SearchFilter.minSize := Some (inject_Z mb);
                   SearchFilter.maxSize := Some (inject_Z mb);
                   SearchFilter.selectedServer := "" |} results)).
Proof.
  unfold SearchFilter.filteredResults. repeat apply conj.
  - intros r. rewrite filter_In, FilterFacts.keeps_spec. tauto.
  - induction results as [|x l IH]; simpl; [constructor|].
    destruct (SearchFilter.keeps f x); now constructor.
  - induction results as [|x l IH]; simpl; [reflexivity|]. now rewrite IH.
  - intros q Hq. apply filter_ext. intros r. unfold SearchFilter.keeps. simpl.
    rewrite Hq. f_equal. f_equal.
    rewrite <- (FilterFacts.toLowerCase_empty q), Hq.
    now rewrite FilterFacts.toLowerCase_empty.
  - intros mb r Hin Hsz. apply filter_In. split; [exact Hin|].
    apply FilterFacts.keeps_spec. simpl. repeat split; auto;
      intros m [= <-]; rewrite Hsz; unfold SearchFilter.bytes_of_mb;
      unfold Qle; simpl; lia.
Qed.

Lemma filteredResults_characterised_witness :
  In {| server := "foo.net"; bot := "B"; pack_number := 3;
        file_size := 104857600; file_name := "Linux.ISO"; downloads := 1;
        channel := "#c" |}
     (SearchFilter.filteredResults
        {| SearchFilter.filterQuery := "";
           SearchFilter.minSize := Some (inject_Z 100);
           SearchFilter.maxSize := Some (inject_Z 100);
           SearchFilter.selectedServer := "" |}
        [{| server := "foo.net"; bot := "B"; pack_number := 3;
            file_size := 104857600; file_name := "Linux.ISO"; downloads := 1;
            channel := "#c" |}])
  /\ SearchFilter.filteredResults
       (SearchFilter.setFilterQuery "ISO" SearchFilter.no_filter)
       [Sample.result_on "a"]
     = SearchFilter.filteredResults
         (SearchFilter.setFilterQuery "iso" SearchFilter.no_filter)
         [Sample.result_on "a"].
Proof.
  split.
  - apply (filteredResults_characterised SearchFilter.no_filter);
      [now left | reflexivity].
  - apply (filteredResults_characterised
             (SearchFilter.setFilterQuery "iso" SearchFilter.no_filter)).
    reflexivity.
Defined.

Module ServerListFacts.

Import SearchResults SearchFilter Spec.

Lemma str_le_total : Total str_le.
Proof. intros a b. apply String.leb_total. Qed.

Lemma keyed_seen results : forall m, keyed m -> keyed (fold_left see results m).
Proof.
  induction results as [|r results IH]; intros m K; simpl; [exact K|].
  apply IH, FacetFacts.keyed_see, K.
Qed.

Lemma seen_from results : forall m e,
  In e (fold_left see results m) ->
  In e m \/ exists x, In x results /\ snd e = server x.
Proof.
  induction results as [|r results IH]; intros m e H; simpl in *; [now left|].
  destruct (IH _ _ H) as [Hin|(x & Hx & E)].
  - destruct (FacetFacts.see_spec m r) as [Es|[_ Es]]; rewrite Es in Hin.
    + now left.
    + apply in_app_or in Hin as [Hin|[<-|[]]]; [now left|].
      right. exists r. split; [now left | reflexivity].
  - right. exists x. split; [now right | exact E].
Qed.

Lemma seen_length results : forall m,
  (List.length (fold_left see results m) <= List.length m + List.length results)%nat.
Proof.
  induction results as [|r results IH]; intros m; simpl; [lia|].
  specialize (IH (see m r)).
  destruct (FacetFacts.see_spec m r) as [Es|[_ Es]]; rewrite Es in IH |- *.
  - lia.
  - rewrite length_app in IH. simpl in IH. lia.
Qed.

Lemma In_servers results e :
  In e (servers results) <-> In e (map_values (seen_servers results)).
Proof.
  unfold servers. split; apply Permutation_in;
    [apply merge_sort_Permutation | symmetry; apply merge_sort_Permutation].
Qed.

(** An entry of the list is the server of some result. *)
Lemma servers_from results e :
  In e (servers results) -> exists x, In x results /\ server x = e.
Proof.
  rewrite In_servers. unfold map_values. intros ((k & v) & <- & H)%in_map_iff.
  destruct (seen_from results [] (k, v) H) as [[]|(x & Hx & E)].
  exists x. now split.
Qed.

(** The entry that stands for the server of a result. *)
Lemma servers_entry results r :
  In r results ->
  exists e, entries_for (normalizeServer (server r)) (servers results) = [e].
Proof.
  intros Hr.
  destruct (FacetFacts.first_occurrence
              (fun x => normalizeServer (server x) = normalizeServer (server r))
              (fun x => string_dec _ _) results)
    as (before & first & after & -> & Fb & Pf); [now exists r|].
  exists (server first). unfold servers. apply FacetFacts.entries_sorted.
  rewrite <- Pf. apply FacetFacts.entries_fold_first;
    [split; constructor | reflexivity |].
  rewrite Pf. exact Fb.
Qed.

Lemma In_entries key l e :
  In e (entries_for key l) <-> In e l /\ normalizeServer e = key.
Proof.
  unfold entries_for. rewrite filter_In. now rewrite String.eqb_eq.
Qed.

End ServerListFacts.

(** X3: the server list is in ascending order, holds no two names with the
    same normalised form, holds only servers of results, has a name for the
    server of every result, and is never longer than the result list. *)
Theorem servers_sorted_and_complete (results : list XdccSearchResult) :
  Sorted SearchResults.str_le (SearchResults.servers results)
  /\ NoDup (map SearchResults.normalizeServer (SearchResults.servers results))
  /\ (forall e, In e (SearchResults.servers results) ->
        exists x, In x results /\ server x = e)
  /\ (forall x, In x results ->
        exists e, In e (SearchResults.servers results)
                  /\ SearchResults.normalizeServer e
                     = SearchResults.normalizeServer (server x))
  /\ (List.length (SearchResults.servers results) <= List.length results)%nat.
Proof.
  repeat apply conj.
  - apply (@Sorted_merge_sort _ _ _ ServerListFacts.str_le_total).
  - unfold SearchResults.servers.
    rewrite (merge_sort_Permutation SearchResults.str_le).
    destruct (ServerListFacts.keyed_seen results []) as [F N];
      [split; constructor|].
    unfold SearchResults.seen_servers, SearchResults.map_values.
    rewrite List.map_map.
    erewrite map_ext_in; [exact N|].
    intros e He. exact (proj1 (List.Forall_forall _ _) F e He).
  - apply ServerListFacts.servers_from.
  - intros x Hx. destruct (ServerListFacts.servers_entry results x Hx) as [e He].
    exists e. apply ServerListFacts.In_entries. rewrite He. now left.
  - unfold SearchResults.servers.
    rewrite (Permutation_length (merge_sort_Permutation _ _)).
    unfold SearchResults.map_values. rewrite length_map.
    apply (ServerListFacts.seen_length results []).
Qed.

Lemma servers_sorted_and_complete_witness :
  exists e,
    In e (SearchResults.servers
            [Sample.result_on "irc.foo.net"; Sample.result_on "Bar.org"])
    /\ SearchResults.normalizeServer e = "bar.org".
Proof.
  destruct (servers_sorted_and_complete
              [Sample.result_on "irc.foo.net"; Sample.result_on "Bar.org"])
    as (_ & _ & _ & H & _).
  apply (H (Sample.result_on "Bar.org")). simpl. tauto.
Defined.

(** X4: when no result has an empty server name, the entries of the server
    list split the results: every result is shown under exactly one entry,
    the one that stands for its normalised server. *)
Theorem server_entries_partition_results
    (results : list XdccSearchResult) (r : XdccSearchResult) :
  (forall x, In x results -> server x <> "") ->
  In r results ->
  exists e,
    In e (SearchResults.servers results)
    /\ In r (SearchFilter.filteredResults
               (SearchFilter.setSelectedServer e SearchFilter.no_filter) results)
    /\ forall e',
         In e' (SearchResults.servers results) ->
         In r (SearchFilter.filteredResults
                 (SearchFilter.setSelectedServer e' SearchFilter.no_filter)
                 results) ->
         e' = e.
Proof.
  intros Hne Hr.
  destruct (ServerListFacts.servers_entry results r Hr) as [e He].
  assert (Hin : In e (SearchResults.entries_for
                        (SearchResults.normalizeServer (server r))
                        (SearchResults.servers results)))
    by (rewrite He; now left).
  apply ServerListFacts.In_entries in Hin as [Hin Hk].
  exists e. repeat split; [exact Hin| |].
  - apply filter_In. split; [exact Hr|].
    apply FilterFacts.keeps_spec. simpl.
    repeat split; auto; discriminate.
  - intros e' Hin' Hkept.
    apply filter_In in Hkept as [_ Hkept].
    apply FilterFacts.keeps_spec in Hkept as (_ & [Hs|Hs] & _); simpl in Hs.
    + destruct (ServerListFacts.servers_from results e' Hin') as (x & Hx & E).
      exfalso. apply (Hne x Hx). congruence.
    + assert (H' : In e' (SearchResults.entries_for
                            (SearchResults.normalizeServer (server r))
                            (SearchResults.servers results)))
        by (apply ServerListFacts.In_entries; split; [exact Hin' | now symmetry]).
      rewrite He in H'. destruct H' as [<-|[]]. reflexivity.
Qed.

Lemma server_entries_partition_results_witness :
  exists e,
    In e (SearchResults.servers
            [Sample.result_on "irc.foo.net"; Sample.result_on "foo.net"])
    /\ In (Sample.result_on "foo.net")
         (SearchFilter.filteredResults
            (SearchFilter.setSelectedServer e SearchFilter.no_filter)
            [Sample.result_on "irc.foo.net"; Sample.result_on "foo.net"]).
Proof.
  destruct (server_entries_partition_results
              [Sample.result_on "irc.foo.net"; Sample.result_on "foo.net"]
              (Sample.result_on "foo.net")) as (e & H1 & H2 & _).
  - intros x [<-|[<-|[]]]; discriminate.
  - simpl. tauto.
  - now exists e.
Defined.

(** ** The search bar and the URLs *)

Module BarFacts.

Lemma drop_spaces_nil l :
  Str.drop_spaces l = [] <-> List.Forall (fun c => Str.is_space c = true) l.
Proof.
  induction l as [|c l IH]; simpl; [split; [constructor | reflexivity]|].
  destruct (Str.is_space c) eqn:E.
  - rewrite IH. split; [now constructor | now inversion 1].
  - split; [discriminate|]. inversion 1; congruence.
Qed.

(** [trim] gives the empty text exactly for a text of white space only. *)
Lemma trim_blank s :
  Str.trim s = "" <-> List.Forall (fun c => Str.is_space c = true) (Str.chars s).
Proof.
  unfold Str.trim. split.
  - intros H. apply (f_equal Str.chars) in H.
    unfold Str.chars, Str.of_chars in H.
    rewrite list_ascii_of_string_of_list_ascii in H. simpl in H.
    apply (f_equal (@rev ascii)) in H. rewrite rev_involutive in H. simpl in H.
    apply drop_spaces_nil in H. apply List.Forall_rev in H.
    rewrite rev_involutive in H.
    destruct (StrFacts.drop_spaces_spaces (list_ascii_of_string s))
      as (ws & E & F).
    fold (Str.chars s) in *. rewrite E. apply Forall_app. now split.
  - intros H. apply drop_spaces_nil in H. now rewrite H.
Qed.

Lemma toggle_In id prev p :
  In p (SearchBar.toggleProvider id prev) <->
  (if String.eqb p id then ~ In id prev else In p prev).
Proof.
  unfold SearchBar.toggleProvider.
  destruct (existsb (String.eqb id) prev) eqn:E.
  - apply existsb_exists in E as (x & Hx & ->%String.eqb_eq).
    rewrite filter_In. destruct (String.eqb_spec p x) as [->|N]; simpl.
    + split; [intros [_ [=]] | tauto].
    + tauto.
  - assert (Hn : ~ In id prev).
    { intros H. apply Bool.not_true_iff_false in E. apply E.
      apply existsb_exists. exists id. split; [exact H | apply String.eqb_refl]. }
    rewrite in_app_iff. simpl.
    destruct (String.eqb_spec p id) as [->|N]; [tauto|].
    split; [intros [H|[H|[]]]; [exact H | congruence] | tauto].
Qed.

End BarFacts.

(** X5: submitting the search bar with an empty query, or one of white
    space only, sends nothing and leaves the state of App as it is; with any
    other query it runs the search once, with the query as typed (not
    trimmed) in the request. *)
Theorem handleSubmit_rejects_blank_queries
    (query : string) (providers : list string)
    (srv : Server) (st : App.State) (t : Trace) :
  (List.Forall (fun c => Str.is_space c = true) (Str.chars query) ->
   SearchBar.handleSubmit query providers App.handleSearch srv st t
   = (Ok tt, st, t))
  /\ (~ List.Forall (fun c => Str.is_space c = true) (Str.chars query) ->
      SearchBar.handleSubmit query providers App.handleSearch srv st t
      = App.handleSearch query providers srv st t
      /\ exists log,
           snd (App.handleSearch query providers srv st t)
           = (t ++ Sent (get_ (App.search_url query providers)) :: log)%list
           /\ List.Forall (fun ev => forall req, ev <> Sent req) log).
Proof.
  unfold SearchBar.handleSubmit. split; intros H.
  - apply BarFacts.trim_blank in H. now rewrite H.
  - assert (N : Str.trim query <> "") by (now rewrite BarFacts.trim_blank).
    destruct (Str.trim query) eqn:E; [easy|]. simpl. split; [reflexivity|].
    unfold App.handleSearch, App.setIsLoading, App.setSearchResults.
    run_handler. destruct st.
    destruct (srv _) as [|res]; simpl.
    + eexists. rewrite <- List.app_assoc. split; [reflexivity|].
      repeat constructor. discriminate.
    + destruct (Json.parse _) as [data|e]; simpl.
      * destruct (Js.get data "results"); simpl.
        -- exists []. split; [reflexivity | constructor].
        -- eexists. rewrite <- List.app_assoc. split; [reflexivity|].
           repeat constructor. discriminate.
      * eexists. rewrite <- List.app_assoc. split; [reflexivity|].
        repeat constructor. discriminate.
Qed.

Lemma handleSubmit_rejects_blank_queries_witness :
  SearchBar.handleSubmit "   " [] App.handleSearch Sample.offline Sample.polled []
  = (Ok tt, Sample.polled, [])
  /\ SearchBar.handleSubmit " tux " [] App.handleSearch Sample.offline
       Sample.polled []
     = App.handleSearch " tux " [] Sample.offline Sample.polled [].
Proof.
  destruct (handleSubmit_rejects_blank_queries "   " [] Sample.offline
              Sample.polled []) as [H1 _].
  destruct (handleSubmit_rejects_blank_queries " tux " [] Sample.offline
              Sample.polled []) as [_ H2].
  split.
  - apply H1. repeat constructor.
  - apply H2. intros H. inversion H as [|? ? _ H']. inversion H' as [|? ? E _].
    discriminate E.
Defined.

(** X6: toggling a provider adds it when it is absent and removes it when
    it is present, leaves every other provider as it was, and keeps a
    selection without duplicates free of them; toggling an absent provider
    twice gives the selection back. *)
Theorem toggleProvider_flips_one (id : string) (prev : list string) :
  (In id (SearchBar.toggleProvider id prev) <-> ~ In id prev)
  /\ (forall p, p <> id ->
        (In p (SearchBar.toggleProvider id prev) <-> In p prev))
  /\ (List.NoDup prev -> List.NoDup (SearchBar.toggleProvider id prev))
  /\ (~ In id prev ->
      SearchBar.toggleProvider id (SearchBar.toggleProvider id prev) = prev).
Proof.
  split; [|split; [|split]].
  - rewrite BarFacts.toggle_In. now rewrite String.eqb_refl.
  - intros p Hp. rewrite BarFacts.toggle_In.
    now destruct (String.eqb_spec p id).
  - intros N. unfold SearchBar.toggleProvider.
    destruct (existsb (String.eqb id) prev) eqn:E.
    + now apply List.NoDup_filter.
    + apply List.NoDup_app; [exact N | repeat constructor; easy |].
      intros x Hx [<-|[]]. apply Bool.not_true_iff_false in E. apply E.
      apply existsb_exists. exists id. split; [exact Hx | apply String.eqb_refl].
  - intros Hn. unfold SearchBar.toggleProvider at 2.
    destruct (existsb (String.eqb id) prev) eqn:E.
    + exfalso. apply existsb_exists in E as (x & Hx & ->%String.eqb_eq). easy.
    + unfold SearchBar.toggleProvider.
      rewrite existsb_app. simpl. rewrite String.eqb_refl, orb_true_r.
      rewrite List.filter_app. simpl. rewrite String.eqb_refl. simpl.
      rewrite app_nil_r. clear E.
      induction prev as [|x l IH]; simpl; [reflexivity|].
      destruct (String.eqb_spec x id) as [->|N]; simpl.
      * exfalso. apply Hn. now left.
      * f_equal. apply IH. intros H. apply Hn. now right.
Qed.

Lemma toggleProvider_flips_one_witness :
  List.NoDup (SearchBar.toggleProvider "XDCC.eu" ["SkullXDCC"])
  /\ SearchBar.toggleProvider "XDCC.eu"
       (SearchBar.toggleProvider "XDCC.eu" ["SkullXDCC"]) = ["SkullXDCC"]
  /\ In "SkullXDCC" (SearchBar.toggleProvider "XDCC.eu" ["SkullXDCC"]).
Proof.
  destruct (toggleProvider_flips_one "XDCC.eu" ["SkullXDCC"])
    as (_ & H2 & H3 & H4).
  split; [|split].
  - apply H3. repeat constructor. simpl. tauto.
  - apply H4. simpl. intros [H|[]]. discriminate H.
  - apply H2; [discriminate | simpl; tauto].
Defined.

Module UriFacts.

Lemma hex_digit_unreserved n :
  (n < 16)%nat -> Uri.unreserved (Uri.hex_digit n) = true.
Proof.
  intros H. do 16 (destruct n as [|n]; [reflexivity|]). lia.
Qed.

Lemma hex_digit_inj n m :
  (n < 16)%nat -> (m < 16)%nat -> Uri.hex_digit n = Uri.hex_digit m -> n = m.
Proof.
  intros Hn Hm.
  do 16 (destruct n as [|n];
         [do 16 (destruct m as [|m]; [first [reflexivity | discriminate]|]);
          lia|]).
  lia.
Qed.

Lemma chars_app a b : Str.chars (a ++ b) = (Str.chars a ++ Str.chars b)%list.
Proof. induction a as [|c a IH]; [reflexivity|]. simpl. now rewrite IH. Qed.

Lemma app_inv_prefix p : forall a b : string, p ++ a = p ++ b -> a = b.
Proof.
  induction p as [|c p IH]; simpl; intros a b H; [exact H|].
  injection H as H. now apply IH.
Qed.

Lemma escape_char_safe c : List.Forall (fun c => Uri.unreserved c = true \/ c = "%"%char) (Str.chars (Uri.escape_char c)).
Proof.
  unfold Uri.escape_char, Str.chars.
  destruct (Uri.unreserved c) eqn:E; cbn [list_ascii_of_string].
  - constructor; [now left | constructor].
  - pose proof (nat_ascii_bounded c) as B.
    constructor; [now right|].
    constructor; [left; apply hex_digit_unreserved,
                    Nat.Div0.div_lt_upper_bound; lia|].
    constructor; [left; apply hex_digit_unreserved,
                    Nat.mod_upper_bound; lia | constructor].
Qed.

Lemma encode_safe s :
  List.Forall (fun c => Uri.unreserved c = true \/ c = "%"%char) (Str.chars (Uri.encodeURIComponent s)).
Proof.
  induction s as [|c s IH]; simpl; [constructor|].
  rewrite chars_app. apply Forall_app. split; [apply escape_char_safe | exact IH].
Qed.

Lemma append_cons c (a b : string) : String c a ++ b = String c (a ++ b).
Proof. reflexivity. Qed.

Lemma append_nil (b : string) : "" ++ b = b.
Proof. reflexivity. Qed.

Lemma append_nil_r (a : string) : a ++ "" = a.
Proof.
  induction a as [|c a IH]; [reflexivity|]. rewrite append_cons. now f_equal.
Qed.

Lemma append_assoc (a b c : string) : (a ++ b) ++ c = a ++ b ++ c.
Proof.
  induction a as [|x a IH]; [reflexivity|]. rewrite !append_cons. now f_equal.
Qed.

(** The escapes of two characters never start alike. *)
Lemma escape_char_prefix a b s t :
  Uri.escape_char a ++ s = Uri.escape_char b ++ t -> a = b /\ s = t.
Proof.
  unfold Uri.escape_char.
  destruct (Uri.unreserved a) eqn:Ea, (Uri.unreserved b) eqn:Eb;
    rewrite ?append_cons, ?append_nil.
  - now intros [= -> ->].
  - intros H. injection H as -> _. discriminate Ea.
  - intros H. injection H as <- _. discriminate Eb.
  - intros H. injection H as H1' H2' ->. split; [|reflexivity].
    pose proof (nat_ascii_bounded a) as Ba.
    pose proof (nat_ascii_bounded b) as Bb.
    assert (H1 : Uri.hex_digit (nat_of_ascii a / 16)
                 = Uri.hex_digit (nat_of_ascii b / 16)) by exact H1'.
    assert (H2 : Uri.hex_digit (nat_of_ascii a mod 16)
                 = Uri.hex_digit (nat_of_ascii b mod 16)) by exact H2'.
    clear H1' H2'.
    apply hex_digit_inj in H1;
      [| apply Nat.Div0.div_lt_upper_bound; lia
       | apply Nat.Div0.div_lt_upper_bound; lia].
    apply hex_digit_inj in H2; [| apply Nat.mod_upper_bound; lia ..].
    rewrite <- (ascii_nat_embedding a), <- (ascii_nat_embedding b).
    f_equal.
    rewrite (Nat.div_mod_eq (nat_of_ascii a) 16),
            (Nat.div_mod_eq (nat_of_ascii b) 16).
    congruence.
Qed.

Lemma encode_inj a : forall b,
  Uri.encodeURIComponent a = Uri.encodeURIComponent b -> a = b.
Proof.
  induction a as [|c a IH]; intros [|d b]; simpl; intros H.
  - reflexivity.
  - exfalso. unfold Uri.escape_char in H.
    destruct (Uri.unreserved d); discriminate H.
  - exfalso. unfold Uri.escape_char in H.
    destruct (Uri.unreserved c); discriminate H.
  - apply escape_char_prefix in H as [-> H]. f_equal. now apply IH.
Qed.

End UriFacts.

(** X7: the search URL is [/api/search?query=] and the encoded query,
    followed, when providers are given, by [&providers=] and the encoding
    of the provider names joined by commas, and by nothing otherwise.  Both
    encoded parts are made of unreserved characters and [%] escapes only,
    so the query and the provider names -- the commas between them
    included -- cannot add a parameter or end the URL: none of the
    characters [& = ? # / + ,] or a space comes from them; and two provider
    lists give the same URL only when their comma-joined texts are equal. *)
Theorem search_url_cannot_be_split (query : string) (providers : list string) :
  let q := Uri.encodeURIComponent query in
  let p := Uri.encodeURIComponent (Str.join "," providers) in
  (providers = [] -> App.search_url query providers = "/api/search?query=" ++ q)
  /\ (providers <> [] ->
      App.search_url query providers
      = "/api/search?query=" ++ q ++ "&providers=" ++ p)
  /\ List.Forall (fun c => Uri.unreserved c = true \/ c = "%"%char)
       (Str.chars q)
  /\ List.Forall (fun d => ~ In d (Str.chars q)) (Str.chars "&=?#/+, ")
  /\ List.Forall (fun c => Uri.unreserved c = true \/ c = "%"%char)
       (Str.chars p)
  /\ List.Forall (fun d => ~ In d (Str.chars p)) (Str.chars "&=?#/+, ")
  /\ (forall providers',
        providers <> [] -> providers' <> [] ->
        App.search_url query providers = App.search_url query providers' ->
        Str.join "," providers = Str.join "," providers').
Proof.
  assert (X : forall s,
             List.Forall (fun d => ~ In d (Str.chars (Uri.encodeURIComponent s)))
               (Str.chars "&=?#/+, ")).
  { intros s. pose proof (UriFacts.encode_safe s) as F.
    rewrite List.Forall_forall in F.
    repeat constructor; intros H; apply F in H as [H|H]; discriminate H. }
  assert (U : forall l : list string,
             l <> [] ->
             App.search_url query l
             = "/api/search?query=" ++ Uri.encodeURIComponent query
                 ++ "&providers=" ++ Uri.encodeURIComponent (Str.join "," l)).
  { intros [|x l] N; [now contradiction N|].
    unfold App.search_url. cbv zeta.
    change (0 <? List.length (x :: l))%nat with true. cbv iota.
    now rewrite !UriFacts.append_assoc. }
  cbv zeta.
  split; [intros ->; reflexivity|]. split; [exact (U providers)|].
  split; [apply UriFacts.encode_safe|]. split; [apply X|].
  split; [apply UriFacts.encode_safe|]. split; [apply X|].
  intros providers' N N' H. rewrite (U _ N), (U _ N') in H.
  apply UriFacts.app_inv_prefix in H.
  apply (UriFacts.app_inv_prefix (Uri.encodeURIComponent query)) in H.
  apply (UriFacts.app_inv_prefix "&providers=") in H.
  now apply UriFacts.encode_inj.
Qed.

Lemma search_url_cannot_be_split_witness :
  App.search_url "a&b=c d" [] = "/api/search?query=a%26b%3Dc%20d"
  /\ App.search_url "x" ["SkullXDCC"; "XDCC.eu"]
     = "/api/search?query=x&providers=SkullXDCC%2CXDCC.eu".
Proof.
  destruct (search_url_cannot_be_split "a&b=c d" []) as (H & _).
  destruct (search_url_cannot_be_split "x" ["SkullXDCC"; "XDCC.eu"])
    as (_ & H' & _).
  cbv zeta in H, H'.
  split; [rewrite (H eq_refl) | rewrite H' by discriminate]; reflexivity.
Defined.

(** X8: [encodeURIComponent] never maps two texts to the same text;
    therefore two different network names are never sent to the same
    [/api/settings/networks/...] address, and two different queries never
    give the same search URL. *)
Theorem urls_tell_names_apart :
  (forall a b, Uri.encodeURIComponent a = Uri.encodeURIComponent b -> a = b)
  /\ (forall a b, SettingsTab.network_url a = SettingsTab.network_url b -> a = b)
  /\ (forall q q' providers,
        App.search_url q providers = App.search_url q' providers -> q = q').
Proof.
  split; [exact UriFacts.encode_inj|]. split.
  - intros a b H. unfold SettingsTab.network_url in H.
    now apply UriFacts.app_inv_prefix, UriFacts.encode_inj in H.
  - intros q q' providers H. unfold App.search_url in H.
    destruct (0 <? List.length providers)%nat.
    + rewrite !UriFacts.append_assoc in H.
      apply UriFacts.app_inv_prefix in H. revert H.
      generalize ("&providers=" ++ Uri.encodeURIComponent (Str.join "," providers)).
      intros tail H. apply UriFacts.encode_inj.
      revert H. generalize (Uri.encodeURIComponent q) as x.
      generalize (Uri.encodeURIComponent q') as y.
      intros y x H.
      assert (L : String.length x = String.length y).
      { apply (f_equal String.length) in H.
        rewrite !TextFacts.length_append in H. lia. }
      revert y H L. induction x as [|c x IH]; intros [|d y] H L;
        try discriminate L; [reflexivity|].
      rewrite !UriFacts.append_cons in H. injection H as -> H.
      f_equal. apply IH; [exact H | now injection L].
    + now apply UriFacts.app_inv_prefix, UriFacts.encode_inj in H.
Qed.

Lemma urls_tell_names_apart_witness :
  SettingsTab.network_url "a b" <> SettingsTab.network_url "a%20b".
Proof.
  intros H.
  pose proof (proj1 (proj2 urls_tell_names_apart) "a b" "a%20b" H) as E.
  discriminate E.
Defined.

(** ** The handlers of App on a call that is answered *)

Module PollFacts.

Import App Spec.

(** What a block of the poller makes of its cell depends on the answer of
    the server only. *)
Lemma slice_after_idem field dflt o old new new' :
  slice_after field dflt o old new ->
  slice_after field dflt o new new' ->
  new' = new.
Proof.
  unfold slice_after. destruct o as [|res]; [congruence|].
  destruct (Json.parse _) as [data|e]; [|congruence].
  destruct data; try congruence;
    intros (v & Hv & ->) (v' & Hv' & ->); congruence.
Qed.

Lemma lookup_field_missing fields name :
  (forall v, ~ In (name, v) fields) -> Js.lookup_field fields name = VUndefined.
Proof.
  induction fields as [|[k v] r IH]; simpl; intros H; [reflexivity|].
  destruct (String.eqb k name) eqn:E.
  - apply String.eqb_eq in E as ->. exfalso. apply (H v). now left.
  - apply IH. intros v' Hin. apply (H v'). now right.
Qed.

End PollFacts.



(** X10: cancel and retry send their call first and do nothing else when it
    is rejected: the error leaves the handler.  When the call is answered,
    with whatever status, they start one full poll cycle -- the statistics,
    the queue size and the transfers are each fetched once and refreshed as
    by [fetchUpdates], and these three GETs are the only requests after the
    call -- and raise their notification; the search results, the loading
    flag and the tab stay.  The list of transfers is never edited by the
    handler itself, it is what the poll brings, so when the transfer fetch
    of that poll brings no JSON the list is as before while the
    notification says the transfer was cancelled or is being retried. *)
Theorem cancel_and_retry_rely_on_the_poll
    (id : string) (srv : Server) (st : App.State) (t : Trace) :
  let cancel := delete_ ("/api/transfers/" ++ id) in
  let retry := post_ ("/api/transfers/" ++ id ++ "/retry") NoBody in
  let poll :=
    ((Sent (get_ "/api/bots/stats")
        :: Spec.block_log "Stats fetch failed" "bots"
             (srv (get_ "/api/bots/stats")))
       ++ (Sent (get_ "/api/queue")
             :: Spec.block_log "Queue fetch failed" "queue_size"
                  (srv (get_ "/api/queue")))
       ++ (Sent (get_ "/api/transfers")
             :: Spec.block_log "Transfers fetch failed" "transfers"
                  (srv (get_ "/api/transfers"))))%list in
  (srv cancel = Rejected ->
   App.handleCancel id srv st t
   = (Throw NetworkError, st, (t ++ [Sent cancel])%list))
  /\ (srv retry = Rejected ->
      App.handleRetry id srv st t
      = (Throw NetworkError, st, (t ++ [Sent retry])%list))
  /\ (forall res, srv cancel = Responded res ->
        match App.handleCancel id srv st t with
        | (r, st', t') =>
            r = Ok tt
            /\ App.toast st' = Spec.shown "Transfer cancelled" success
            /\ Spec.slice_after "bots" (VArr [])
                 (srv (get_ "/api/bots/stats")) (App.stats st) (App.stats st')
            /\ Spec.slice_after "queue_size" (Js.num 0)
                 (srv (get_ "/api/queue")) (App.queueSize st)
                 (App.queueSize st')
            /\ Spec.slice_after "transfers" (VArr [])
                 (srv (get_ "/api/transfers")) (App.transfers st)
                 (App.transfers st')
            /\ (Spec.no_json (srv (get_ "/api/transfers")) ->
                App.transfers st' = App.transfers st)
            /\ App.searchResults st' = App.searchResults st
            /\ App.isLoading st' = App.isLoading st
            /\ App.activeTab st' = App.activeTab st
            /\ t' = (t ++ Sent cancel :: poll)%list
        end)
  /\ (forall res, srv retry = Responded res ->
        match App.handleRetry id srv st t with
        | (r, st', t') =>
            r = Ok tt
            /\ App.toast st' = Spec.shown "Retrying transfer..." success
            /\ Spec.slice_after "bots" (VArr [])
                 (srv (get_ "/api/bots/stats")) (App.stats st) (App.stats st')
            /\ Spec.slice_after "queue_size" (Js.num 0)
                 (srv (get_ "/api/queue")) (App.queueSize st)
                 (App.queueSize st')
            /\ Spec.slice_after "transfers" (VArr [])
                 (srv (get_ "/api/transfers")) (App.transfers st)
                 (App.transfers st')
            /\ (Spec.no_json (srv (get_ "/api/transfers")) ->
                App.transfers st' = App.transfers st)
            /\ App.searchResults st' = App.searchResults st
            /\ App.isLoading st' = App.isLoading st
            /\ App.activeTab st' = App.activeTab st
            /\ t' = (t ++ Sent retry :: poll)%list
        end).
Proof.
  assert (K : forall o old new,
             Spec.slice_after "transfers" (VArr []) o old new ->
             Spec.no_json o -> new = old).
  { unfold Spec.slice_after, Spec.no_json. intros [|res] old new H N;
      [exact H|]. destruct N as [e N]. now rewrite N in H. }
  cbv zeta. split; [|split; [|split]].
  - intros H. unfold App.handleCancel. cbv [Eff.bind Eff.fetch]. now rewrite H.
  - intros H. unfold App.handleRetry. cbv [Eff.bind Eff.fetch]. now rewrite H.
  - intros res H. unfold App.handleCancel.
    cbv [Eff.bind Eff.fetch Toast.showToast Eff.modify]. rewrite H.
    destruct (AppFacts.fetchUpdates_run srv st
                (t ++ [Sent (delete_ ("/api/transfers/" ++ id))])%list)
      as (s & q & x & -> & H1 & H2 & H3).
    destruct st. simpl in *.
    split; [reflexivity|]. split; [reflexivity|]. split; [exact H1|].
    split; [exact H2|]. split; [exact H3|]. split; [now apply K|].
    split; [reflexivity|]. split; [reflexivity|]. split; [reflexivity|].
    now rewrite <- List.app_assoc.
  - intros res H. unfold App.handleRetry.
    cbv [Eff.bind Eff.fetch Toast.showToast Eff.modify]. rewrite H.
    destruct (AppFacts.fetchUpdates_run srv st
                (t ++ [Sent (post_ ("/api/transfers/" ++ id ++ "/retry")
                               NoBody)])%list)
      as (s & q & x & -> & H1 & H2 & H3).
    destruct st. simpl in *.
    split; [reflexivity|]. split; [reflexivity|]. split; [exact H1|].
    split; [exact H2|]. split; [exact H3|]. split; [now apply K|].
    split; [reflexivity|]. split; [reflexivity|]. split; [reflexivity|].
    now rewrite <- List.app_assoc.
Qed.

Lemma cancel_and_retry_rely_on_the_poll_witness :
  match App.handleCancel "t1" (Sample.always 404 "not found") Sample.polled [] with
  | (r, st', _) =>
      r = Ok tt
      /\ App.toast st' = Spec.shown "Transfer cancelled" success
      /\ App.transfers st' = VArr [VObj [("id", VStr "t1")]]
  end.
Proof.
  destruct (cancel_and_retry_rely_on_the_poll "t1"
              (Sample.always 404 "not found") Sample.polled [])
    as (_ & _ & H & _).
  specialize (H {| status := 404; text := "not found" |} eq_refl).
  destruct (App.handleCancel _ _ _ _) as [[r st'] t'].
  destruct H as (H1 & H2 & _ & _ & _ & H3 & _).
  split; [exact H1|]. split; [exact H2|].
  apply H3. exists SyntaxError. reflexivity.
Defined.

(** X11: polling is idempotent: a second poll cycle against a server that
    gives the same answers leaves every cell of [App] as the first cycle
    left it. *)
Theorem fetchUpdates_idempotent (srv : Server) (st : App.State) (t : Trace) :
  match App.fetchUpdates srv st t with
  | (_, st1, t1) =>
      match App.fetchUpdates srv st1 t1 with
      | (r, st2, _) => r = Ok tt /\ st2 = st1
      end
  end.
Proof.
  destruct (AppFacts.fetchUpdates_run srv st t) as (s & q & x & -> & H1 & H2 & H3).
  match goal with
  | |- match App.fetchUpdates srv ?s1 ?t1 with _ => _ end =>
      destruct (AppFacts.fetchUpdates_run srv s1 t1)
        as (s' & q' & x' & -> & H1' & H2' & H3')
  end.
  destruct st. simpl in *.
  rewrite (PollFacts.slice_after_idem _ _ _ _ _ _ H1 H1').
  rewrite (PollFacts.slice_after_idem _ _ _ _ _ _ H2 H2').
  rewrite (PollFacts.slice_after_idem _ _ _ _ _ _ H3 H3').
  split; reflexivity.
Qed.

(** X12: when the search call is answered with a JSON body, whatever the
    status, [handleSearch] stores the [results] property of the body as it
    is, with no default: for an object without that property the result
    cell becomes [undefined], on which the [searchResults.length] of the
    next render of the search view throws.  Only a body on which the
    property cannot be read, [null], is treated as a failure.  The cells of
    the poller are not touched and nothing is sent but the one GET. *)
Theorem handleSearch_stores_results_as_sent
    (query : string) (providers : list string)
    (srv : Server) (st : App.State) (t : Trace) (res : Response) (data : value) :
  let req := get_ (App.search_url query providers) in
  srv req = Responded res ->
  Json.parse (Eff.decoded (text res)) = Ok data ->
  match App.handleSearch query providers srv st t with
  | (r, st', t') =>
      r = Ok tt
      /\ App.isLoading st' = false
      /\ App.stats st' = App.stats st
      /\ App.queueSize st' = App.queueSize st
      /\ App.transfers st' = App.transfers st
      /\ match Js.get data "results" with
         | Ok v =>
             App.searchResults st' = v
             /\ App.toast st' = App.toast st
             /\ t' = (t ++ [Sent req])%list
         | Throw e =>
             e = TypeError
             /\ (data = VNull \/ data = VUndefined)
             /\ App.searchResults st' = App.searchResults st
             /\ App.toast st' = Spec.shown "Search failed" error
             /\ t' = (t ++ [Sent req; ConsoleError "Search failed" e])%list
         end
      /\ (forall fields,
            data = VObj fields ->
            (forall v, ~ In ("results", v) fields) ->
            App.searchResults st' = VUndefined
            /\ Js.get (App.searchResults st') "length" = Throw TypeError)
  end.
Proof.
  cbv zeta. intros H P.
  unfold App.handleSearch, App.setIsLoading, App.setSearchResults.
  run_handler. destruct st. simpl. rewrite H. simpl. rewrite P. simpl.
  destruct data; simpl;
    (split; [reflexivity|]; split; [reflexivity|]; split; [reflexivity|];
     split; [reflexivity|]; split; [reflexivity|]; split;
     [ rewrite <- ?List.app_assoc; repeat split; auto
     | intros fs E; try discriminate E ]).
  injection E as <-. intros N.
  rewrite (PollFacts.lookup_field_missing _ _ N). now split.
Qed.

Lemma handleSearch_stores_results_as_sent_witness :
  App.searchResults
    (snd (fst (App.handleSearch "linux" [] (Sample.always 500 "{}")
                 Sample.polled [])))
  = VUndefined.
Proof.
  pose proof (handleSearch_stores_results_as_sent "linux" []
                (Sample.always 500 "{}") Sample.polled []
                {| status := 500; text := "{}" |} (VObj [])
                eq_refl eq_refl) as H.
  destruct (App.handleSearch _ _ _ _ _) as [[r st'] t'].
  destruct H as (_ & _ & _ & _ & _ & _ & H).
  refine (proj1 (H [] eq_refl _)). intros v [].
Defined.

(** ** The history browser: deletion, selection, expansion *)

Module DeleteFacts.

Import HistoryTab.

(** [prev.filter(...)] on a list whose items all have a readable [id]. *)
Lemma filter_by_id_ok keep items :
  Forall (fun item => exists v, Js.get item "id" = Ok v) items ->
  filter_by_id keep items
  = Ok (List.filter (fun item =>
                       match Js.get item "id" with
                       | Ok v => keep v
                       | Throw _ => false
                       end) items).
Proof.
  induction 1 as [|item items [v Hv] _ IH]; [reflexivity|].
  simpl. rewrite Hv, IH. simpl. now destruct (keep v).
Qed.

Lemma size_of_zero {A} `{Countable A} (sel : gset A) :
  (size_of sel =? 0) = true <-> sel = ∅.
Proof.
  unfold size_of. rewrite Z.eqb_eq. split.
  - intros E. apply leibniz_equiv, size_empty_inv. lia.
  - intros ->. now rewrite size_empty.
Qed.

Lemma size_of_nonzero {A} `{Countable A} (sel : gset A) :
  sel <> ∅ -> (size_of sel =? 0) = false.
Proof.
  intros N. destruct (size_of sel =? 0) eqn:E; [|reflexivity].
  now apply size_of_zero in E.
Qed.

End DeleteFacts.

(** X13: when the call that deletes one history record is answered, with
    whatever status, the loaded list loses the items with that id and keeps
    the others in their order, and the total goes down by one (the
    difference is kept in lowest terms) -- also when
    no loaded item has that id.  Nothing is notified or logged, and the
    selection is not touched, so a deleted record that was selected stays
    in the selection. *)
Theorem single_delete_drops_by_id
    (srv : Server) (st : HistoryTab.State) (t : Trace) (res : Response)
    (items : list value) (n : Q) :
  Forall (fun item => exists v, Js.get item "id" = Ok v) items ->
  (forall id : Z,
     let req := delete_ ("/api/search-history/" ++ Uri.of_int id) in
     srv req = Responded res ->
     HistoryTab.rendered (HistoryTab.searches st) = Some (Ok (VArr items)) ->
     HistoryTab.rendered (HistoryTab.searchTotal st) = Some (Ok (VNum n)) ->
     match HistoryTab.handleDeleteSearch id srv st t with
     | (r, st', t') =>
         r = Ok tt /\ t' = (t ++ [Sent req])%list
         /\ HistoryTab.rendered (HistoryTab.searches st')
            = Some (Ok (VArr (List.filter
                                (fun item =>
                                   match Js.get item "id" with
                                   | Ok v => negb (HistoryTab.id_is_int v id)
                                   | Throw _ => false
                                   end) items)))
         /\ HistoryTab.rendered (HistoryTab.searchTotal st')
            = Some (Ok (VNum (Qred (n - 1))))
         /\ HistoryTab.selectedSearches st' = HistoryTab.selectedSearches st
         /\ HistoryTab.expandedSearch st' = HistoryTab.expandedSearch st
         /\ HistoryTab.toast st' = HistoryTab.toast st
     end)
  /\ (forall (id : string) (deleteFile : bool),
        let req := delete_ ("/api/history/" ++ id ++ "?delete_file="
                              ++ (if deleteFile then "true" else "false")) in
        srv req = Responded res ->
        HistoryTab.rendered (HistoryTab.downloads st) = Some (Ok (VArr items)) ->
        HistoryTab.rendered (HistoryTab.downloadTotal st) = Some (Ok (VNum n)) ->
        match HistoryTab.handleDeleteDownload id deleteFile srv st t with
        | (r, st', t') =>
            r = Ok tt /\ t' = (t ++ [Sent req])%list
            /\ HistoryTab.rendered (HistoryTab.downloads st')
               = Some (Ok (VArr (List.filter
                                   (fun item =>
                                      match Js.get item "id" with
                                      | Ok v => negb (HistoryTab.id_is_str v id)
                                      | Throw _ => false
                                      end) items)))
            /\ HistoryTab.rendered (HistoryTab.downloadTotal st')
               = Some (Ok (VNum (Qred (n - 1))))
            /\ HistoryTab.selectedDownloads st' = HistoryTab.selectedDownloads st
            /\ HistoryTab.toast st' = HistoryTab.toast st
        end).
Proof.
  intros F. split.
  - intros id req H Hl Hn. subst req.
    unfold HistoryTab.handleDeleteSearch, HistoryTab.onSearches,
      HistoryTab.onSearchTotal, HistoryTab.queue.
    run_handler. rewrite H. destruct st. simpl in *.
    rewrite Hl, Hn. simpl. unfold HistoryTab.filter_array.
    rewrite (DeleteFacts.filter_by_id_ok _ _ F). simpl.
    split; [reflexivity|]. split; [reflexivity|]. split; [reflexivity|].
    now repeat split.
  - intros id deleteFile req H Hl Hn. subst req.
    unfold HistoryTab.handleDeleteDownload, HistoryTab.onDownloads,
      HistoryTab.onDownloadTotal, HistoryTab.queue.
    run_handler.
    assert (E : Uri.of_bool deleteFile = if deleteFile then "true" else "false")
      by now destruct deleteFile.
    rewrite E, H. destruct st. simpl in *.
    rewrite Hl, Hn. simpl. unfold HistoryTab.filter_array.
    rewrite (DeleteFacts.filter_by_id_ok _ _ F). simpl.
    split; [reflexivity|]. split; [reflexivity|]. split; [reflexivity|].
    now repeat split.
Qed.

Lemma single_delete_drops_by_id_witness :
  match HistoryTab.handleDeleteDownload "zz" true (Sample.always 404 "")
          Sample.page_two [] with
  | (_, st', _) =>
      HistoryTab.rendered (HistoryTab.downloads st')
      = Some (Ok (VArr [VObj [("id", VStr "a")]]))
      /\ HistoryTab.rendered (HistoryTab.downloadTotal st')
         = Some (Ok (Js.num 10))
      /\ HistoryTab.selectedDownloads st' = {[ "a" ]}
  end.
Proof.
  assert (F : Forall (fun item => exists v, Js.get item "id" = Ok v)
                [VObj [("id", VStr "a")]]).
  { constructor; [|constructor]. eexists. reflexivity. }
  destruct (single_delete_drops_by_id (Sample.always 404 "") Sample.page_two []
              {| status := 404; text := "" |} [VObj [("id", VStr "a")]]
              (inject_Z 11) F) as [_ H].
  specialize (H "zz" true eq_refl eq_refl eq_refl). cbv zeta in H.
  destruct (HistoryTab.handleDeleteDownload _ _ _ _ _) as [[r st'] t'].
  destruct H as (_ & _ & H1 & H2 & H3 & _).
  split; [exact H1|]. split; [exact H2 | exact H3].
Defined.

(** X14: a bulk delete does nothing while nothing is selected, and nothing
    when the user declines the question, which names the number of selected
    records: no call, no change.  Accepted and answered (with whatever
    status), it has sent one POST with exactly the selected ids (and, for
    downloads, the [delete_files] flag), the loaded list loses the items
    whose id is selected, the total goes down by the size of the selection
    -- also for selected ids that are not loaded -- and the selection is
    empty. *)
Theorem bulk_delete_asks_then_clears
    (confirm : string -> bool) (srv : Server) (st : HistoryTab.State)
    (t : Trace) :
  let searches_question :=
    "Delete " ++ Uri.of_int (HistoryTab.size_of (HistoryTab.selectedSearches st))
      ++ " search history items?" in
  let downloads_question (deleteFiles : bool) :=
    if deleteFiles
    then "Delete "
           ++ Uri.of_int (HistoryTab.size_of (HistoryTab.selectedDownloads st))
           ++ " items AND their files from disk?"
    else "Remove "
           ++ Uri.of_int (HistoryTab.size_of (HistoryTab.selectedDownloads st))
           ++ " items from history?" in
  (HistoryTab.selectedSearches st = ∅ \/ confirm searches_question = false ->
   HistoryTab.handleBulkDeleteSearches confirm srv st t = (Ok tt, st, t))
  /\ (forall deleteFiles,
        HistoryTab.selectedDownloads st = ∅
        \/ confirm (downloads_question deleteFiles) = false ->
        HistoryTab.handleBulkDeleteDownloads confirm deleteFiles srv st t
        = (Ok tt, st, t))
  /\ (forall res items n,
        HistoryTab.selectedSearches st <> ∅ ->
        confirm searches_question = true ->
        (forall ids, srv (post_ "/api/search-history/bulk" (IdsBody ids))
                     = Responded res) ->
        Forall (fun item => exists v, Js.get item "id" = Ok v) items ->
        HistoryTab.rendered (HistoryTab.searches st) = Some (Ok (VArr items)) ->
        HistoryTab.rendered (HistoryTab.searchTotal st) = Some (Ok (VNum n)) ->
        match HistoryTab.handleBulkDeleteSearches confirm srv st t with
        | (r, st', t') =>
            r = Ok tt
            /\ (exists ids,
                  t' = (t ++ [Sent (post_ "/api/search-history/bulk"
                                      (IdsBody ids))])%list
                  /\ List.NoDup ids
                  /\ forall i, In i ids <-> i ∈ HistoryTab.selectedSearches st)
            /\ HistoryTab.selectedSearches st' = ∅
            /\ HistoryTab.rendered (HistoryTab.searches st')
               = Some (Ok (VArr (List.filter
                                   (fun item =>
                                      match Js.get item "id" with
                                      | Ok v =>
                                          negb (HistoryTab.has_int
                                                  (HistoryTab.selectedSearches st) v)
                                      | Throw _ => false
                                      end) items)))
            /\ HistoryTab.rendered (HistoryTab.searchTotal st')
               = Some (Ok (VNum (Qred (n - inject_Z
                                         (HistoryTab.size_of
                                            (HistoryTab.selectedSearches st))))))
            /\ HistoryTab.toast st' = HistoryTab.toast st
        end)
  /\ (forall deleteFiles res items n,
        HistoryTab.selectedDownloads st <> ∅ ->
        confirm (downloads_question deleteFiles) = true ->
        (forall ids flag, srv (post_ "/api/history/bulk" (BulkBody ids flag))
                          = Responded res) ->
        Forall (fun item => exists v, Js.get item "id" = Ok v) items ->
        HistoryTab.rendered (HistoryTab.downloads st) = Some (Ok (VArr items)) ->
        HistoryTab.rendered (HistoryTab.downloadTotal st) = Some (Ok (VNum n)) ->
        match HistoryTab.handleBulkDeleteDownloads confirm deleteFiles srv st t with
        | (r, st', t') =>
            r = Ok tt
            /\ (exists ids,
                  t' = (t ++ [Sent (post_ "/api/history/bulk"
                                      (BulkBody ids deleteFiles))])%list
                  /\ List.NoDup ids
                  /\ forall i, In i ids <-> i ∈ HistoryTab.selectedDownloads st)
            /\ HistoryTab.selectedDownloads st' = ∅
            /\ HistoryTab.rendered (HistoryTab.downloads st')
               = Some (Ok (VArr (List.filter
                                   (fun item =>
                                      match Js.get item "id" with
                                      | Ok v =>
                                          negb (HistoryTab.has_str
                                                  (HistoryTab.selectedDownloads st) v)
                                      | Throw _ => false
                                      end) items)))
            /\ HistoryTab.rendered (HistoryTab.downloadTotal st')
               = Some (Ok (VNum (Qred (n - inject_Z
                                         (HistoryTab.size_of
                                            (HistoryTab.selectedDownloads st))))))
            /\ HistoryTab.toast st' = HistoryTab.toast st
        end).
Proof.
  assert (E : forall {A} `{Countable A} (sel : gset A),
             List.NoDup (elements sel) /\ forall i, In i (elements sel) <-> i ∈ sel).
  { intros A ? ? sel. split.
    - apply NoDup_ListNoDup, NoDup_elements.
    - intros i. rewrite <- list_elem_of_In. apply elem_of_elements. }
  cbv zeta. split; [|split; [|split]].
  - intros H. unfold HistoryTab.handleBulkDeleteSearches. run_handler.
    destruct (HistoryTab.size_of _ =? 0) eqn:Z; [reflexivity|].
    destruct H as [H|H]; [|now rewrite H].
    apply DeleteFacts.size_of_zero in H. congruence.
  - intros deleteFiles H. unfold HistoryTab.handleBulkDeleteDownloads.
    run_handler.
    destruct (HistoryTab.size_of _ =? 0) eqn:Z; [reflexivity|].
    destruct H as [H|H]; [|now rewrite H].
    apply DeleteFacts.size_of_zero in H. congruence.
  - intros res items n Hne Hc Hsrv F Hl Hn.
    unfold HistoryTab.handleBulkDeleteSearches, HistoryTab.setSelectedSearches,
      HistoryTab.onSelectedSearches, HistoryTab.onSearches,
      HistoryTab.onSearchTotal, HistoryTab.queue.
    run_handler.
    rewrite (DeleteFacts.size_of_nonzero _ Hne), Hc. simpl. rewrite Hsrv.
    destruct st. simpl in *. rewrite Hl, Hn. simpl.
    unfold HistoryTab.filter_array.
    rewrite (DeleteFacts.filter_by_id_ok _ _ F). simpl.
    split; [reflexivity|].
    split; [eexists; split; [reflexivity | apply E]|].
    now repeat split.
  - intros deleteFiles res items n Hne Hc Hsrv F Hl Hn.
    unfold HistoryTab.handleBulkDeleteDownloads, HistoryTab.setSelectedDownloads,
      HistoryTab.onSelectedDownloads, HistoryTab.onDownloads,
      HistoryTab.onDownloadTotal, HistoryTab.queue.
    run_handler.
    rewrite (DeleteFacts.size_of_nonzero _ Hne), Hc. simpl. rewrite Hsrv.
    destruct st. simpl in *. rewrite Hl, Hn. simpl.
    unfold HistoryTab.filter_array.
    rewrite (DeleteFacts.filter_by_id_ok _ _ F). simpl.
    split; [reflexivity|].
    split; [eexists; split; [reflexivity | apply E]|].
    now repeat split.
Qed.

Lemma bulk_delete_asks_then_clears_witness :
  HistoryTab.handleBulkDeleteDownloads (fun _ => false) true
    (Sample.always 200 "{}") Sample.page_two []
  = (Ok tt, Sample.page_two, [])
  /\ match HistoryTab.handleBulkDeleteDownloads (fun _ => true) true
             (Sample.always 200 "{}") Sample.page_two [] with
     | (_, st', _) =>
         HistoryTab.selectedDownloads st' = ∅
         /\ HistoryTab.rendered (HistoryTab.downloads st') = Some (Ok (VArr []))
         /\ HistoryTab.rendered (HistoryTab.downloadTotal st')
            = Some (Ok (Js.num 10))
     end.
Proof.
  assert (N : HistoryTab.selectedDownloads Sample.page_two <> ∅)
    by (intros E; apply (f_equal size) in E; discriminate E).
  assert (F : Forall (fun item => exists v, Js.get item "id" = Ok v)
                [VObj [("id", VStr "a")]]).
  { constructor; [|constructor]. eexists. reflexivity. }
  split.
  - destruct (bulk_delete_asks_then_clears (fun _ => false)
                (Sample.always 200 "{}") Sample.page_two []) as (_ & H & _).
    apply H. now right.
  - destruct (bulk_delete_asks_then_clears (fun _ => true)
                (Sample.always 200 "{}") Sample.page_two []) as (_ & _ & _ & H).
    specialize (H true {| status := 200; text := "{}" |}
                  [VObj [("id", VStr "a")]] (inject_Z 11) N eq_refl
                  (fun _ _ => eq_refl) F eq_refl eq_refl).
    destruct (HistoryTab.handleBulkDeleteDownloads _ _ _ _ _) as [[r st'] t'].
    destruct H as (_ & _ & H1 & H2 & H3 & _).
    split; [exact H1|]. split; [|exact H3].
    rewrite H2. apply (f_equal (fun l => Some (Ok (VArr l)))).
    simpl. rewrite bool_decide_eq_true_2; [reflexivity|].
    apply (bool_decide_unpack _). vm_compute. exact I.
Defined.

Module SelectionFacts.

Import HistoryTab.

Lemma toggled_spec {A} {eqA : EqDecision A} {cntA : Countable A}
    (id : A) (prev : gset A) :
  (id ∈ toggled id prev <-> id ∉ prev)
  /\ (forall j, j <> id -> (j ∈ toggled id prev <-> j ∈ prev))
  /\ toggled id (toggled id prev) = prev.
Proof.
  unfold toggled. destruct (decide (id ∈ prev)) as [Hin|Hout].
  - split; [|split].
    + rewrite elem_of_difference, elem_of_singleton. tauto.
    + intros j N. rewrite elem_of_difference, elem_of_singleton. tauto.
    + destruct (decide (id ∈ prev ∖ {[id]})) as [Hin'|_].
      * apply elem_of_difference in Hin' as [_ N].
        exfalso. apply N. now apply elem_of_singleton.
      * apply leibniz_equiv. intros j.
        rewrite elem_of_union, elem_of_difference, elem_of_singleton.
        destruct (decide (j = id)) as [->|N]; tauto.
  - split; [|split].
    + rewrite elem_of_union, elem_of_singleton. tauto.
    + intros j N. rewrite elem_of_union, elem_of_singleton. tauto.
    + destruct (decide (id ∈ prev ∪ {[id]})) as [_|Hout'].
      * apply leibniz_equiv. intros j.
        rewrite elem_of_difference, elem_of_union, elem_of_singleton.
        destruct (decide (j = id)) as [->|N]; tauto.
      * exfalso. apply Hout'. apply elem_of_union. right.
        now apply elem_of_singleton.
Qed.

End SelectionFacts.

(** X15: a click on the check box of a history row flips the membership of
    that id in the selection and of no other id, sends nothing and leaves
    the other cells alone; a second click on the same box restores the
    selection. *)
Theorem toggle_selection_flips_one
    (srv : Server) (st : HistoryTab.State) (t : Trace) :
  (forall id : Z,
     match HistoryTab.toggleSearchSelection id srv st t with
     | (r, st', t') =>
         r = Ok tt /\ t' = t
         /\ (id ∈ HistoryTab.selectedSearches st'
             <-> id ∉ HistoryTab.selectedSearches st)
         /\ (forall j, j <> id ->
               (j ∈ HistoryTab.selectedSearches st'
                <-> j ∈ HistoryTab.selectedSearches st))
         /\ HistoryTab.selectedDownloads st' = HistoryTab.selectedDownloads st
         /\ HistoryTab.searches st' = HistoryTab.searches st
         /\ HistoryTab.toggleSearchSelection id srv st' t' = (Ok tt, st, t)
     end)
  /\ (forall id : string,
        match HistoryTab.toggleDownloadSelection id srv st t with
        | (r, st', t') =>
            r = Ok tt /\ t' = t
            /\ (id ∈ HistoryTab.selectedDownloads st'
                <-> id ∉ HistoryTab.selectedDownloads st)
            /\ (forall j, j <> id ->
                  (j ∈ HistoryTab.selectedDownloads st'
                   <-> j ∈ HistoryTab.selectedDownloads st))
            /\ HistoryTab.selectedSearches st' = HistoryTab.selectedSearches st
            /\ HistoryTab.downloads st' = HistoryTab.downloads st
            /\ HistoryTab.toggleDownloadSelection id srv st' t' = (Ok tt, st, t)
        end).
Proof.
  split; intros id.
  - destruct (SelectionFacts.toggled_spec id (HistoryTab.selectedSearches st))
      as (H1 & H2 & H3).
    unfold HistoryTab.toggleSearchSelection, HistoryTab.onSelectedSearches.
    run_handler. destruct st. simpl in *.
    split; [reflexivity|]. split; [reflexivity|]. split; [exact H1|].
    split; [exact H2|]. split; [reflexivity|]. split; [reflexivity|].
    now rewrite H3.
  - destruct (SelectionFacts.toggled_spec id (HistoryTab.selectedDownloads st))
      as (H1 & H2 & H3).
    unfold HistoryTab.toggleDownloadSelection, HistoryTab.onSelectedDownloads.
    run_handler. destruct st. simpl in *.
    split; [reflexivity|]. split; [reflexivity|]. split; [exact H1|].
    split; [exact H2|]. split; [reflexivity|]. split; [reflexivity|].
    now rewrite H3.
Qed.

Lemma toggle_selection_flips_one_witness :
  ("a" ∉ HistoryTab.selectedDownloads
           (snd (fst (HistoryTab.toggleDownloadSelection "a" Sample.offline
                        Sample.page_two []))))
  /\ ("b" ∈ HistoryTab.selectedDownloads
              (snd (fst (HistoryTab.toggleDownloadSelection "b" Sample.offline
                           Sample.page_two [])))).
Proof.
  destruct (toggle_selection_flips_one Sample.offline Sample.page_two [])
    as [_ H].
  pose proof (H "a") as Ha. pose proof (H "b") as Hb.
  destruct (HistoryTab.toggleDownloadSelection "a" _ _ _) as [[ra sa] ta].
  destruct (HistoryTab.toggleDownloadSelection "b" _ _ _) as [[rb sb] tb].
  destruct Ha as (_ & _ & Ha & _). destruct Hb as (_ & _ & Hb & _).
  simpl. split.
  - intros Hin. apply Ha in Hin. apply Hin.
    apply (bool_decide_unpack _). vm_compute. exact I.
  - apply Hb. intros Hin.
    apply (bool_decide_pack _) in Hin. vm_compute in Hin. exact Hin.
Defined.

(** X16: at most one row of the search history is expanded: rows with
    different ids never both render an expansion.  A click on the result
    count of a row marks that row, and so collapses the row that was marked
    before; a click on the marked row clears the mark, after which no row
    renders an expansion. *)
Theorem one_row_expanded_at_a_time :
  (forall (expanded : option Z) (a b : HistoryTab.SearchHistoryItem),
     HistoryTab.id a <> HistoryTab.id b ->
     HistoryTab.render_expansion expanded a = inl None
     \/ HistoryTab.render_expansion expanded b = inl None)
  /\ (forall (item : HistoryTab.SearchHistoryItem),
        HistoryTab.render_expansion None item = inl None)
  /\ (forall (item : HistoryTab.SearchHistoryItem) srv st t,
        match HistoryTab.toggleExpanded item srv st t with
        | (r, st', t') =>
            r = Ok tt /\ t' = t
            /\ HistoryTab.selectedSearches st' = HistoryTab.selectedSearches st
            /\ (HistoryTab.expandedSearch st = Some (HistoryTab.id item) ->
                HistoryTab.expandedSearch st' = None)
            /\ (HistoryTab.expandedSearch st <> Some (HistoryTab.id item) ->
                HistoryTab.expandedSearch st' = Some (HistoryTab.id item)
                /\ forall other,
                     HistoryTab.id other <> HistoryTab.id item ->
                     HistoryTab.render_expansion
                       (HistoryTab.expandedSearch st') other = inl None)
        end).
Proof.
  split; [|split].
  - intros expanded a b N.
    destruct (decide (expanded = Some (HistoryTab.id a))) as [->|Ha].
    + right. apply HistoryFacts.render_expansion_other. congruence.
    + left. now apply HistoryFacts.render_expansion_other.
  - intros item. now apply HistoryFacts.render_expansion_other.
  - intros item srv st t.
    unfold HistoryTab.toggleExpanded, HistoryTab.setExpandedSearch.
    run_handler. destruct st as [? ? ? ? ? ? cur ? ? ? ? ? ? ?]. simpl.
    split; [reflexivity|]. split; [reflexivity|]. split; [reflexivity|].
    split.
    + intros ->. now rewrite Z.eqb_refl.
    + intros N.
      assert (E : match cur with
                  | Some i => if i =? HistoryTab.id item then None
                              else Some (HistoryTab.id item)
                  | None => Some (HistoryTab.id item)
                  end = Some (HistoryTab.id item)).
      { destruct cur as [i|]; [|reflexivity].
        destruct (Z.eqb_spec i (HistoryTab.id item)); [congruence|reflexivity]. }
      rewrite E. split; [reflexivity|].
      intros other No. apply HistoryFacts.render_expansion_other. congruence.
Qed.

Lemma one_row_expanded_at_a_time_witness :
  HistoryTab.expandedSearch
    (snd (fst (HistoryTab.toggleExpanded Sample.broken_row Sample.offline
                 Sample.page_two [])))
  = Some 7.
Proof.
  destruct one_row_expanded_at_a_time as (_ & _ & H).
  specialize (H Sample.broken_row Sample.offline Sample.page_two []).
  destruct (HistoryTab.toggleExpanded _ _ _ _) as [[r st'] t'].
  destruct H as (_ & _ & _ & _ & H).
  apply H. discriminate.
Defined.

Module ExpansionFacts.

Import HistoryTab.

Lemma render_rows_objects rs :
  Forall (fun r =>
            exists fields,
              r = VObj fields
              /\ child_ok (Js.lookup_field fields "file_name") = true
              /\ child_ok (Js.lookup_field fields "size_str") = true
              /\ child_ok (Js.lookup_field fields "bot") = true
              /\ child_ok (Js.lookup_field fields "server") = true) rs ->
  exists rows,
    render_rows rs = inl rows
    /\ List.map download_arg rows = rs
    /\ Forall (fun row =>
                 Js.get (download_arg row) "file_name" = Ok (cell_file_name row)
                 /\ Js.get (download_arg row) "size_str" = Ok (cell_size_str row)
                 /\ Js.get (download_arg row) "bot" = Ok (cell_bot row)
                 /\ Js.get (download_arg row) "server" = Ok (cell_server row))
         rows.
Proof.
  induction 1 as [|r rs (fields & -> & H1 & H2 & H3 & H4) _ (rows & E & M & F)].
  - exists []. repeat split. constructor.
  - eexists (_ :: rows). cbn [render_rows]. unfold render_row. cbn [Js.get].
    rewrite H1, H2, H3, H4. cbn [andb]. rewrite E.
    split; [reflexivity|]. split; [simpl; now rewrite M|].
    constructor; [now repeat split | exact F].
Qed.

Lemma render_rows_null rs :
  In VNull rs -> exists e, render_rows rs = inr e.
Proof.
  induction rs as [|r rs IH]; intros Hin; [contradiction|].
  cbn [render_rows]. destruct Hin as [->|Hin].
  - eexists. reflexivity.
  - destruct (render_row r) as [row|e]; [|now exists e].
    destruct (IH Hin) as [e ->]. now exists e.
Qed.

Lemma render_rows_object_cell rs fields :
  In (VObj fields) rs ->
  child_ok (Js.lookup_field fields "file_name") = false ->
  exists e, render_rows rs = inr e.
Proof.
  induction rs as [|r rs IH]; intros Hin Hc; [contradiction|].
  cbn [render_rows]. destruct Hin as [->|Hin].
  - unfold render_row. cbn [Js.get]. rewrite Hc. cbn [andb]. now eexists.
  - destruct (render_row r) as [row|e]; [|now exists e].
    destruct (IH Hin Hc) as [e ->]. now exists e.
Qed.

End ExpansionFacts.

(** X17: the expanded row of a search whose snapshot is JSON text.  A
    snapshot that is not an array makes the render throw a TypeError; so
    does, with some error, an array that holds a [null] or a result whose
    file name is itself an object.  An array of objects whose four shown
    properties are text, numbers or missing renders one nested row per
    element, in order, each with the element's own properties and with a
    download button that passes that element. *)
Theorem expansion_of_a_parsed_snapshot
    (item : HistoryTab.SearchHistoryItem) (text : string) (v : value) :
  HistoryTab.results_json item = Some text ->
  text <> "" ->
  Json.parse text = Ok v ->
  let out := HistoryTab.render_expansion (Some (HistoryTab.id item)) item in
  ((forall rs, v <> VArr rs) -> out = inr (HistoryTab.Thrown TypeError))
  /\ (forall rs, v = VArr rs -> In VNull rs -> exists e, out = inr e)
  /\ (forall rs fields,
        v = VArr rs -> In (VObj fields) rs ->
        HistoryTab.child_ok (Js.lookup_field fields "file_name") = false ->
        exists e, out = inr e)
  /\ (forall rs,
        v = VArr rs ->
        Forall (fun r =>
                  exists fields,
                    r = VObj fields
                    /\ HistoryTab.child_ok (Js.lookup_field fields "file_name") = true
                    /\ HistoryTab.child_ok (Js.lookup_field fields "size_str") = true
                    /\ HistoryTab.child_ok (Js.lookup_field fields "bot") = true
                    /\ HistoryTab.child_ok (Js.lookup_field fields "server") = true)
          rs ->
        exists rows,
          out = inl (Some rows)
          /\ List.map HistoryTab.download_arg rows = rs
          /\ Forall (fun row =>
                       Js.get (HistoryTab.download_arg row) "file_name"
                       = Ok (HistoryTab.cell_file_name row)
                       /\ Js.get (HistoryTab.download_arg row) "size_str"
                          = Ok (HistoryTab.cell_size_str row)
                       /\ Js.get (HistoryTab.download_arg row) "bot"
                          = Ok (HistoryTab.cell_bot row)
                       /\ Js.get (HistoryTab.download_arg row) "server"
                          = Ok (HistoryTab.cell_server row))
               rows).
Proof.
  intros Hj Hne Hp out. subst out. unfold HistoryTab.render_expansion.
  rewrite bool_decide_eq_true_2 by reflexivity. rewrite Hj, Hp.
  assert (Str.is_empty text = false) as -> by now destruct text.
  split; [|split; [|split]].
  - intros N. destruct v; try reflexivity. now contradiction (N items).
  - intros rs -> Hin.
    destruct (ExpansionFacts.render_rows_null rs Hin) as [e ->]. now exists e.
  - intros rs fields -> Hin Hc.
    destruct (ExpansionFacts.render_rows_object_cell rs fields Hin Hc) as [e ->].
    now exists e.
  - intros rs -> F.
    destruct (ExpansionFacts.render_rows_objects rs F) as (rows & -> & M & G).
    now exists rows.
Qed.

Lemma expansion_of_a_parsed_snapshot_witness :
  HistoryTab.render_expansion (Some 7)
    {| HistoryTab.id := 7; HistoryTab.query := "linux iso";
       HistoryTab.results_count := 0; HistoryTab.results_json := Some "{}";
       HistoryTab.searched_at := "2024-01-01T00:00:00Z" |}
  = inr (HistoryTab.Thrown TypeError).
Proof.
  refine (proj1 (expansion_of_a_parsed_snapshot
                   {| HistoryTab.id := 7; HistoryTab.query := "linux iso";
                      HistoryTab.results_count := 0;
                      HistoryTab.results_json := Some "{}";
                      HistoryTab.searched_at := "2024-01-01T00:00:00Z" |}
                   "{}" (VObj []) eq_refl _ eq_refl) _);
    discriminate.
Defined.



(** X19: a fetch of a page of download history that brings a JSON body
    with neither a truthy [items] nor a truthy [history] -- an error object,
    say -- changes nothing but the loading flag and reports nothing: no
    console line, no notification.  A fetch that rejects, or whose body is
    not JSON, keeps the cells as well and writes one line on the console. *)
Theorem fetchDownloadHistory_ignores_other_bodies
    (srv : Server) (st : HistoryTab.State) (t : Trace) :
  let req := get_ ("/api/history?page="
                     ++ Uri.of_int (HistoryTab.downloadPage st) ++ "&limit=10") in
  let idle :=
    snd (fst (HistoryTab.setLoading false srv st t)) in
  (forall res data items history,
     srv req = Responded res ->
     Json.parse (Eff.decoded (text res)) = Ok data ->
     Js.get data "items" = Ok items -> Js.truthy items = false ->
     Js.get data "history" = Ok history -> Js.truthy history = false ->
     HistoryTab.fetchDownloadHistory srv st t
     = (Ok tt, idle, (t ++ [Sent req])%list))
  /\ (Spec.no_json (srv req) ->
      exists e,
        HistoryTab.fetchDownloadHistory srv st t
        = (Ok tt, idle,
           (t ++ [Sent req;
                  ConsoleError "Failed to fetch download history:" e])%list))
  /\ HistoryTab.downloads idle = HistoryTab.downloads st
  /\ HistoryTab.downloadTotal idle = HistoryTab.downloadTotal st
  /\ HistoryTab.downloadTotalPages idle = HistoryTab.downloadTotalPages st
  /\ HistoryTab.toast idle = HistoryTab.toast st
  /\ HistoryTab.loading idle = false.
Proof.
  cbv zeta. split; [|split].
  - intros res data items history H P Hi Ti Hh Th.
    unfold HistoryTab.fetchDownloadHistory, HistoryTab.setLoading.
    run_handler. destruct st. simpl in *.
    rewrite H. simpl. rewrite P. simpl. rewrite Hi. simpl. rewrite Ti.
    simpl. rewrite Hh. simpl. rewrite Th. reflexivity.
  - unfold Spec.no_json.
    unfold HistoryTab.fetchDownloadHistory, HistoryTab.setLoading.
    run_handler. destruct st. simpl.
    destruct (srv _) as [|res]; simpl.
    + intros _. exists NetworkError. now rewrite <- List.app_assoc.
    + intros [e ->]. exists e. simpl. now rewrite <- List.app_assoc.
  - now destruct st.
Qed.

Lemma fetchDownloadHistory_ignores_other_bodies_witness :
  match HistoryTab.fetchDownloadHistory
          (Sample.always 500 ("{" ++ Json.quoted "error" ++ ": "
                                ++ Json.quoted "db" ++ "}"))
          Sample.page_two [] with
  | (r, st', t') =>
      r = Ok tt
      /\ HistoryTab.downloads st' = HistoryTab.downloads Sample.page_two
      /\ t' = [Sent (get_ "/api/history?page=2&limit=10")]
  end.
Proof.
  destruct (fetchDownloadHistory_ignores_other_bodies
              (Sample.always 500 ("{" ++ Json.quoted "error" ++ ": "
                                    ++ Json.quoted "db" ++ "}"))
              Sample.page_two []) as (H & _).
  rewrite (H {| status := 500;
                text := "{" ++ Json.quoted "error" ++ ": "
                          ++ Json.quoted "db" ++ "}" |}
             (VObj [("error", VStr "db")]) VUndefined VUndefined
             eq_refl eq_refl eq_refl eq_refl eq_refl eq_refl).
  repeat split.
Defined.

(** ** The settings editor: guards, networks, save *)

Module NetworkFacts.

Import SettingsTab.

Lemma with_networks_same c : with_networks (networks c) c = c.
Proof. now destruct c. Qed.

Lemma with_networks_twice a b c :
  with_networks a (with_networks b c) = with_networks a c.
Proof. now destruct c. Qed.

Lemma edited_same_field e1 e2 n :
  match e1, e2 with
  | F_host _, F_host _ | F_port _, F_port _ | F_ssl _, F_ssl _
  | F_autojoin_channels _, F_autojoin_channels _
  | F_join_delay_secs _, F_join_delay_secs _ =>
      edited e2 (edited e1 n) = edited e2 n
  | _, _ => edited e2 (edited e1 n) = edited e1 (edited e2 n)
  end.
Proof. destruct e1, e2; reflexivity. Qed.

End NetworkFacts.

Module PageFacts.

(** A handler of [SettingsTab] run in the page does to the cells of
    [SettingsTab] what it does on its own, and leaves the notification the
    page shows as it is. *)
Lemma inSettingsTab_frame {A} (m : M SettingsTab.State A)
    (srv : Server) (app : App.State) (s : SettingsTab.State) (t : Trace) :
  match Page.inSettingsTab m srv
          {| Page.app := app; Page.settingsTab := s |} t with
  | (r, page', t') =>
      (r, Page.settingsTab page', t') = m srv s t
      /\ Page.notification page'
         = Page.notification {| Page.app := app; Page.settingsTab := s |}
  end.
Proof.
  unfold Page.inSettingsTab. simpl.
  destruct (m srv s t) as [[r s'] t']. now split.
Qed.

End PageFacts.

(** X20: before the settings document has arrived, no handler of the
    settings editor sends anything or changes anything: save, a field edit,
    add, delete and update of a network and the commit of an autojoin draft
    all return at once.  With a document loaded, add network does the same
    while the name typed is empty or white space only. *)
Theorem settings_handlers_need_a_document
    (srv : Server) (st : SettingsTab.State) (t : Trace) :
  (SettingsTab.settings st = None ->
   SettingsTab.saveSettings srv st t = (Ok tt, st, t)
   /\ (forall key value,
         SettingsTab.updateSetting key value srv st t = (Ok tt, st, t))
   /\ SettingsTab.addNetwork srv st t = (Ok tt, st, t)
   /\ (forall name, SettingsTab.deleteNetwork name srv st t = (Ok tt, st, t))
   /\ (forall name edit,
         SettingsTab.updateNetwork name edit srv st t = (Ok tt, st, t))
   /\ (forall name draft,
         SettingsTab.commitAutojoin name draft srv st t = (Ok tt, st, t)))
  /\ (Str.trim (SettingsTab.newNetworkName st) = "" ->
      SettingsTab.addNetwork srv st t = (Ok tt, st, t)).
Proof.
  split.
  - intros H.
    unfold SettingsTab.saveSettings, SettingsTab.updateSetting,
      SettingsTab.addNetwork, SettingsTab.deleteNetwork,
      SettingsTab.commitAutojoin, AutojoinInput.handleBlur,
      SettingsTab.updateNetwork.
    run_handler. rewrite H. now repeat split.
  - intros H. unfold SettingsTab.addNetwork. run_handler. rewrite H.
    now destruct (SettingsTab.settings st).
Qed.

Lemma settings_handlers_need_a_document_witness :
  SettingsTab.addNetwork (Sample.always 200 "{}")
    (snd (fst (SettingsTab.setNewNetworkName "   " (Sample.always 200 "{}")
                 Sample.settings_state []))) []
  = (Ok tt,
     snd (fst (SettingsTab.setNewNetworkName "   " (Sample.always 200 "{}")
                 Sample.settings_state [])), []).
Proof.
  apply (proj2 (settings_handlers_need_a_document (Sample.always 200 "{}")
                  (snd (fst (SettingsTab.setNewNetworkName "   "
                               (Sample.always 200 "{}")
                               Sample.settings_state []))) [])).
  reflexivity.
Defined.

(** X21: add network with a name that is not blank.  When the PUT is
    answered, with whatever status, the working copy holds the default
    definition under the name exactly as typed -- replacing a definition
    that was there under that name -- every other network is as before,
    the name box is emptied and [showToast("Network added", "success")]
    sets the toast state of SettingsTab's own [useToast()].  When the PUT
    is rejected the working copy and the name box are kept and that state
    is set to "Failed to add network", error.  The default host is
    [irc.<name in lower case>.net], port 6697 with SSL, no channels.  The
    toast state of SettingsTab is not rendered: the notification on the
    page, which is the one of App, is the same before and after. *)
Theorem addNetwork_outcomes
    (srv : Server) (st : SettingsTab.State) (t : Trace) (cfg : AppConfig) :
  let name := SettingsTab.newNetworkName st in
  let req := put_ (SettingsTab.network_url name)
               (NetworkBody (SettingsTab.new_network name)) in
  SettingsTab.settings st = Some cfg ->
  Str.trim name <> "" ->
  match SettingsTab.addNetwork srv st t with
  | (r, st', t') =>
      r = Ok tt /\ t' = (t ++ [Sent req])%list
      /\ SettingsTab.saving st' = SettingsTab.saving st
      /\ match srv req with
         | Responded _ =>
             (exists cfg',
                SettingsTab.settings st' = Some cfg'
                /\ networks cfg' !! name = Some (SettingsTab.new_network name)
                /\ (forall other, other <> name ->
                      networks cfg' !! other = networks cfg !! other)
                /\ (forall k, k <> SettingsTab.K_networks ->
                      SettingsTab.field k cfg' = SettingsTab.field k cfg))
             /\ SettingsTab.newNetworkName st' = ""
             /\ SettingsTab.toast st' = Spec.shown "Network added" success
         | Rejected =>
             SettingsTab.settings st' = Some cfg
             /\ SettingsTab.newNetworkName st' = name
             /\ SettingsTab.toast st'
                = Spec.shown "Failed to add network" error
         end
      /\ host (SettingsTab.new_network name)
         = Some ("irc." ++ Str.toLowerCase name ++ ".net")
      /\ port (SettingsTab.new_network name) = Some 6697
      /\ ssl (SettingsTab.new_network name) = Some true
      /\ autojoin_channels (SettingsTab.new_network name) = Some []
  end
  /\ (forall (app : App.State) (s : SettingsTab.State) (t0 : Trace),
        let page := {| Page.app := app; Page.settingsTab := s |} in
        match Page.inSettingsTab (SettingsTab.addNetwork) srv page t0 with
        | (r, page', t') =>
            (r, Page.settingsTab page', t') = SettingsTab.addNetwork srv s t0
            /\ Page.notification page' = Page.notification page
        end).
Proof.
  cbv zeta. intros Hs Hn.
  split; [|intros app s t0; apply PageFacts.inSettingsTab_frame].
  unfold SettingsTab.addNetwork, SettingsTab.setSettings,
    SettingsTab.setNewNetworkName.
  run_handler. rewrite Hs.
  assert (Str.is_empty (Str.trim (SettingsTab.newNetworkName st)) = false) as ->
    by now destruct (Str.trim _).
  destruct (srv _); simpl.
  - now repeat split.
  - split; [reflexivity|]. split; [reflexivity|]. split; [reflexivity|].
    split; [|now repeat split].
    split; [|now split].
    eexists. split; [reflexivity|].
    rewrite SettingsFacts.networks_with_networks.
    split; [apply lookup_insert_eq|].
    split; [intros other N; now apply lookup_insert_ne|].
    intros k Hk. now apply SettingsFacts.field_with_networks.
Qed.

Lemma addNetwork_outcomes_witness :
  match SettingsTab.addNetwork (Sample.always 500 "") Sample.settings_state [] with
  | (_, st', _) =>
      SettingsTab.newNetworkName st' = ""
      /\ SettingsTab.toast st' = Spec.shown "Network added" success
  end
  /\ match Page.inSettingsTab SettingsTab.addNetwork (Sample.always 500 "")
             {| Page.app := Sample.polled;
                Page.settingsTab := Sample.settings_state |} [] with
     | (_, page', _) => Page.notification page' = None
     end.
Proof.
  pose proof (addNetwork_outcomes (Sample.always 500 "") Sample.settings_state
                [] Sample.config eq_refl) as H.
  cbv zeta in H.
  assert (N : Str.trim (SettingsTab.newNetworkName Sample.settings_state) <> "")
    by discriminate.
  destruct (H N) as [H1 H2]. clear H. split.
  - destruct (SettingsTab.addNetwork _ _ _) as [[r st'] t'].
    destruct H1 as (_ & _ & _ & H & _). simpl in H.
    destruct H as (_ & Ha & Hb). split; assumption.
  - specialize (H2 Sample.polled Sample.settings_state []).
    destruct (Page.inSettingsTab _ _ _ _) as [[r page'] t'].
    destruct H2 as [_ H2]. rewrite H2. reflexivity.
Defined.

(** X22: delete network.  When the DELETE is answered, with whatever
    status, the working copy no longer has the name, every other network
    and every other setting is as before and [showToast("Network deleted",
    "success")] sets the toast state of SettingsTab's own [useToast()];
    when it is rejected the working copy is kept and that state is set to
    "Failed to delete network", error.  Adding a network under a name that
    was free and deleting it again, both calls answered, gives back the
    document as it was.  The toast state of SettingsTab is not rendered:
    the notification on the page, which is the one of App, is the same
    before and after. *)
Theorem deleteNetwork_outcomes_and_round_trip
    (srv : Server) (st : SettingsTab.State) (t : Trace) (cfg : AppConfig) :
  SettingsTab.settings st = Some cfg ->
  (forall name,
     let req := delete_ (SettingsTab.network_url name) in
     match SettingsTab.deleteNetwork name srv st t with
     | (r, st', t') =>
         r = Ok tt /\ t' = (t ++ [Sent req])%list
         /\ match srv req with
            | Responded _ =>
                (exists cfg',
                   SettingsTab.settings st' = Some cfg'
                   /\ networks cfg' !! name = None
                   /\ (forall other, other <> name ->
                         networks cfg' !! other = networks cfg !! other)
                   /\ (forall k, k <> SettingsTab.K_networks ->
                         SettingsTab.field k cfg' = SettingsTab.field k cfg))
                /\ SettingsTab.toast st' = Spec.shown "Network deleted" success
            | Rejected =>
                SettingsTab.settings st' = Some cfg
                /\ SettingsTab.toast st'
                   = Spec.shown "Failed to delete network" error
            end
     end)
  /\ (let name := SettingsTab.newNetworkName st in
      Str.trim name <> "" ->
      networks cfg !! name = None ->
      (forall req, srv req <> Rejected) ->
      match SettingsTab.addNetwork srv st t with
      | (_, st1, t1) =>
          match SettingsTab.deleteNetwork name srv st1 t1 with
          | (r, st2, t2) =>
              r = Ok tt
              /\ SettingsTab.settings st2 = Some cfg
              /\ t2 = (t ++ [Sent (put_ (SettingsTab.network_url name)
                                     (NetworkBody (SettingsTab.new_network name)));
                             Sent (delete_ (SettingsTab.network_url name))])%list
          end
      end)
  /\ (forall (name : string) (app : App.State) (s : SettingsTab.State)
        (t0 : Trace),
        let page := {| Page.app := app; Page.settingsTab := s |} in
        match Page.inSettingsTab (SettingsTab.deleteNetwork name) srv page t0
        with
        | (r, page', t') =>
            (r, Page.settingsTab page', t')
            = SettingsTab.deleteNetwork name srv s t0
            /\ Page.notification page' = Page.notification page
        end).
Proof.
  intros Hs.
  split; [|split;
           [|intros name app s t0; apply PageFacts.inSettingsTab_frame]].
  - intros name. cbv zeta.
    unfold SettingsTab.deleteNetwork, SettingsTab.setSettings.
    run_handler. rewrite Hs.
    destruct (srv _); simpl.
    + now repeat split.
    + split; [reflexivity|]. split; [reflexivity|]. split; [|reflexivity].
      eexists. split; [reflexivity|].
      rewrite SettingsFacts.networks_with_networks.
      split; [apply lookup_delete_eq|].
      split; [intros other N; now apply lookup_delete_ne|].
      intros k Hk. now apply SettingsFacts.field_with_networks.
  - cbv zeta. intros Hn Hfree Hsrv.
    unfold SettingsTab.addNetwork, SettingsTab.deleteNetwork,
      SettingsTab.setSettings, SettingsTab.setNewNetworkName.
    run_handler. rewrite Hs.
    assert (Str.is_empty (Str.trim (SettingsTab.newNetworkName st)) = false) as ->
      by now destruct (Str.trim _).
    destruct (srv (put_ _ _)) as [|res1] eqn:E1; [now apply Hsrv in E1|].
    simpl.
    destruct (srv (delete_ _)) as [|res2] eqn:E2; [now apply Hsrv in E2|].
    simpl. split; [reflexivity|].
    rewrite ?SettingsFacts.networks_with_networks.
    rewrite (delete_insert_id _ _ _ Hfree).
    rewrite NetworkFacts.with_networks_twice, NetworkFacts.with_networks_same.
    split; [reflexivity|]. now rewrite <- List.app_assoc.
Qed.

Lemma deleteNetwork_outcomes_and_round_trip_witness :
  match SettingsTab.addNetwork (Sample.always 200 "{}") Sample.settings_state []
  with
  | (_, st1, t1) =>
      match SettingsTab.deleteNetwork "Rizon" (Sample.always 200 "{}") st1 t1 with
      | (_, st2, _) => SettingsTab.settings st2 = Some Sample.config
      end
  end.
Proof.
  destruct (deleteNetwork_outcomes_and_round_trip (Sample.always 200 "{}")
              Sample.settings_state [] Sample.config eq_refl) as (_ & H & _).
  cbv zeta in H.
  assert (N : Str.trim (SettingsTab.newNetworkName Sample.settings_state) <> "")
    by discriminate.
  assert (F : networks Sample.config
                !! SettingsTab.newNetworkName Sample.settings_state = None)
    by (vm_compute; reflexivity).
  assert (A : forall req, Sample.always 200 "{}" req <> Rejected)
    by (intros req; discriminate).
  specialize (H N F A).
  destruct (SettingsTab.addNetwork _ _ _) as [[r1 st1] t1].
  change (SettingsTab.newNetworkName Sample.settings_state) with "Rizon" in H.
  destruct (SettingsTab.deleteNetwork _ _ _ _) as [[r2 st2] t2].
  destruct H as (_ & H & _). exact H.
Defined.

(** X23: two edits of fields of one network, one after the other.  The
    entry of the network is the old entry with both edits applied, the
    other networks and settings are untouched and nothing is sent.  Edits
    of different fields commute; of two edits of the same field the later
    one wins.  For a name the document does not have, the edits create an
    entry that holds the edited fields only: without a host edit it has no
    host. *)
Theorem updateNetwork_edits_compose
    (srv : Server) (st : SettingsTab.State) (t : Trace) (cfg : AppConfig)
    (name : string) (e1 e2 : SettingsTab.NetworkEdit) :
  SettingsTab.settings st = Some cfg ->
  let twice first second :=
    match SettingsTab.updateNetwork name first srv st t with
    | (_, st1, t1) => SettingsTab.updateNetwork name second srv st1 t1
    end in
  match twice e1 e2 with
  | (r, st', t') =>
      r = Ok tt /\ t' = t
      /\ exists cfg',
           SettingsTab.settings st' = Some cfg'
           /\ networks cfg' !! name
              = Some (SettingsTab.edited e2
                        (SettingsTab.edited e1
                           (default SettingsTab.no_network
                              (networks cfg !! name))))
           /\ (forall other, other <> name ->
                 networks cfg' !! other = networks cfg !! other)
           /\ (forall k, k <> SettingsTab.K_networks ->
                 SettingsTab.field k cfg' = SettingsTab.field k cfg)
           /\ (networks cfg !! name = None ->
               (forall v, e1 <> SettingsTab.F_host v) ->
               (forall v, e2 <> SettingsTab.F_host v) ->
               exists entry,
                 networks cfg' !! name = Some entry /\ host entry = None)
  end
  /\ match e1, e2 with
     | SettingsTab.F_host _, SettingsTab.F_host _
     | SettingsTab.F_port _, SettingsTab.F_port _
     | SettingsTab.F_ssl _, SettingsTab.F_ssl _
     | SettingsTab.F_autojoin_channels _, SettingsTab.F_autojoin_channels _
     | SettingsTab.F_join_delay_secs _, SettingsTab.F_join_delay_secs _ =>
         twice e1 e2 = SettingsTab.updateNetwork name e2 srv st t
     | _, _ => twice e1 e2 = twice e2 e1
     end.
Proof.
  intros Hs. cbv zeta.
  unfold SettingsTab.updateNetwork, SettingsTab.setSettings.
  run_handler. rewrite Hs. simpl.
  rewrite ?SettingsFacts.networks_with_networks, ?lookup_insert_eq. simpl.
  rewrite ?insert_insert_eq, ?NetworkFacts.with_networks_twice.
  split.
  - split; [reflexivity|]. split; [reflexivity|].
    eexists. split; [reflexivity|].
    rewrite SettingsFacts.networks_with_networks.
    split; [apply lookup_insert_eq|].
    split; [intros other N; now apply lookup_insert_ne|].
    split; [intros k Hk; now apply SettingsFacts.field_with_networks|].
    intros Hfree N1 N2. eexists. split; [apply lookup_insert_eq|].
    rewrite Hfree. simpl.
    destruct e1 as [v1|v1|v1|v1|v1]; [now contradiction (N1 v1)| | | |];
      (destruct e2 as [v2|v2|v2|v2|v2]; [now contradiction (N2 v2)| | | |]);
      reflexivity.
  - pose proof (NetworkFacts.edited_same_field e1 e2
                  (default SettingsTab.no_network (networks cfg !! name))) as E.
    destruct e1, e2; now rewrite E.
Qed.

Lemma updateNetwork_edits_compose_witness :
  match SettingsTab.updateNetwork "libera" (SettingsTab.F_port 7000)
          Sample.offline Sample.settings_state [] with
  | (_, st1, t1) =>
      match SettingsTab.updateNetwork "libera" (SettingsTab.F_ssl false)
              Sample.offline st1 t1 with
      | (_, st', t') =>
          t' = []
          /\ exists cfg',
               SettingsTab.settings st' = Some cfg'
               /\ networks cfg' !! "libera"
                  = Some {| host := Some "irc.libera.chat"; port := Some 7000;
                            ssl := Some false;
                            autojoin_channels := Some ["#old"];
                            join_delay_secs := Some 6 |}
      end
  end.
Proof.
  destruct (updateNetwork_edits_compose Sample.offline Sample.settings_state []
              Sample.config "libera" (SettingsTab.F_port 7000)
              (SettingsTab.F_ssl false) eq_refl) as [H _].
  destruct (SettingsTab.updateNetwork "libera" (SettingsTab.F_port 7000) _ _ _)
    as [[r1 st1] t1].
  destruct (SettingsTab.updateNetwork _ _ _ _ _) as [[r st'] t'].
  destruct H as (_ & H1 & cfg' & H2 & H3 & _).
  split; [exact H1|]. exists cfg'. split; [exact H2|].
  rewrite H3. reflexivity.
Defined.

(** X24: save sends the working copy as it stands.  After an edit of a
    setting and an edit of a network field, [saveSettings] sends one PUT
    /api/settings whose body is the document with both edits and every
    other setting as loaded; the working copy is not changed by the save,
    the saving flag is cleared, and [showToast] sets the toast state of
    SettingsTab's own [useToast()] to "Settings saved!", success, exactly
    when the answer is 2xx, and to "Failed to save settings", error,
    otherwise.  That state is not rendered: the notification on the page,
    which is the one of App, is the same before and after. *)
Theorem save_sends_the_working_copy
    (srv : Server) (st : SettingsTab.State) (t : Trace) (cfg : AppConfig)
    (key : SettingsTab.Key) (value : SettingsTab.field_type key)
    (name : string) (edit : SettingsTab.NetworkEdit) :
  SettingsTab.settings st = Some cfg ->
  key <> SettingsTab.K_networks ->
  match SettingsTab.updateSetting key value srv st t with
  | (_, st1, t1) =>
      match SettingsTab.updateNetwork name edit srv st1 t1 with
      | (_, st2, t2) =>
          match SettingsTab.saveSettings srv st2 t2 with
          | (r, st3, t3) =>
              exists doc,
                r = Ok tt
                /\ t3 = (t ++ [Sent (put_ "/api/settings" (SettingsBody doc))])%list
                /\ SettingsTab.field key doc = value
                /\ networks doc !! name
                   = Some (SettingsTab.edited edit
                             (default SettingsTab.no_network
                                (networks cfg !! name)))
                /\ (forall other, other <> name ->
                      networks doc !! other = networks cfg !! other)
                /\ (forall k, k <> key -> k <> SettingsTab.K_networks ->
                      SettingsTab.field k doc = SettingsTab.field k cfg)
                /\ SettingsTab.settings st3 = Some doc
                /\ SettingsTab.saving st3 = false
                /\ SettingsTab.toast st3
                   = match srv (put_ "/api/settings" (SettingsBody doc)) with
                     | Responded res =>
                         if ok res
                         then Spec.shown "Settings saved!" success
                         else Spec.shown "Failed to save settings" error
                     | Rejected => Spec.shown "Failed to save settings" error
                     end
          end
      end
  end
  /\ (forall (app : App.State) (s : SettingsTab.State) (t0 : Trace),
        let page := {| Page.app := app; Page.settingsTab := s |} in
        match Page.inSettingsTab (SettingsTab.saveSettings) srv page t0 with
        | (r, page', t') =>
            (r, Page.settingsTab page', t') = SettingsTab.saveSettings srv s t0
            /\ Page.notification page' = Page.notification page
        end).
Proof.
  intros Hs Hk.
  split; [|intros app s t0; apply PageFacts.inSettingsTab_frame].
  assert (N : networks (SettingsTab.with_field key value cfg) = networks cfg).
  { apply (SettingsFacts.field_with_field_other key SettingsTab.K_networks).
    congruence. }
  unfold SettingsTab.updateSetting, SettingsTab.updateNetwork,
    SettingsTab.saveSettings, SettingsTab.setSettings, SettingsTab.setSaving.
  run_handler. rewrite Hs.
  cbn -[SettingsTab.with_field SettingsTab.with_networks].
  rewrite N.
  destruct (srv _) as [|res] eqn:E;
    cbn -[SettingsTab.with_field SettingsTab.with_networks];
    [|destruct (ok res) eqn:O;
      cbn -[SettingsTab.with_field SettingsTab.with_networks]];
    (eexists; split; [reflexivity|]; split; [reflexivity|];
     split; [rewrite SettingsFacts.field_with_networks by exact Hk;
             apply SettingsFacts.field_with_field_same|];
     rewrite SettingsFacts.networks_with_networks;
     split; [apply lookup_insert_eq|];
     split; [intros other No; now apply lookup_insert_ne|];
     split; [intros k K1 K2;
             rewrite SettingsFacts.field_with_networks by exact K2;
             now apply SettingsFacts.field_with_field_other|];
     split; [reflexivity|]; split; [reflexivity|];
     rewrite ?E, ?O; reflexivity).
Qed.

Lemma save_sends_the_working_copy_witness :
  match SettingsTab.updateSetting SettingsTab.K_nickname "xdcc"
          (Sample.always 200 "{}") Sample.settings_state [] with
  | (_, st1, t1) =>
      match SettingsTab.updateNetwork "libera" (SettingsTab.F_port 7000)
              (Sample.always 200 "{}") st1 t1 with
      | (_, st2, t2) =>
          match SettingsTab.saveSettings (Sample.always 200 "{}") st2 t2 with
          | (_, st3, t3) =>
              exists doc,
                t3 = [Sent (put_ "/api/settings" (SettingsBody doc))]
                /\ nickname doc = "xdcc"
                /\ SettingsTab.toast st3 = Spec.shown "Settings saved!" success
          end
      end
  end.
Proof.
  assert (K : SettingsTab.K_nickname <> SettingsTab.K_networks) by discriminate.
  destruct (save_sends_the_working_copy (Sample.always 200 "{}")
              Sample.settings_state [] Sample.config SettingsTab.K_nickname
              "xdcc" "libera" (SettingsTab.F_port 7000) eq_refl K) as [H _].
  destruct (SettingsTab.updateSetting _ _ _ _ _) as [[r1 st1] t1].
  destruct (SettingsTab.updateNetwork _ _ _ _ _) as [[r2 st2] t2].
  destruct (SettingsTab.saveSettings _ _ _) as [[r3 st3] t3].
  destruct H as (doc & _ & H1 & H2 & _ & _ & _ & _ & _ & H3).
  exists doc. split; [exact H1|]. split; [exact H2|]. exact H3.
Defined.

(** ** The autojoin draft *)

Module DraftFacts.

Lemma split_at_sep sep (a b : string) :
  Str.contains_char sep a = false ->
  Str.split sep (a ++ String sep b) = a :: Str.split sep b.
Proof.
  induction a as [|c a IH]; intros H.
  - rewrite UriFacts.append_nil. simpl. now rewrite Ascii.eqb_refl.
  - simpl in H. apply orb_false_iff in H as [Hc Ha].
    rewrite UriFacts.append_cons. simpl. rewrite Hc, (IH Ha). reflexivity.
Qed.

Lemma split_without_sep sep (a : string) :
  Str.contains_char sep a = false -> Str.split sep a = [a].
Proof.
  induction a as [|c a IH]; intros H; [reflexivity|].
  simpl in H. apply orb_false_iff in H as [Hc Ha].
  simpl. now rewrite Hc, (IH Ha).
Qed.

Lemma contains_char_In c s :
  Str.contains_char c s = true <-> In c (Str.chars s).
Proof.
  induction s as [|a s IH]; simpl; [easy|].
  rewrite orb_true_iff, IH, Ascii.eqb_eq. reflexivity.
Qed.

Lemma trim_keeps_out c s :
  Str.contains_char c s = false -> Str.contains_char c (Str.trim s) = false.
Proof.
  intros H. destruct (Str.contains_char c (Str.trim s)) eqn:E; [|reflexivity].
  apply contains_char_In in E.
  destruct (StrFacts.trim_spec s) as (before & after & Hs & _).
  assert (Hin : In c (Str.chars s)).
  { rewrite Hs. apply in_or_app. right. apply in_or_app. now left. }
  apply contains_char_In in Hin. congruence.
Qed.

Lemma trim_after_space s : Str.trim (String " " s) = Str.trim s.
Proof. reflexivity. Qed.

Lemma join_two sep x y r :
  Str.join sep (x :: y :: r) = x ++ sep ++ Str.join sep (y :: r).
Proof. reflexivity. Qed.

(** The segments of a displayed list, trimmed, are the list. *)
Lemma segments_of_display l :
  l <> [] ->
  Forall (fun c => Str.trim c = c /\ Str.contains_char "," c = false) l ->
  forall pre, pre = "" \/ pre = " " ->
    List.map Str.trim (Str.split "," (pre ++ Str.join ", " l)) = l.
Proof.
  induction l as [|x l IH]; intros Hne F pre Hpre; [now contradiction Hne|].
  inversion F as [|? ? [Tx Cx] F']; subst.
  assert (Cp : Str.contains_char "," (pre ++ x) = false)
    by (destruct Hpre as [->| ->]; [exact Cx | simpl; exact Cx]).
  assert (Tp : Str.trim (pre ++ x) = x)
    by (destruct Hpre as [->| ->]; [exact Tx | rewrite <- Tx at 2; reflexivity]).
  destruct l as [|y r].
  - simpl Str.join. rewrite (split_without_sep _ _ Cp). simpl. now rewrite Tp.
  - rewrite join_two.
    replace (pre ++ x ++ ", " ++ Str.join ", " (y :: r))
      with ((pre ++ x) ++ String "," (" " ++ Str.join ", " (y :: r)))
      by (rewrite UriFacts.append_assoc; reflexivity).
    rewrite (split_at_sep _ _ _ Cp), List.map_cons, Tp. f_equal.
    apply (IH ltac:(discriminate) F' " "). now right.
Qed.

Lemma filter_nonempty l :
  Forall (fun c : string => c <> "") l ->
  List.filter (fun c => negb (Str.is_empty c)) l = l.
Proof.
  induction 1 as [|c l Hc _ IH]; [reflexivity|].
  simpl. destruct c; [now contradiction Hc|]. simpl. now rewrite IH.
Qed.

Lemma parse_display channels :
  Forall (fun c => c <> "" /\ Str.trim c = c
                   /\ Str.contains_char "," c = false) channels ->
  AutojoinInput.parse_channels (AutojoinDraft.display channels) = channels.
Proof.
  intros F. unfold AutojoinInput.parse_channels, AutojoinDraft.display.
  destruct channels as [|x l]; [reflexivity|].
  rewrite <- (UriFacts.append_nil (Str.join ", " (x :: l))).
  rewrite segments_of_display; [| discriminate | | now left].
  - apply filter_nonempty. eapply Forall_impl; [exact F|]. now intros c [H _].
  - eapply Forall_impl; [exact F|]. now intros c (_ & H1 & H2).
Qed.

Lemma parsed_channels_ok draft :
  Forall (fun c => c <> "" /\ Str.trim c = c
                   /\ Str.contains_char "," c = false)
    (AutojoinInput.parse_channels draft).
Proof.
  unfold AutojoinInput.parse_channels.
  pose proof (StrFacts.split_no_sep "," draft) as F.
  induction F as [|g gs Hg _ IH]; simpl; [constructor|].
  destruct (Str.trim g) eqn:E; simpl; [exact IH|].
  constructor; [|exact IH]. rewrite <- E.
  split; [rewrite E; discriminate|].
  split; [apply StrFacts.trim_idem | now apply trim_keeps_out].
Qed.

End DraftFacts.

(** X25: the text an autojoin input shows for a list of channels parses
    back to that list, provided no channel is empty, starts or ends with
    white space or holds a comma; the lists [handleBlur] commits are of
    that kind, so leaving the input again without typing commits the same
    list, and through [commitAutojoin] the network gets exactly the list
    that was shown. *)
Theorem autojoin_display_parse_round_trip :
  (forall channels,
     Forall (fun c => c <> "" /\ Str.trim c = c
                      /\ Str.contains_char "," c = false) channels ->
     AutojoinInput.parse_channels (AutojoinDraft.display channels) = channels)
  /\ (forall draft,
        AutojoinInput.parse_channels
          (AutojoinDraft.display (AutojoinInput.parse_channels draft))
        = AutojoinInput.parse_channels draft)
  /\ (forall channels name srv st t,
        Forall (fun c => c <> "" /\ Str.trim c = c
                         /\ Str.contains_char "," c = false) channels ->
        SettingsTab.commitAutojoin name (AutojoinDraft.display channels) srv st t
        = SettingsTab.updateNetwork name
            (SettingsTab.F_autojoin_channels channels) srv st t).
Proof.
  split; [exact DraftFacts.parse_display|]. split.
  - intros draft. apply DraftFacts.parse_display, DraftFacts.parsed_channels_ok.
  - intros channels name srv st t F.
    unfold SettingsTab.commitAutojoin, AutojoinInput.handleBlur.
    cbv zeta. now rewrite (DraftFacts.parse_display _ F).
Qed.

Lemma autojoin_display_parse_round_trip_witness :
  AutojoinInput.parse_channels (AutojoinDraft.display ["#a"; "#b c"; "#d"])
  = ["#a"; "#b c"; "#d"].
Proof.
  apply (proj1 autojoin_display_parse_round_trip).
  repeat (constructor; [split; [discriminate | split; reflexivity]|]).
  constructor.
Defined.

(** ** The activities view *)

Module ActivityFacts.

Import Activities.

Lemma is_status_spec status s : is_status status s = true <-> status = VStr s.
Proof.
  destruct status; simpl; try (split; [discriminate | intros [=]]).
  rewrite String.eqb_eq. split; [now intros -> | now intros [=]].
Qed.

Lemma count_active_ok items :
  Forall (fun t => exists s, Js.get t "status" = Ok s) items ->
  count_active items
  = Ok (Z.of_nat (List.length
                    (List.filter (fun t =>
                                    match Js.get t "status" with
                                    | Ok s => is_active s
                                    | Throw _ => false
                                    end) items))).
Proof.
  induction 1 as [|t items [s Hs] _ IH]; [reflexivity|].
  cbn [count_active List.filter]. rewrite Hs, IH. cbn [rbind].
  destruct (is_active s); [|reflexivity].
  cbn [List.length]. f_equal. lia.
Qed.

Lemma count_active_null items :
  In VNull items -> count_active items = Throw TypeError.
Proof.
  induction items as [|t items IH]; intros Hin; [contradiction|].
  cbn [count_active]. destruct Hin as [->|Hin]; [reflexivity|].
  rewrite (IH Hin). destruct (Js.get t "status") as [s|e] eqn:G; [reflexivity|].
  destruct t; simpl in G; try discriminate G; now injection G as <-.
Qed.

End ActivityFacts.

(** X26: what a row of the transfer list offers, by status.  Retry is
    offered exactly for [failed] and [cancelled]; every other status --
    [completed] and unknown ones included -- gets the cancel button.  The
    progress bar is shown exactly for [downloading].  A transfer the header
    counts as active always has the cancel button and a bar or pulse;
    [pending] pulses but is not counted as active.  The status dot is
    [bg-warning] for every status other than downloading, completed, failed
    and cancelled. *)
Theorem transfer_row_by_status (status : value) :
  (Activities.control status = Activities.Retry
   <-> status = VStr "failed" \/ status = VStr "cancelled")
  /\ (Activities.indicator status = Activities.Bar
      <-> status = VStr "downloading")
  /\ (Activities.is_active status = true ->
      Activities.control status = Activities.Cancel
      /\ Activities.indicator status <> Activities.Blank)
  /\ (Activities.indicator status = Activities.Pulse
      /\ Activities.is_active status = false
      <-> status = VStr "pending")
  /\ (status = VStr "completed" ->
      Activities.control status = Activities.Cancel
      /\ Activities.indicator status = Activities.Blank
      /\ Activities.is_active status = false)
  /\ (Activities.getStatusColor status = "bg-warning"
      <-> status <> VStr "downloading" /\ status <> VStr "completed"
          /\ status <> VStr "failed" /\ status <> VStr "cancelled").
Proof.
  unfold Activities.control, Activities.indicator, Activities.is_active,
    Activities.getStatusColor, Activities.one_of. cbn [existsb].
  destruct (Activities.is_status status "downloading") eqn:E1;
    [apply ActivityFacts.is_status_spec in E1 as ->; cbn;
     repeat split; intros; try discriminate; intuition congruence|].
  destruct (Activities.is_status status "completed") eqn:E2;
    [apply ActivityFacts.is_status_spec in E2 as ->; cbn;
     repeat split; intros; try discriminate; intuition congruence|].
  destruct (Activities.is_status status "failed") eqn:E3;
    [apply ActivityFacts.is_status_spec in E3 as ->; cbn;
     repeat split; intros; try discriminate; intuition congruence|].
  destruct (Activities.is_status status "cancelled") eqn:E4;
    [apply ActivityFacts.is_status_spec in E4 as ->; cbn;
     repeat split; intros; try discriminate; intuition congruence|].
  destruct (Activities.is_status status "pending") eqn:E5;
    [apply ActivityFacts.is_status_spec in E5 as ->; cbn;
     repeat split; intros; try discriminate; intuition congruence|].
  destruct (Activities.is_status status "connecting") eqn:E6;
    [apply ActivityFacts.is_status_spec in E6 as ->; cbn;
     repeat split; intros; try discriminate; intuition congruence|].
  destruct (Activities.is_status status "joining") eqn:E7;
    [apply ActivityFacts.is_status_spec in E7 as ->; cbn;
     repeat split; intros; try discriminate; intuition congruence|].
  destruct (Activities.is_status status "requesting") eqn:E8;
    [apply ActivityFacts.is_status_spec in E8 as ->; cbn;
     repeat split; intros; try discriminate; intuition congruence|].
  cbn.
  assert (N : forall s, Activities.is_status status s = false -> status <> VStr s).
  { intros s H ->. simpl in H. now rewrite String.eqb_refl in H. }
  repeat split; intros; try discriminate; try (now apply N);
    try (intuition (subst; simpl in *; discriminate)).
Qed.

Lemma transfer_row_by_status_witness :
  Activities.control (VStr "completed") = Activities.Cancel
  /\ Activities.control (VStr "connecting") = Activities.Cancel.
Proof.
  split.
  - destruct (transfer_row_by_status (VStr "completed"))
      as (_ & _ & _ & _ & H & _).
    exact (proj1 (H eq_refl)).
  - destruct (transfer_row_by_status (VStr "connecting")) as (_ & _ & H & _).
    exact (proj1 (H eq_refl)).
Defined.

(** X27: the number of active downloads in the header of the activities
    view.  For a list of transfers it is the number of items whose status
    is downloading, connecting, joining or requesting, so between 0 and the
    length of the list; for a list with a [null] item, and for a transfers
    cell that is not a list, computing it throws a TypeError.  The poller
    produces such a cell: when the transfers endpoint answers with a body
    whose [transfers] property is truthy and not a list, the cell holds
    that value after the poll and the count throws. *)
Theorem activeDownloads_counts_or_throws :
  (forall items,
     Forall (fun t => exists s, Js.get t "status" = Ok s) items ->
     exists n,
       Activities.activeDownloads (VArr items) = Ok n
       /\ n = Z.of_nat (List.length
                          (List.filter
                             (fun t =>
                                match Js.get t "status" with
                                | Ok s => Activities.is_active s
                                | Throw _ => false
                                end) items))
       /\ 0 <= n <= Z.of_nat (List.length items))
  /\ (forall items,
        In VNull items ->
        Activities.activeDownloads (VArr items) = Throw TypeError)
  /\ (forall v,
        (forall items, v <> VArr items) ->
        Activities.activeDownloads v = Throw TypeError)
  /\ (forall srv st t res data v,
        srv (get_ "/api/transfers") = Responded res ->
        Json.parse (Eff.decoded (text res)) = Ok data ->
        Js.get data "transfers" = Ok v ->
        Js.truthy v = true ->
        (forall items, v <> VArr items) ->
        match App.fetchUpdates srv st t with
        | (_, st', _) =>
            App.transfers st' = v
            /\ Activities.activeDownloads (App.transfers st') = Throw TypeError
        end).
Proof.
  assert (K : forall v, (forall items, v <> VArr items) ->
                        Activities.activeDownloads v = Throw TypeError).
  { intros v N. destruct v; try reflexivity. now contradiction (N items). }
  split; [|split; [|split]].
  - intros items F. eexists. split; [|split; [reflexivity|]].
    + simpl. now apply ActivityFacts.count_active_ok.
    + pose proof (List.filter_length_le
                    (fun t => match Js.get t "status" with
                              | Ok s => Activities.is_active s
                              | Throw _ => false
                              end) items). lia.
  - intros items Hin. simpl. now apply ActivityFacts.count_active_null.
  - exact K.
  - intros srv st t res data v Hsrv Hp Hg Ht N.
    destruct (AppFacts.fetchUpdates_run srv st t)
      as (s & q & x & -> & _ & _ & H3).
    unfold Spec.slice_after in H3. rewrite Hsrv, Hp in H3.
    assert (E : x = v).
    { destruct data; try discriminate Hg;
        destruct H3 as (v' & Hv' & ->); rewrite Hg in Hv';
        injection Hv' as <-; unfold Js.or; now rewrite Ht. }
    subst x. destruct st. simpl. split; [reflexivity | now apply K].
Qed.

Lemma activeDownloads_counts_or_throws_witness :
  match App.fetchUpdates
          (Sample.always 200 ("{" ++ Json.quoted "transfers" ++ ": {}}"))
          Sample.polled [] with
  | (_, st', _) =>
      Activities.activeDownloads (App.transfers st') = Throw TypeError
  end.
Proof.
  destruct activeDownloads_counts_or_throws as (_ & _ & _ & H).
  specialize (H (Sample.always 200 ("{" ++ Json.quoted "transfers" ++ ": {}}"))
                Sample.polled []
                {| status := 200;
                   text := "{" ++ Json.quoted "transfers" ++ ": {}}" |}
                (VObj [("transfers", VObj [])]) (VObj [])
                eq_refl eq_refl eq_refl eq_refl).
  destruct (App.fetchUpdates _ _ _) as [[r st'] t'].
  apply H. discriminate.
Defined.
